(** * Medical Telegram warehouse: the transformation and validation engine

    A shallow embedding of [run_task2.py] (class [Task2DataWarehouse]),
    followed by the properties of the record loader, the staging layer, the
    date and channel dimensions, the fact table and the quality-test runner.
    The command loop [run_dbt_commands] of
    [scripts/load_to_postgres_and_run_dbt.py] and [classify_image] of
    [src/yolo_detect.py] are embedded as well.

    Conventions of the embedding.
    - A table is the list of its rows in rowid order; a table that has not
      been created is [None] in the [warehouse] record.
    - SQL NULL is [None]; a nullable column has an [option] type.
    - The column [message_date] holds text. A value of the column is its
      text together with the moment that SQLite's date functions read from
      it, in seconds since 1970-01-01T00:00:00 UTC: comparisons, MIN and MAX
      see the text, [DATE] and the joins on it see the moment. Text from
      which SQLite reads no date is outside the embedding. A calendar day
      ('YYYY-MM-DD' text) is the number of days since 1970-01-01.
    - A text value is the list of the bytes of its UTF-8 encoding.
    - A REAL value that the code rounds to two decimals is held as an integer
      number of hundredths ([centi]): 12.34 is [1234]. The arithmetic is
      exact (rational) where SQLite uses IEEE doubles, so that the last
      digit can differ from SQLite's; the statements below speak of the
      range of such a value and of whether it is NULL, never of its digits.
    - One call of a pipeline method reads the clock once: [now] is the UTC
      time ([CURRENT_TIMESTAMP], [DATE('now')]) and [today] the local
      calendar day of [datetime.now().date()].
    - An exception is [None]; a call that raises after it has changed the
      database has a second function for the database that it leaves. *)

From Stdlib Require Import ZArith List String Ascii Bool Lia Permutation.
Import ListNotations.

Local Open Scope Z_scope.
Local Open Scope bool_scope.

(** ** SQL scalar functions used by the queries *)

Module Sql.

(** [COALESCE(x, d)] *)
Definition COALESCE {A : Type} (x : option A) (d : A) : A :=
  match x with Some a => a | None => d end.

(** [NULLIF(x, y)] on integers *)
Definition NULLIF (x y : Z) : option Z :=
  if x =? y then None else Some x.

Definition is_space (c : ascii) : bool := Ascii.eqb c " "%char.

Fixpoint ltrim (s : string) : string :=
  match s with
  | EmptyString => EmptyString
  | String c s' => if is_space c then ltrim s' else s
  end.

Fixpoint rtrim (s : string) : string :=
  match s with
  | EmptyString => EmptyString
  | String c s' =>
      match rtrim s' with
      | EmptyString => if is_space c then EmptyString else String c EmptyString
      | t => String c t
      end
  end.

(** [TRIM(X)]: SQLite removes spaces (0x20), and only spaces, from both
    ends of [X]. *)
Definition TRIM (s : string) : string := rtrim (ltrim s).

(** A text value is the list of the bytes of its UTF-8 encoding. A byte
    10xxxxxx continues a character, a byte 11xxxxxx starts one of several
    bytes. *)
Definition is_continuation (c : ascii) : bool :=
  let n := N_of_ascii c in (128 <=? n)%N && (n <? 192)%N.

Definition is_lead (c : ascii) : bool := (192 <=? N_of_ascii c)%N.

Definition is_nul (c : ascii) : bool := (N_of_ascii c =? 0)%N.

(** The loop of SQLite's [lengthFunc]: it stops at the first NUL and does
    not count the continuation bytes that follow a lead byte; [in_char] is
    true while these are being skipped. *)
Fixpoint length_from (in_char : bool) (s : string) : Z :=
  match s with
  | EmptyString => 0
  | String c s' =>
      if is_nul c then 0
      else if in_char && is_continuation c then length_from true s'
      else 1 + length_from (is_lead c) s'
  end.

(** [LENGTH(X)]: the number of characters of a text value before its first
    NUL character. *)
Definition LENGTH (s : string) : Z := length_from false s.

(** [X <= Y] and [X < Y] on text values under the BINARY collation: the
    bytes are compared one by one, and a text comes after each of its proper
    prefixes. *)
Definition text_le (x y : string) : bool := String.leb x y.

Definition text_lt (x y : string) : bool := String.ltb x y.

(** [LOWER(X)] folds the ASCII letters only. *)
Definition lower_ascii (c : ascii) : ascii :=
  let n := N_of_ascii c in
  if (65 <=? n)%N && (n <=? 90)%N then ascii_of_N (n + 32) else c.

Fixpoint LOWER (s : string) : string :=
  match s with
  | EmptyString => EmptyString
  | String c s' => String (lower_ascii c) (LOWER s')
  end.

(** [X LIKE P], as [like_match P X]: ['%'] matches any run of characters,
    ['_'] any one character, any other character matches itself up to
    ASCII case. *)
Fixpoint like_match (p : string) : string -> bool :=
  match p with
  | EmptyString => fun s => match s with EmptyString => true | _ => false end
  | String c p' =>
      if Ascii.eqb c "%"%char then
        fix skip (s : string) : bool :=
          like_match p' s
          || match s with EmptyString => false | String _ s' => skip s' end
      else if Ascii.eqb c "_"%char then
        fun s => match s with
                 | EmptyString => false
                 | String _ s' => like_match p' s'
                 end
      else
        fun s => match s with
                 | EmptyString => false
                 | String d s' =>
                     Ascii.eqb (lower_ascii c) (lower_ascii d) && like_match p' s'
                 end
  end.

Definition LIKE (x p : string) : bool := like_match p x.

(** Hundredths of a unit: the value of [ROUND(x, 2)] times 100. *)
Definition centi : Type := Z.

(** [ROUND(num / den, 2)] for [den > 0], rounding half away from zero. *)
Definition ROUND2 (num den : Z) : centi :=
  if 0 <=? num then (2 * (100 * num) + den) / (2 * den)
  else - ((2 * (100 * - num) + den) / (2 * den)).

End Sql.

(** ** Timestamps *)

(** A value of a timestamp column: the text that is stored, and the moment
    that SQLite's date functions read from it. *)
Module Timestamp.
Record t : Type := mk {
  text : string;
  instant : Z
}.
End Timestamp.

(** ** Calendar fields of a day number (SQLite's [strftime]) *)

Module Calendar.

Definition seconds_per_day : Z := 86400.

(** The UTC day of a moment. *)
Definition utc_day (instant : Z) : Z := instant / seconds_per_day.

(** [DATE(ts)] of a timestamp column. *)
Definition DATE (ts : Timestamp.t) : Z := utc_day (Timestamp.instant ts).

(** Proleptic Gregorian (year, month, day) of a day number. *)
Definition civil (z : Z) : Z * Z * Z :=
  let z := z + 719468 in
  let era := z / 146097 in
  let doe := z - era * 146097 in
  let yoe := (doe - doe / 1460 + doe / 36524 - doe / 146096) / 365 in
  let doy := doe - (365 * yoe + yoe / 4 - yoe / 100) in
  let mp := (5 * doy + 2) / 153 in
  let d := doy - (153 * mp + 2) / 5 + 1 in
  let m := if mp <? 10 then mp + 3 else mp - 9 in
  let y := yoe + era * 400 in
  (if m <=? 2 then y + 1 else y, m, d).

(** Day number of a (year, month, day). *)
Definition day_number (y m d : Z) : Z :=
  let y := if m <=? 2 then y - 1 else y in
  let era := y / 400 in
  let yoe := y - era * 400 in
  let doy := (153 * (if 2 <? m then m - 3 else m + 9) + 2) / 5 + d - 1 in
  let doe := yoe * 365 + yoe / 4 - yoe / 100 + doy in
  era * 146097 + doe - 719468.

Definition year (z : Z) : Z := fst (fst (civil z)).
Definition month (z : Z) : Z := snd (fst (civil z)).
Definition day_of_month (z : Z) : Z := snd (civil z).

(** [strftime('%w')]: 0 is Sunday; day 0 was a Thursday. *)
Definition day_of_week (z : Z) : Z := (z + 4) mod 7.

(** [strftime('%j') - 1] *)
Definition day_of_year (z : Z) : Z := z - day_number (year z) 1 1.

(** [strftime('%W')]: week of the year, Monday first, 00 to 53. *)
Definition week_W (z : Z) : Z :=
  (day_of_year z + 7 - (day_of_week z + 6) mod 7) / 7.

(** [CAST(strftime('%Y%m%d', date) AS INTEGER)] *)
Definition yyyymmdd (z : Z) : Z :=
  year z * 10000 + month z * 100 + day_of_month z.

(** The clock as SQLite prints it. Its moments lie between
    0000-01-01 00:00:00 and 9999-12-31 23:59:59; a moment outside is taken
    for the nearest of the two. *)
Definition first_second : Z := day_number 0 1 1 * seconds_per_day.

Definition last_second : Z := day_number 9999 12 31 * seconds_per_day + 86399.

Definition clock (now : Z) : Z := Z.max first_second (Z.min now last_second).

Definition digit (n : Z) : ascii := ascii_of_N (48 + Z.to_N n).

(** [%02d] *)
Definition two_digits (n : Z) : string :=
  String (digit (n / 10)) (String (digit (n mod 10)) EmptyString).

(** [%04d] *)
Definition four_digits (n : Z) : string :=
  (two_digits (n / 100) ++ two_digits (n mod 100))%string.

(** 'YYYY-MM-DD' of a day number. *)
Definition date_text (z : Z) : string :=
  (four_digits (year z) ++ "-" ++ two_digits (month z) ++ "-"
   ++ two_digits (day_of_month z))%string.

(** 'HH:MM:SS' of a second of the day. *)
Definition time_text (second : Z) : string :=
  (two_digits (second / 3600) ++ ":" ++ two_digits (second / 60 mod 60) ++ ":"
   ++ two_digits (second mod 60))%string.

(** [CURRENT_TIMESTAMP]: 'YYYY-MM-DD HH:MM:SS', in UTC. *)
Definition CURRENT_TIMESTAMP (now : Z) : string :=
  let t := clock now in
  (date_text (utc_day t) ++ " " ++ time_text (t mod seconds_per_day))%string.

(** [DATE('now', '-n days')]: 'YYYY-MM-DD'. *)
Definition DATE_now_minus (now n : Z) : string :=
  date_text (utc_day (clock now) - n).

End Calendar.

(** ** The dates that the scraper writes *)

(** [message.date.isoformat()] of [src/scraper.py]: Telethon gives the date
    of a message in UTC and in whole seconds, which Python writes as
    'YYYY-MM-DDTHH:MM:SS+00:00'. *)
Definition isoformat (instant : Z) : string :=
  (Calendar.date_text (Calendar.utc_day instant) ++ "T"
   ++ Calendar.time_text (instant mod Calendar.seconds_per_day) ++ "+00:00")%string.

(** The [message_date] of a record that the scraper wrote. *)
Definition scraped (instant : Z) : Timestamp.t :=
  Timestamp.mk (isoformat instant) instant.


(** ** The tables of the warehouse *)

(** [raw_telegram_messages]. The columns [id] (the rowid, which is the
    position in the list) and [created_at] are read by no query and are left
    out. [message_id] and [channel_name] are declared NOT NULL. *)
Module Raw.
Record row : Type := mk {
  message_id : Z;
  channel_name : string;
  channel_username : option string;
  channel_title : option string;
  message_date : option Timestamp.t;
  message_text : option string;
  has_media : option bool;
  image_path : option string;
  views : option Z;
  forwards : option Z;
  scraped_at : option Z
}.
End Raw.

(** The rows of the CTE [raw_data]: [message_date] is not NULL, [views] and
    [forwards] have been coalesced. *)
Module RawData.
Record row : Type := mk {
  message_id : Z;
  channel_name : string;
  channel_username : option string;
  channel_title : option string;
  message_date : Timestamp.t;
  message_text : option string;
  has_media : option bool;
  image_path : option string;
  views : Z;
  forwards : Z;
  scraped_at : option Z
}.
End RawData.

Inductive quality_status : Type := valid | needs_review.

(** [stg_telegram_messages]: the columns of [raw_data] ([src]) followed by
    the derived columns of [cleaned_data] and by [data_quality_status]. *)
Module Stg.
Record row : Type := mk {
  src : RawData.row;
  cleaned_message_text : option string;
  message_length : option Z;
  has_image : bool;
  is_empty_message : bool;
  is_future_date : bool;
  has_negative_views : bool;
  data_quality_status : quality_status
}.
Definition message_id (s : row) : Z := RawData.message_id (src s).
Definition channel_name (s : row) : string := RawData.channel_name (src s).
Definition channel_username (s : row) := RawData.channel_username (src s).
Definition channel_title (s : row) := RawData.channel_title (src s).
Definition message_date (s : row) : Timestamp.t := RawData.message_date (src s).
Definition message_text (s : row) := RawData.message_text (src s).
Definition has_media (s : row) := RawData.has_media (src s).
Definition views (s : row) : Z := RawData.views (src s).
Definition forwards (s : row) : Z := RawData.forwards (src s).
End Stg.

(** [dim_dates] *)
Module DimDate.
Record row : Type := mk {
  date_key : Z;
  full_date : Z;
  year : Z;
  quarter : Z;
  month : Z;
  month_name : option string;
  week_of_year : Z;
  day_of_month : Z;
  day_of_week : Z;
  day_name : option string;
  is_weekend : bool
}.
End DimDate.

Inductive channel_type : Type := Pharmaceutical | Cosmetics | Medical | Other.

Inductive activity_status : Type := active | moderate | inactive.

(** The rows of the CTE [channel_stats]; [avg_views] and [avg_forwards] are
    kept as the sum over the group, to be divided by [total_posts]. *)
Module ChannelStats.
Record row : Type := mk {
  channel_name : string;
  channel_username : option string;
  channel_title : option string;
  first_post_date : Timestamp.t;
  last_post_date : Timestamp.t;
  total_posts : Z;
  sum_views : Z;
  sum_forwards : Z;
  posts_with_media : Z;
  posts_with_image : Z
}.
End ChannelStats.

(** [dim_channels] *)
Module DimChannel.
Record row : Type := mk {
  channel_key : Z;
  channel_name : string;
  channel_username : option string;
  channel_title : option string;
  channel_type_ : channel_type;
  first_post_date : Timestamp.t;
  last_post_date : Timestamp.t;
  total_posts : Z;
  avg_views : Sql.centi;
  avg_forwards : Sql.centi;
  posts_with_media : Z;
  posts_with_image : Z;
  media_percentage : option Sql.centi;
  image_percentage : option Sql.centi;
  activity_status_ : activity_status
}.
End DimChannel.

(** [fct_messages] *)
Module Fct.
Record row : Type := mk {
  message_id : Z;
  channel_key : Z;
  date_key : Z;
  message_text : option string;
  message_length : option Z;
  view_count : Z;
  forward_count : Z;
  has_image : bool;
  data_quality_status : quality_status
}.
End Fct.

(** The SQLite database behind [conn]: each table is absent until created. *)
Record warehouse : Type := mk_warehouse {
  raw_telegram_messages : option (list Raw.row);
  stg_telegram_messages : option (list Stg.row);
  dim_dates : option (list DimDate.row);
  dim_channels : option (list DimChannel.row);
  fct_messages : option (list Fct.row)
}.

Definition empty_warehouse : warehouse := mk_warehouse None None None None None.

(** ** RecordLoader: [Task2DataWarehouse.load_raw_data] *)

(** One key of a message object of the input JSON: the key may be missing,
    hold [null], hold a value of the kind the column expects, or hold a
    value that [sqlite3] cannot bind as a parameter (an array, an object). *)
Inductive field (A : Type) : Type :=
| Missing
| Null
| Value (a : A)
| Unbindable.
Arguments Missing {A}.
Arguments Null {A}.
Arguments Value {A} a.
Arguments Unbindable {A}.

(** A message object ([dict]) of a batch. *)
Module Msg.
Record t : Type := mk {
  message_id : field Z;
  channel_name : field string;
  channel_username : field string;
  channel_title : field string;
  message_date : field Timestamp.t;
  message_text : field string;
  has_media : field bool;
  image_path : field string;
  views : field Z;
  forwards : field Z;
  scraped_at : field Z
}.
End Msg.

(** An element of a batch: a message object, or anything else. *)
Inductive json_elem : Type :=
| JDict (m : Msg.t)
| JOther.

(** The content of one input file: a list, a single value, or text that
    [json.load] rejects. *)
Inductive json_file : Type :=
| FileList (messages : list json_elem)
| FileSingle (data : json_elem)
| FileBad.

(** What executing a statement gives: a value, or an exception. *)
Definition exn (A : Type) : Type := option A.

Notation "'do' x <- e ; k" :=
  (match e with Some x => k | None => None end)
  (at level 10, x name, e at level 200, k at level 200, only parsing).

(** [msg.get(key)] and [msg.get(key, default)] bound as a statement
    parameter: [dflt] is [None] for the one-argument form. The result is the
    SQL value, or an exception for a value that cannot be bound. *)
Definition bind_get {A : Type} (f : field A) (dflt : option A) : exn (option A) :=
  match f with
  | Missing => Some dflt
  | Null => Some None
  | Value a => Some (Some a)
  | Unbindable => None
  end.

(** [sqlite3] binds a Python [int] as a 64-bit INTEGER and raises
    [OverflowError] for one that does not fit. *)
Definition int64 (z : Z) : bool := (- 2 ^ 63 <=? z) && (z <? 2 ^ 63).

Definition sqlite_int (f : field Z) : field Z :=
  match f with
  | Value z => if int64 z then Value z else Unbindable
  | _ => f
  end.

Definition same_key (mid : Z) (cn : string) (r : Raw.row) : bool :=
  (Raw.message_id r =? mid) && String.eqb (Raw.channel_name r) cn.

(** [INSERT OR IGNORE INTO raw_telegram_messages ... VALUES (?, ...)]: a row
    that would break NOT NULL or UNIQUE(message_id, channel_name) is
    skipped. [clock] is [datetime.now()]. *)
Definition insert_or_ignore (clock : Z) (tbl : list Raw.row) (msg : Msg.t)
  : exn (list Raw.row) :=
  do mid <- bind_get (sqlite_int (Msg.message_id msg)) None;
  do cn <- bind_get (Msg.channel_name msg) (Some EmptyString);
  do cu <- bind_get (Msg.channel_username msg) None;
  do ct <- bind_get (Msg.channel_title msg) None;
  do md <- bind_get (Msg.message_date msg) None;
  do mt <- bind_get (Msg.message_text msg) (Some EmptyString);
  do hm <- bind_get (Msg.has_media msg) (Some false);
  do ip <- bind_get (Msg.image_path msg) None;
  do vw <- bind_get (sqlite_int (Msg.views msg)) (Some 0);
  do fw <- bind_get (sqlite_int (Msg.forwards msg)) (Some 0);
  do sa <- bind_get (Msg.scraped_at msg) (Some clock);
  match mid, cn with
  | Some mid, Some cn =>
      if existsb (same_key mid cn) tbl then Some tbl
      else Some (tbl ++ [Raw.mk mid cn cu ct md mt hm ip vw fw sa])
  | _, _ => Some tbl
  end.

(** The loop [for msg in messages]: the table after the loop, and whether
    the loop ran to its end ([false]: an exception left it). *)
Fixpoint load_messages (clock : Z) (tbl : list Raw.row) (messages : list json_elem)
  : list Raw.row * bool :=
  match messages with
  | [] => (tbl, true)
  | JOther :: rest => load_messages clock tbl rest
  | JDict msg :: rest =>
      match insert_or_ignore clock tbl msg with
      | Some tbl' => load_messages clock tbl' rest
      | None => (tbl, false)
      end
  end.

(** The body of [for json_file in json_files], with its [try]/[except]:
    [total_messages += len(messages)] is reached only when nothing raised. *)
Definition load_file (clock : Z) (st : list Raw.row * Z) (f : json_file)
  : list Raw.row * Z :=
  let '(tbl, total_messages) := st in
  match f with
  | FileBad => (tbl, total_messages)
  | FileList messages =>
      let '(tbl', finished) := load_messages clock tbl messages in
      (tbl', if finished then total_messages + Z.of_nat (List.length messages)
             else total_messages)
  | FileSingle data =>
      let '(tbl', finished) := load_messages clock tbl [data] in
      (tbl', if finished then total_messages + 1 else total_messages)
  end.

(** [load_raw_data(conn)]: the database after the call and the value
    returned. [json_files] is the content of the files that the glob finds,
    manifests excluded. *)
Definition load_raw_data (clock : Z) (db : warehouse) (json_files : list json_file)
  : warehouse * Z :=
  let tbl0 := Sql.COALESCE (raw_telegram_messages db) [] in
  let '(tbl, total_messages) := fold_left (load_file clock) json_files (tbl0, 0) in
  (mk_warehouse (Some tbl) (stg_telegram_messages db) (dim_dates db)
                (dim_channels db) (fct_messages db),
   total_messages).

(** ** StagingBuilder: the first statement of [create_star_schema] *)

(** The CTE [raw_data]. *)
Definition source_row (r : Raw.row) (message_date : Timestamp.t) : RawData.row :=
  RawData.mk (Raw.message_id r) (Raw.channel_name r)
    (Raw.channel_username r) (Raw.channel_title r) message_date
    (Raw.message_text r) (Raw.has_media r) (Raw.image_path r)
    (Sql.COALESCE (Raw.views r) 0) (Sql.COALESCE (Raw.forwards r) 0)
    (Raw.scraped_at r).

Definition raw_data (raw : list Raw.row) : list RawData.row :=
  flat_map (fun r =>
    match Raw.message_date r with
    | None => []
    | Some md => [source_row r md]
    end) raw.

Definition is_some {A : Type} (x : option A) : bool :=
  match x with Some _ => true | None => false end.

(** [message_date > CURRENT_TIMESTAMP]: both sides are text, and are
    compared as text. *)
Definition after_clock (now : Z) (message_date : Timestamp.t) : bool :=
  Sql.text_lt (Calendar.CURRENT_TIMESTAMP now) (Timestamp.text message_date).

(** One row of the CTE [cleaned_data] with the [CASE] of the final SELECT. *)
Definition cleaned_row (now : Z) (r : RawData.row) : Stg.row :=
  let cleaned := option_map Sql.TRIM (RawData.message_text r) in
  let is_empty_message :=
    match RawData.message_text r with
    | None => true
    | Some t => String.eqb (Sql.TRIM t) EmptyString
    end in
  let is_future_date := after_clock now (RawData.message_date r) in
  let has_negative_views := RawData.views r <? 0 in
  Stg.mk r cleaned (option_map Sql.LENGTH cleaned)
    (is_some (RawData.image_path r))
    is_empty_message is_future_date has_negative_views
    (if is_empty_message || is_future_date || has_negative_views
     then needs_review else valid).

(** [SELECT *, ... FROM cleaned_data WHERE NOT is_future_date] *)
Definition stg_select (now : Z) (raw : list Raw.row) : list Stg.row :=
  filter (fun s => negb (Stg.is_future_date s))
         (map (cleaned_row now) (raw_data raw)).

Definition is_valid (s : Stg.row) : bool :=
  match Stg.data_quality_status s with valid => true | needs_review => false end.

(** ** DateDimensionBuilder *)

(** [SELECT MIN(DATE(message_date)), MAX(DATE(message_date)) FROM
    stg_telegram_messages WHERE message_date IS NOT NULL]: both NULL on an
    empty table. *)
Definition stg_date_bounds (stg : list Stg.row) : option (Z * Z) :=
  match map (fun s => Calendar.DATE (Stg.message_date s)) stg with
  | [] => None
  | d :: ds => Some (fold_left Z.min ds d, fold_left Z.max ds d)
  end.

(** [min_date], [max_date] after the [if]/[else]. *)
Definition date_window (today : Z) (bounds : option (Z * Z)) : Z * Z :=
  match bounds with
  | Some (min_date, max_date) => (min_date - 30, max_date + 30)
  | None => (today - 365, today + 365)
  end.

(** [datetime.date] holds the days from 0001-01-01 to 9999-12-31: [strptime]
    and the arithmetic with [timedelta] raise for a day outside. *)
Definition date_min : Z := Calendar.day_number 1 1 1.

Definition date_max : Z := Calendar.day_number 9999 12 31.

Definition python_date (d : Z) : exn Z :=
  if (date_min <=? d) && (d <=? date_max) then Some d else None.

(** [min_date], [max_date] as the Python between the two statements
    computes them, and the exception that it raises otherwise. *)
Definition python_date_window (today : Z) (bounds : option (Z * Z)) : exn (Z * Z) :=
  match bounds with
  | Some (min_date, max_date) =>
      do min_date <- python_date min_date;
      do max_date <- python_date max_date;
      do min_date <- python_date (min_date - 30);
      do max_date <- python_date (max_date + 30);
      Some (min_date, max_date)
  | None =>
      do min_date <- python_date (today - 365);
      do max_date <- python_date (today + 365);
      Some (min_date, max_date)
  end.

(** The recursive CTE [date_range]: the first day, then one more day as long
    as the last one is before [max_date]. *)
Fixpoint date_range_from (steps : nat) (date : Z) : list Z :=
  date :: match steps with
          | O => []
          | S steps' => date_range_from steps' (date + 1)
          end.

Definition date_range (min_date max_date : Z) : list Z :=
  date_range_from (Z.to_nat (max_date - min_date)) min_date.

Definition month_name_of (m : Z) : option string :=
  nth_error ["January"; "February"; "March"; "April"; "May"; "June"; "July";
             "August"; "September"; "October"; "November"; "December"]%string
            (Z.to_nat (m - 1)).

Definition day_name_of (w : Z) : option string :=
  nth_error ["Sunday"; "Monday"; "Tuesday"; "Wednesday"; "Thursday"; "Friday";
             "Saturday"]%string (Z.to_nat w).

(** One row of [dim_dates]. *)
Definition date_row (date : Z) : DimDate.row :=
  let m := Calendar.month date in
  let w := Calendar.day_of_week date in
  DimDate.mk (Calendar.yyyymmdd date) date (Calendar.year date)
    ((m - 1) / 3 + 1) m (month_name_of m) (Calendar.week_W date + 1)
    (Calendar.day_of_month date) w (day_name_of w)
    ((w =? 0) || (w =? 6)).

(** The SELECT of [dim_dates] between the two dates that the f-string
    writes into it. *)
Definition dim_dates_between (window : Z * Z) : list DimDate.row :=
  let '(min_date, max_date) := window in
  map date_row (date_range min_date max_date).

(** The rows of [dim_dates] for a staging table. *)
Definition dim_dates_select (today : Z) (stg : list Stg.row) : list DimDate.row :=
  let '(min_date, max_date) := date_window today (stg_date_bounds stg) in
  map date_row (date_range min_date max_date).

(** ** ChannelDimensionBuilder *)

Definition option_string_eqb (a b : option string) : bool :=
  match a, b with
  | None, None => true
  | Some x, Some y => String.eqb x y
  | _, _ => false
  end.

(** Membership of a staging row in a group of
    [GROUP BY channel_name, channel_username, channel_title] (NULLs group
    together). *)
Definition in_group (c : ChannelStats.row) (s : Stg.row) : bool :=
  String.eqb (ChannelStats.channel_name c) (Stg.channel_name s)
  && option_string_eqb (ChannelStats.channel_username c) (Stg.channel_username s)
  && option_string_eqb (ChannelStats.channel_title c) (Stg.channel_title s).

(** [CASE WHEN x THEN 1 ELSE 0 END] *)
Definition flag (b : bool) : Z := if b then 1 else 0.

(** The aggregates of a group that holds one row. *)
Definition stats_first (s : Stg.row) : ChannelStats.row :=
  ChannelStats.mk (Stg.channel_name s) (Stg.channel_username s)
    (Stg.channel_title s) (Stg.message_date s) (Stg.message_date s) 1
    (Stg.views s) (Stg.forwards s)
    (flag (Sql.COALESCE (Stg.has_media s) false)) (flag (Stg.has_image s)).

(** [MIN] and [MAX] of two values of a text column. *)
Definition text_min (a b : Timestamp.t) : Timestamp.t :=
  if Sql.text_le (Timestamp.text a) (Timestamp.text b) then a else b.

Definition text_max (a b : Timestamp.t) : Timestamp.t :=
  if Sql.text_le (Timestamp.text a) (Timestamp.text b) then b else a.

(** The aggregates of a group after one more row. *)
Definition stats_step (c : ChannelStats.row) (s : Stg.row) : ChannelStats.row :=
  ChannelStats.mk (ChannelStats.channel_name c) (ChannelStats.channel_username c)
    (ChannelStats.channel_title c)
    (text_min (ChannelStats.first_post_date c) (Stg.message_date s))
    (text_max (ChannelStats.last_post_date c) (Stg.message_date s))
    (ChannelStats.total_posts c + 1)
    (ChannelStats.sum_views c + Stg.views s)
    (ChannelStats.sum_forwards c + Stg.forwards s)
    (ChannelStats.posts_with_media c + flag (Sql.COALESCE (Stg.has_media s) false))
    (ChannelStats.posts_with_image c + flag (Stg.has_image s)).

Fixpoint aggregate (groups : list ChannelStats.row) (s : Stg.row)
  : list ChannelStats.row :=
  match groups with
  | [] => [stats_first s]
  | c :: rest =>
      if in_group c s then stats_step c s :: rest
      else c :: aggregate rest s
  end.

(** The groups of [GROUP BY channel_name, channel_username, channel_title]
    over the valid rows, each at the place of its first row. *)
Definition channel_groups (stg : list Stg.row) : list ChannelStats.row :=
  fold_left aggregate (filter is_valid stg) [].

(** The order of a nullable text column in a sort: NULL comes first. *)
Definition compare_nullable (a b : option string) : comparison :=
  match a, b with
  | None, None => Eq
  | None, Some _ => Lt
  | Some _, None => Gt
  | Some x, Some y => String.compare x y
  end.

(** The order of the GROUP BY columns. *)
Definition compare_groups (c d : ChannelStats.row) : comparison :=
  match String.compare (ChannelStats.channel_name c) (ChannelStats.channel_name d) with
  | Eq =>
      match compare_nullable (ChannelStats.channel_username c)
                             (ChannelStats.channel_username d) with
      | Eq => compare_nullable (ChannelStats.channel_title c)
                               (ChannelStats.channel_title d)
      | o => o
      end
  | o => o
  end.

Fixpoint insert_group (c : ChannelStats.row) (sorted : list ChannelStats.row)
  : list ChannelStats.row :=
  match sorted with
  | [] => [c]
  | d :: rest =>
      match compare_groups c d with
      | Gt => d :: insert_group c rest
      | _ => c :: sorted
      end
  end.

Definition order_by_group_columns (l : list ChannelStats.row)
  : list ChannelStats.row :=
  fold_right insert_group [] l.

(** The CTE [channel_stats]. SQLite groups by sorting the rows on the GROUP
    BY columns, and hands the groups over in the order of these columns. *)
Definition channel_stats (stg : list Stg.row) : list ChannelStats.row :=
  order_by_group_columns (channel_groups stg).

(** The [CASE] of the CTE [channel_classification]. *)
Definition classify (channel_name : string) : channel_type :=
  let n := Sql.LOWER channel_name in
  if Sql.LIKE n "%pharma%" || Sql.LIKE n "%med%" || Sql.LIKE n "%drug%"
     || Sql.LIKE n "%pharmacy%" || Sql.LIKE n "%pill%" || Sql.LIKE n "%tablet%"
  then Pharmaceutical
  else if Sql.LIKE n "%cosmetic%" || Sql.LIKE n "%beauty%" || Sql.LIKE n "%skin%"
     || Sql.LIKE n "%cream%" || Sql.LIKE n "%lotion%" || Sql.LIKE n "%makeup%"
  then Cosmetics
  else if Sql.LIKE n "%health%" || Sql.LIKE n "%medical%" || Sql.LIKE n "%hospital%"
     || Sql.LIKE n "%clinic%" || Sql.LIKE n "%doctor%"
  then Medical
  else Other.

Definition channel_type_text (t : channel_type) : string :=
  match t with
  | Pharmaceutical => "Pharmaceutical"
  | Cosmetics => "Cosmetics"
  | Medical => "Medical"
  | Other => "Other"
  end.

(** [ROUND(part * 100.0 / NULLIF(total, 0), 2)], in hundredths of a percent;
    NULL when [total] is 0. *)
Definition percentage (part total : Z) : option Sql.centi :=
  option_map (fun n => Sql.ROUND2 (part * 100) n) (Sql.NULLIF total 0).

(** The [CASE] on [last_post_date]: the text of the column is compared
    with the text 'YYYY-MM-DD' of [DATE('now', '-7 days')]. *)
Definition activity (now : Z) (last_post_date : Timestamp.t) : activity_status :=
  if Sql.text_le (Calendar.DATE_now_minus now 7) (Timestamp.text last_post_date)
  then active
  else if Sql.text_le (Calendar.DATE_now_minus now 30) (Timestamp.text last_post_date)
  then moderate
  else inactive.

(** [ORDER BY total_posts DESC] of the window. SQLite's sorter leaves rows
    of equal [total_posts] in the order in which they come, which is that of
    [channel_stats]. *)
Fixpoint insert_desc (c : ChannelStats.row) (sorted : list ChannelStats.row)
  : list ChannelStats.row :=
  match sorted with
  | [] => [c]
  | d :: rest =>
      if ChannelStats.total_posts d <=? ChannelStats.total_posts c
      then c :: sorted
      else d :: insert_desc c rest
  end.

Definition order_by_total_posts_desc (l : list ChannelStats.row)
  : list ChannelStats.row :=
  fold_right insert_desc [] l.

(** One row of the final SELECT of [dim_channels]. *)
Definition channel_row (now : Z) (channel_key : Z) (c : ChannelStats.row)
  : DimChannel.row :=
  let total_posts := ChannelStats.total_posts c in
  DimChannel.mk channel_key
    (ChannelStats.channel_name c) (ChannelStats.channel_username c)
    (ChannelStats.channel_title c)
    (classify (ChannelStats.channel_name c))
    (ChannelStats.first_post_date c) (ChannelStats.last_post_date c)
    total_posts
    (Sql.ROUND2 (ChannelStats.sum_views c) total_posts)
    (Sql.ROUND2 (ChannelStats.sum_forwards c) total_posts)
    (ChannelStats.posts_with_media c) (ChannelStats.posts_with_image c)
    (percentage (ChannelStats.posts_with_media c) total_posts)
    (percentage (ChannelStats.posts_with_image c) total_posts)
    (activity now (ChannelStats.last_post_date c)).

(** [ROW_NUMBER() OVER (...)], counting from [k]. *)
Fixpoint row_number (now : Z) (k : Z) (l : list ChannelStats.row)
  : list DimChannel.row :=
  match l with
  | [] => []
  | c :: rest => channel_row now k c :: row_number now (k + 1) rest
  end.

Definition dim_channels_select (now : Z) (stg : list Stg.row) : list DimChannel.row :=
  row_number now 1 (order_by_total_posts_desc (channel_stats stg)).

(** ** FactBuilder *)

(** [l LEFT JOIN r ON on]: every match of a left row, or the left row alone
    when it has none. *)
Definition left_join {A B : Type} (on : A -> B -> bool) (l : list A) (r : list B)
  : list (A * option B) :=
  flat_map (fun a =>
    match filter (on a) r with
    | [] => [(a, None)]
    | bs => map (fun b => (a, Some b)) bs
    end) l.

(** [ON m.channel_name = c.channel_name] *)
Definition on_channel (m : Stg.row) (c : DimChannel.row) : bool :=
  String.eqb (Stg.channel_name m) (DimChannel.channel_name c).

(** [ON DATE(m.message_date) = d.full_date] *)
Definition on_date (mc : Stg.row * option DimChannel.row) (d : DimDate.row) : bool :=
  Calendar.DATE (Stg.message_date (fst mc)) =? DimDate.full_date d.

(** The select list of [fct_messages]. *)
Definition fact_of (m : Stg.row) (c : DimChannel.row) (d : DimDate.row) : Fct.row :=
  Fct.mk (Stg.message_id m) (DimChannel.channel_key c) (DimDate.date_key d)
    (Stg.cleaned_message_text m) (Stg.message_length m)
    (Stg.views m) (Stg.forwards m) (Stg.has_image m)
    (Stg.data_quality_status m).

(** The WHERE clause: [c.channel_key IS NOT NULL AND d.date_key IS NOT NULL
    AND m.data_quality_status = 'valid']. *)
Definition fct_row (j : Stg.row * option DimChannel.row * option DimDate.row)
  : list Fct.row :=
  match j with
  | (m, Some c, Some d) => if is_valid m then [fact_of m c d] else []
  | _ => []
  end.

Definition fct_select (stg : list Stg.row) (dc : list DimChannel.row)
  (dd : list DimDate.row) : list Fct.row :=
  flat_map fct_row (left_join on_date (left_join on_channel stg dc) dd).

(** ** [Task2DataWarehouse.create_star_schema] *)

(** [CREATE TABLE IF NOT EXISTS t AS select]: an existing table is kept as it
    is, whatever [select] would give. *)
Definition create_if_not_exists {A : Type} (table : option (list A))
  (select : exn (list A)) : exn (list A) :=
  match table with
  | Some rows => Some rows
  | None => select
  end.

(** The four statements in order, with the Python between the first and the
    second. The first statement raises when [raw_telegram_messages] does not
    exist; the computation of the dates raises when a date leaves the range
    of [datetime.date]. *)
Definition create_star_schema (now today : Z) (db : warehouse) : exn warehouse :=
  do stg <- create_if_not_exists (stg_telegram_messages db)
              (option_map (stg_select now) (raw_telegram_messages db));
  do window <- python_date_window today (stg_date_bounds stg);
  do dd <- create_if_not_exists (dim_dates db) (Some (dim_dates_between window));
  do dc <- create_if_not_exists (dim_channels db) (Some (dim_channels_select now stg));
  do fct <- create_if_not_exists (fct_messages db) (Some (fct_select stg dc dd));
  Some (mk_warehouse (raw_telegram_messages db) (Some stg) (Some dd) (Some dc)
                     (Some fct)).

(** The database that a call of [create_star_schema] leaves when it raises.
    No transaction is open, so that each CREATE TABLE is committed as it
    runs: the staging table is there when the computation of the dates
    raises. *)
Definition create_star_schema_raised (now : Z) (db : warehouse) : warehouse :=
  match create_if_not_exists (stg_telegram_messages db)
          (option_map (stg_select now) (raw_telegram_messages db)) with
  | Some stg =>
      mk_warehouse (raw_telegram_messages db) (Some stg) (dim_dates db)
                   (dim_channels db) (fct_messages db)
  | None => db
  end.

(** ** QualityTestRunner: [Task2DataWarehouse.run_data_tests] *)

Record test_case : Type := mk_test {
  test_name : string;
  query : warehouse -> exn Z;
  should_be_zero : bool
}.

(** An entry of [results]. *)
Record test_result : Type := mk_result {
  test : string;
  passed : bool;
  result : Z
}.

(** [SELECT COUNT( * ) FROM t WHERE p] *)
Definition count_where {A : Type} (p : A -> bool) (t : list A) : Z :=
  Z.of_nat (List.length (filter p t)).

Definition unmatched {A B : Type} (j : A * option B) : bool :=
  negb (is_some (snd j)).

(** The list [tests]; a query raises when a table it reads does not exist. *)
Definition tests (now : Z) : list test_case :=
  [ mk_test "No future dates"
      (fun db => do stg <- stg_telegram_messages db;
         Some (count_where
                 (fun s => after_clock now (Stg.message_date s) && is_valid s) stg))
      true;
    mk_test "No negative views"
      (fun db => do stg <- stg_telegram_messages db;
         Some (count_where (fun s => (Stg.views s <? 0) && is_valid s) stg))
      true;
    mk_test "All channels have type"
      (fun db => do dc <- dim_channels db;
         Some (count_where
                 (fun c => String.eqb (channel_type_text (DimChannel.channel_type_ c))
                                      EmptyString) dc))
      true;
    mk_test "Foreign key integrity (channels)"
      (fun db => do f <- fct_messages db; do dc <- dim_channels db;
         Some (count_where unmatched
                 (left_join (fun f c => Fct.channel_key f =? DimChannel.channel_key c)
                            f dc)))
      true;
    mk_test "Foreign key integrity (dates)"
      (fun db => do f <- fct_messages db; do dd <- dim_dates db;
         Some (count_where unmatched
                 (left_join (fun f d => Fct.date_key f =? DimDate.date_key d) f dd)))
      true ].

(** One turn of the loop over [tests], on the pair of [all_passed] and
    [results]. *)
Definition run_test (db : warehouse) (st : bool * list test_result) (t : test_case)
  : bool * list test_result :=
  let '(all_passed, results) := st in
  match query t db with
  | Some result =>
      let passed := if should_be_zero t then result =? 0 else 0 <? result in
      (if negb passed then false else all_passed,
       results ++ [mk_result (test_name t) passed result])
  | None => (false, results)
  end.

Definition run_tests (ts : list test_case) (db : warehouse) : bool * list test_result :=
  fold_left (run_test db) ts (true, []).

(** The rows that [save_test_results] writes after the header. *)
Definition save_test_results (clock : Z) (results : list test_result)
  : list (string * string * Z * Z) :=
  map (fun r => (test r, if passed r then "PASS"%string else "FAIL"%string,
                 result r, clock)) results.

(** The returned dictionary. *)
Record report : Type := mk_report {
  all_passed : bool;
  results : list test_result
}.

Definition run_data_tests (now : Z) (db : warehouse) : report :=
  let '(all_passed, results) := run_tests (tests now) db in
  mk_report all_passed results.

(** ** Quantities that the statements below speak of *)

(** Number of rows of a table; 0 for a table that does not exist. *)
Definition table_size {A : Type} (t : option (list A)) : Z :=
  Z.of_nat (List.length (Sql.COALESCE t [])).

(** Rows that a load added to [raw_telegram_messages]. *)
Definition newly_inserted (before after : warehouse) : Z :=
  table_size (raw_telegram_messages after) - table_size (raw_telegram_messages before).

Definition bindable {A : Type} (f : field A) : bool :=
  match f with Unbindable => false | _ => true end.

(** No key of the message holds a value that cannot be bound: none holds
    an array or an object, and the integers fit in 64 bits. *)
Definition msg_bindable (msg : Msg.t) : bool :=
  bindable (sqlite_int (Msg.message_id msg)) && bindable (Msg.channel_name msg)
  && bindable (Msg.channel_username msg) && bindable (Msg.channel_title msg)
  && bindable (Msg.message_date msg) && bindable (Msg.message_text msg)
  && bindable (Msg.has_media msg) && bindable (Msg.image_path msg)
  && bindable (sqlite_int (Msg.views msg)) && bindable (sqlite_int (Msg.forwards msg))
  && bindable (Msg.scraped_at msg).

Definition elem_bindable (e : json_elem) : bool :=
  match e with JDict msg => msg_bindable msg | JOther => true end.

(** Records seen in one file: the length of its list of messages, when the
    file is read and its loop runs to the end. *)
Definition file_seen (f : json_file) : Z :=
  match f with
  | FileBad => 0
  | FileList messages =>
      if forallb elem_bindable messages then Z.of_nat (List.length messages) else 0
  | FileSingle data => if elem_bindable data then 1 else 0
  end.

Definition records_seen (json_files : list json_file) : Z :=
  fold_right (fun f n => file_seen f + n) 0 json_files.

(** The days of a date dimension. *)
Definition full_dates (dd : option (list DimDate.row)) : list Z :=
  map DimDate.full_date (Sql.COALESCE dd []).

(** What holds of every group of [channel_stats]. *)
Definition stats_ok (c : ChannelStats.row) : Prop :=
  1 <= ChannelStats.total_posts c
  /\ 0 <= ChannelStats.posts_with_media c <= ChannelStats.total_posts c
  /\ 0 <= ChannelStats.posts_with_image c <= ChannelStats.total_posts c.

(** The keywords of the three [WHEN] branches of [classify], in the order
    of the source. *)
Local Open Scope string_scope.






Local Close Scope string_scope.

(** The verdict of a check on the number that its query returned. *)
Definition verdict (t : test_case) (result : Z) : bool :=
  if should_be_zero t then result =? 0 else 0 <? result.

(** The entry of [results] that a check gives rise to: none when its query
    raises. *)
Definition reported (db : warehouse) (t : test_case) : list test_result :=
  match query t db with
  | Some result => [mk_result (test_name t) (verdict t result) result]
  | None => []
  end.

(** The check ran without an exception and passed. *)
Definition ran_and_passed (db : warehouse) (t : test_case) : bool :=
  match query t db with
  | Some result => verdict t result
  | None => false
  end.

(** ** The warehouses that the pipeline can produce *)

(** Starting from a database without tables, any sequence of loads and of
    calls of [create_star_schema], whether they return or raise, the clock
    never running backwards. [reachable now db]: [db] can be the database at
    time [now]. *)
Inductive reachable : Z -> warehouse -> Prop :=
| reach_empty : forall now, reachable now empty_warehouse
| reach_wait : forall now now' db,
    reachable now db -> now <= now' -> reachable now' db
| reach_load : forall now clock db json_files,
    reachable now db ->
    reachable now (fst (load_raw_data clock db json_files))
| reach_schema : forall now today db db',
    reachable now db ->
    create_star_schema now today db = Some db' ->
    reachable now db'
| reach_schema_raised : forall now today db,
    reachable now db ->
    create_star_schema now today db = None ->
    reachable now (create_star_schema_raised now db).

(** ** Example runs *)

(** Run time of the examples: 2024-01-18T00:00:05 UTC, local day 2024-01-18. *)
Definition example_now : Z := 1705536005.
Definition example_today : Z := 19740.

(** The timestamps of the examples, as [datetime.isoformat()] writes them. *)
Definition jan_15 : Timestamp.t :=
  Timestamp.mk "2024-01-15T00:01:40+00:00" 1705276900.

Definition jan_15_later : Timestamp.t :=
  Timestamp.mk "2024-01-15T01:01:40+00:00" 1705280500.

Definition jan_20 : Timestamp.t :=
  Timestamp.mk "2024-01-20T00:00:05+00:00" (example_now + 2 * 86400).

Definition june_1 : Timestamp.t :=
  Timestamp.mk "2023-06-01T01:00:00+00:00" 1685581200.

(** Scenario A of the specification: the same record twice in one batch. *)
Definition scenario_A_record : Msg.t :=
  Msg.mk (Value 1) (Value "x"%string) Missing Missing (Value jan_15)
         (Value "hello"%string) Missing Missing Missing Missing Missing.

Definition scenario_A_files : list json_file :=
  [FileList [JDict scenario_A_record; JDict scenario_A_record]].

(** A record whose [message_text] is [null]. *)
Definition null_text_record : Msg.t :=
  Msg.mk (Value 7) (Value "x"%string) Missing Missing (Value jan_15)
         Null Missing Missing Missing Missing Missing.

(** Scenario B of the specification: a record dated two days after the run
    time, loaded together with the record of scenario A. *)
Definition scenario_B_record : Msg.t :=
  Msg.mk (Value 2) (Value "x"%string) Missing Missing
         (Value jan_20)
         (Value "from the future"%string) Missing Missing Missing Missing Missing.

Definition scenario_B_loaded : warehouse :=
  fst (load_raw_data example_now empty_warehouse
         [FileList [JDict scenario_A_record; JDict scenario_B_record;
                    JDict null_text_record]]).

Definition scenario_B_built : warehouse :=
  Sql.COALESCE (create_star_schema example_now example_today scenario_B_loaded)
               empty_warehouse.

(** The warehouse of scenario B after its table [dim_dates] was dropped. *)
Definition scenario_B_without_dates : warehouse :=
  mk_warehouse (raw_telegram_messages scenario_B_built)
               (stg_telegram_messages scenario_B_built)
               None
               (dim_channels scenario_B_built)
               (fct_messages scenario_B_built).

(** A record written with an offset of twelve hours: its text is of
    2024-01-17, and the moment it names is 2024-01-18T11:59:59 UTC, twelve
    hours after the run time. *)
Definition offset_record : Msg.t :=
  Msg.mk (Value 3) (Value "x"%string) Missing Missing
         (Value (Timestamp.mk "2024-01-17T23:59:59-12:00" 1705579199))
         (Value "posted tomorrow"%string) Missing Missing Missing Missing Missing.

(** A record of five seconds before the run time, as the scraper writes
    it. *)
Definition same_day_record : Msg.t :=
  Msg.mk (Value 4) (Value "x"%string) Missing Missing
         (Value (Timestamp.mk "2024-01-18T00:00:00+00:00" 1705536000))
         (Value "posted five seconds ago"%string) Missing Missing Missing Missing
         Missing.

Definition offset_built : warehouse :=
  Sql.COALESCE
    (create_star_schema example_now example_today
       (fst (load_raw_data example_now empty_warehouse
               [FileList [JDict offset_record; JDict same_day_record;
                          JDict scenario_B_record]])))
    empty_warehouse.





(** A record dated 0001-01-15, in a batch of its own: thirty days before
    that day no [datetime.date] exists. *)
Definition year_one_record : Msg.t :=
  Msg.mk (Value 6) (Value "x"%string) Missing Missing
         (Value (Timestamp.mk "0001-01-15T00:00:00+00:00"
                              (Calendar.day_number 1 1 15 * 86400)))
         (Value "an early post"%string) Missing Missing Missing Missing Missing.

Definition year_one_files : list json_file := [FileList [JDict year_one_record]].

(** Scenario E of the specification: no raw message at all. *)
Definition scenario_E_loaded : warehouse :=
  fst (load_raw_data example_now empty_warehouse []).

Definition scenario_E_built : warehouse :=
  Sql.COALESCE (create_star_schema example_now example_today scenario_E_loaded)
               empty_warehouse.

(** A first run on the record of scenario A (dated 2024-01-15), then a record
    dated 2023-06-01 is loaded and the pipeline runs again one day later. *)
Definition first_run : warehouse :=
  Sql.COALESCE
    (create_star_schema example_now example_today
       (fst (load_raw_data example_now empty_warehouse
               [FileList [JDict scenario_A_record]])))
    empty_warehouse.

Definition older_record : Msg.t :=
  Msg.mk (Value 9) (Value "x"%string) Missing Missing (Value june_1)
         (Value "an older post"%string) Missing Missing Missing Missing Missing.

Definition second_load : warehouse :=
  fst (load_raw_data (example_now + 86400) first_run
         [FileList [JDict scenario_A_record; JDict older_record]]).

Definition second_run : warehouse :=
  Sql.COALESCE (create_star_schema (example_now + 86400) (example_today + 1) second_load)
               empty_warehouse.

(** The same second run, after the staging table alone was dropped, so that
    the staging SELECT runs again over the wider store. *)
Definition second_run_restaged : warehouse :=
  Sql.COALESCE
    (create_star_schema (example_now + 86400) (example_today + 1)
       (mk_warehouse (raw_telegram_messages second_load) None
                     (dim_dates second_load) (dim_channels second_load)
                     (fct_messages second_load)))
    empty_warehouse.

(** A row of [channel_stats] with no post, which no GROUP BY produces, and
    the [dim_channels] row that the final SELECT makes of it. *)
Definition stats_without_posts : ChannelStats.row :=
  ChannelStats.mk "x" None None jan_15 jan_15 0 0 0 0 0.

Definition channel_without_posts : DimChannel.row :=
  channel_row example_now 1 stats_without_posts.

(** The channel row of scenario B: one valid post. *)
Definition scenario_B_channel : DimChannel.row :=
  hd channel_without_posts (Sql.COALESCE (dim_channels scenario_B_built) []).

(** A channel whose title changed between two posts of the same day. *)
Definition retitled_files : list json_file :=
  [FileList
     [JDict (Msg.mk (Value 1) (Value "x"%string) (Value "x_handle"%string)
                    (Value "Old title"%string) (Value jan_15)
                    (Value "first"%string) Missing Missing (Value 5) Missing Missing);
      JDict (Msg.mk (Value 2) (Value "x"%string) (Value "x_handle"%string)
                    (Value "New title"%string) (Value jan_15_later)
                    (Value "second"%string) Missing Missing (Value 7) Missing Missing)]].

Definition retitled_built : warehouse :=
  Sql.COALESCE
    (create_star_schema example_now example_today
       (fst (load_raw_data example_now empty_warehouse retitled_files)))
    empty_warehouse.

(** ** Further quantities: keys, groups and builds *)

(** The key of the UNIQUE constraint of [raw_telegram_messages]. *)
Definition key_of (r : Raw.row) : Z * string :=
  (Raw.message_id r, Raw.channel_name r).

(** No two rows of the table share the key. *)
Definition keys_unique (tbl : list Raw.row) : Prop := NoDup (map key_of tbl).

(** The key under which a message object is stored, when it has one: the
    [message_id] it holds, and the [channel_name] it holds or the default. *)
Definition msg_key (msg : Msg.t) : option (Z * string) :=
  match Msg.message_id msg, Msg.channel_name msg with
  | Value mid, Value cn => Some (mid, cn)
  | Value mid, Missing => Some (mid, EmptyString)
  | _, _ => None
  end.

(** [SELECT count( * ) FROM raw_telegram_messages WHERE message_id = ? AND
    channel_name = ?] is not 0. *)
Definition stored (tbl : list Raw.row) (k : Z * string) : bool :=
  existsb (same_key (fst k) (snd k)) tbl.

(** The three tables that follow the staging table do not exist: a call of
    [create_star_schema] built the staging table and raised. *)
Definition staging_only (db : warehouse) : Prop :=
  dim_dates db = None /\ dim_channels db = None /\ fct_messages db = None.

(** The three tables that follow the staging table [stg], as a call of
    [create_star_schema] builds them at run time [t], on local day
    [today]. *)
Definition built_from (t today : Z) (stg : list Stg.row) (db : warehouse) : Prop :=
  let dd := dim_dates_select today stg in
  let dc := dim_channels_select t stg in
  dim_dates db = Some dd
  /\ dim_channels db = Some dc
  /\ fct_messages db = Some (fct_select stg dc dd).

(** None of the four derived tables exists. *)
Definition unbuilt (db : warehouse) : Prop :=
  stg_telegram_messages db = None /\ dim_dates db = None
  /\ dim_channels db = None /\ fct_messages db = None.

(** The key of a staging row. *)
Definition stg_key (s : Stg.row) : Z * string :=
  (Stg.message_id s, Stg.channel_name s).

(** The raw rows that the staging SELECT keeps: dated, with a text that
    does not come after that of the clock. *)
Definition staged (now : Z) (r : Raw.row) : bool :=
  match Raw.message_date r with
  | Some md => negb (after_clock now md)
  | None => false
  end.

(** The first and the last character of a text are not spaces. *)
Definition no_outer_space (s : string) : Prop :=
  (forall t, s <> String " " t)
  /\ (forall t, s <> (t ++ String " " EmptyString)%string).

(** First day, within its 400-year cycle, of the year [y] of the cycle (the
    years of a cycle start on 1 March). *)
Definition year_start (y : Z) : Z := 365 * y + y / 4 - y / 100.

(** The year of the cycle that [Calendar.civil] finds for a day of the
    cycle. *)
Definition year_of_era (doe : Z) : Z :=
  (doe - doe / 1460 + doe / 36524 - doe / 146096) / 365.

(** The grouping columns of [dim_channels]: name, username, title. *)
Definition triple : Type := string * option string * option string.

Definition stats_triple (c : ChannelStats.row) : triple :=
  (ChannelStats.channel_name c, ChannelStats.channel_username c,
   ChannelStats.channel_title c).

Definition stg_triple (s : Stg.row) : triple :=
  (Stg.channel_name s, Stg.channel_username s, Stg.channel_title s).

Definition dim_triple (c : DimChannel.row) : triple :=
  (DimChannel.channel_name c, DimChannel.channel_username c,
   DimChannel.channel_title c).

(** The valid staging rows of a channel row: same name, username and title. *)
Definition posts_of (c : DimChannel.row) (stg : list Stg.row) : list Stg.row :=
  filter (fun s =>
            is_valid s
            && String.eqb (DimChannel.channel_name c) (Stg.channel_name s)
            && option_string_eqb (DimChannel.channel_username c) (Stg.channel_username s)
            && option_string_eqb (DimChannel.channel_title c) (Stg.channel_title s))
         stg.

(** No number of the list is smaller than a later one. *)
Fixpoint descending (l : list Z) : Prop :=
  match l with
  | [] => True
  | x :: rest => (forall y, In y rest -> y <= x) /\ descending rest
  end.

Definition sum_Z (l : list Z) : Z := fold_right Z.add 0 l.

(** What the groups of [channel_stats] are after the rows [done], for a
    column [f] that counts the rows of its group that satisfy [q]: one group
    for each triple met, and [f] holds the count. *)
Definition grouped (f : ChannelStats.row -> Z) (q : Stg.row -> bool)
  (groups : list ChannelStats.row) (done : list Stg.row) : Prop :=
  NoDup (map stats_triple groups)
  /\ (forall s, In s done -> exists c, In c groups /\ in_group c s = true)
  /\ (forall c, In c groups -> exists s, In s done /\ in_group c s = true)
  /\ (forall c, In c groups -> f c = count_where (fun s => in_group c s && q s) done).

(** ** [Task2DataWarehouse.run] *)

(** How a run ends: at the early [return] after the load, or with the
    arguments of [print_summary]. *)
Inductive run_end : Type :=
| no_data_loaded
| summary (messages_loaded : Z) (test_results : report).

(** [run()] on the database that [create_database] opens: the database
    that the run leaves, and how the run ended, [None] when an exception
    leaves [run]. [clock] is the time of the load, [now] and [today] that of
    [create_star_schema], [tested] that of [run_data_tests]. The
    documentation step only reads the schema and writes files under
    [docs/]. *)
Definition run (clock now today tested : Z) (db : warehouse)
  (json_files : list json_file) : warehouse * exn run_end :=
  let '(loaded, messages_loaded) := load_raw_data clock db json_files in
  if messages_loaded =? 0 then (loaded, Some no_data_loaded)
  else
    match create_star_schema now today loaded with
    | Some built =>
        (built, Some (summary messages_loaded (run_data_tests tested built)))
    | None => (create_star_schema_raised now loaded, None)
    end.

(** The entries of [results] when the five checks run and pass. *)
Definition five_passes : list test_result :=
  [ mk_result "No future dates" true 0;
    mk_result "No negative views" true 0;
    mk_result "All channels have type" true 0;
    mk_result "Foreign key integrity (channels)" true 0;
    mk_result "Foreign key integrity (dates)" true 0 ].

(** ** [run_dbt_commands] *)

(** What [subprocess.run(..., check=True)] does with a command: it returns,
    it raises [CalledProcessError] for an exit status that is not zero, or it
    raises something else (the program cannot be started). *)
Inductive process_end : Type := exit_zero | exit_nonzero | not_started.

Definition commands : list string :=
  ["dbt debug"; "dbt run"; "dbt test"; "dbt docs generate"]%string.

(** The loop over [commands]: the commands handed to [subprocess.run], in
    order, and the value returned, [None] for an exception that is not
    caught. *)
Fixpoint run_commands (sh : string -> process_end) (cmds : list string)
  : list string * exn bool :=
  match cmds with
  | [] => ([], Some true)
  | cmd :: rest =>
      match sh cmd with
      | exit_zero =>
          let '(ran, r) := run_commands sh rest in (cmd :: ran, r)
      | exit_nonzero => ([cmd], Some false)
      | not_started => ([cmd], None)
      end
  end.

Definition run_dbt_commands (sh : string -> process_end) : list string * exn bool :=
  run_commands sh commands.

(** ** [YOLODetector.classify_image] *)

Definition person_objects : list string := ["person"]%string.

Definition product_objects : list string :=
  ["bottle"; "cup"; "bowl"; "handbag"; "backpack"; "cell phone"; "clock"; "vase";
   "scissors"; "book"; "chair"; "couch"; "potted plant"; "dining table"]%string.

Definition medical_objects : list string := ["bottle"; "vase"]%string.

(** [obj in objects] *)
Definition member (obj : string) (objects : list string) : bool :=
  existsb (String.eqb obj) objects.

(** [any(obj in objects for obj in detections)] *)
Definition any_in (objects detections : list string) : bool :=
  existsb (fun obj => member obj objects) detections.

Inductive image_category : Type :=
| no_detection | promotional | product_display | lifestyle | medical_product
| other_content.

Definition classify_image (detections : list string) : image_category :=
  match detections with
  | [] => no_detection
  | _ =>
      let has_person := any_in person_objects detections in
      let has_product := any_in product_objects detections in
      let has_medical := any_in medical_objects detections in
      if has_person && has_product then promotional
      else if has_product && negb has_person then product_display
      else if has_person && negb has_product then lifestyle
      else if has_medical then medical_product
      else other_content
  end.

(** * Properties *)

(** ** RecordLoader *)

Lemma bind_get_cases {A : Type} (f : field A) (dflt : option A) :
  (exists v, bind_get f dflt = Some v /\ bindable f = true)
  \/ (bind_get f dflt = None /\ bindable f = false).
Proof. destruct f; simpl; eauto. Qed.

Ltac bind_step f d :=
  let v := fresh "v" in
  let E := fresh "E" in
  let B := fresh "B" in
  destruct (bind_get_cases f d) as [(v & E & B) | (E & B)];
  rewrite E; rewrite ?B; cbn [andb is_some]; [ | rewrite ?andb_false_r; reflexivity ].

(** An insert raises exactly when a parameter cannot be bound; what the
    table holds plays no part. *)
Lemma insert_or_ignore_raises clock tbl msg :
  is_some (insert_or_ignore clock tbl msg) = msg_bindable msg.
Proof.
  unfold insert_or_ignore, msg_bindable.
  bind_step (sqlite_int (Msg.message_id msg)) (@None Z).
  bind_step (Msg.channel_name msg) (Some EmptyString).
  bind_step (Msg.channel_username msg) (@None string).
  bind_step (Msg.channel_title msg) (@None string).
  bind_step (Msg.message_date msg) (@None Timestamp.t).
  bind_step (Msg.message_text msg) (Some EmptyString).
  bind_step (Msg.has_media msg) (Some false).
  bind_step (Msg.image_path msg) (@None string).
  bind_step (sqlite_int (Msg.views msg)) (Some 0).
  bind_step (sqlite_int (Msg.forwards msg)) (Some 0).
  bind_step (Msg.scraped_at msg) (Some clock).
  destruct v as [mid|]; [ destruct v0 as [cn|] | ]; try reflexivity.
  destruct (existsb (same_key mid cn) tbl); reflexivity.
Qed.

Lemma load_messages_finished clock messages :
  forall tbl, snd (load_messages clock tbl messages) = forallb elem_bindable messages.
Proof.
  induction messages as [|e rest IH]; intros tbl; [reflexivity|].
  destruct e as [msg|]; cbn [load_messages forallb elem_bindable].
  - pose proof (insert_or_ignore_raises clock tbl msg) as R.
    destruct (insert_or_ignore clock tbl msg) as [tbl'|]; cbn [is_some] in R;
      rewrite <- R; [apply IH | reflexivity].
  - apply IH.
Qed.

Lemma load_file_total clock tbl total f :
  snd (load_file clock (tbl, total) f) = total + file_seen f.
Proof.
  destruct f as [messages|data|]; cbn [load_file file_seen].
  - pose proof (load_messages_finished clock messages tbl) as F.
    destruct (load_messages clock tbl messages) as [tbl' finished].
    cbn [snd] in *. rewrite <- F. destruct finished; lia.
  - pose proof (load_messages_finished clock [data] tbl) as F.
    destruct (load_messages clock tbl [data]) as [tbl' finished].
    cbn [snd forallb] in *. rewrite andb_true_r in F. rewrite <- F.
    destruct finished; lia.
  - cbn [snd]. lia.
Qed.

Lemma load_files_total clock json_files :
  forall tbl total,
    snd (fold_left (load_file clock) json_files (tbl, total))
    = total + records_seen json_files.
Proof.
  induction json_files as [|f rest IH]; intros tbl total; cbn [fold_left records_seen fold_right].
  - cbn [snd]. lia.
  - pose proof (load_file_total clock tbl total f) as T.
    destruct (load_file clock (tbl, total) f) as [tbl' total'].
    cbn [snd] in T. rewrite IH, T.
    change (fold_right (fun f n => file_seen f + n) 0 rest) with (records_seen rest).
    lia.
Qed.

(** C4 (as amended). For every collection of input files, the value that
    [load_raw_data] returns is the number of records seen: the sum of
    [len(messages)] over the files that were read and looped over without an
    exception. Records already stored under the same
    (message_id, channel_name) key, rows ignored for a NULL key and skipped
    elements that are not objects are all counted; the content of the store
    has no influence on the value. *)
Theorem load_raw_data_returns_records_seen :
  forall (clock : Z) (db : warehouse) (json_files : list json_file),
    snd (load_raw_data clock db json_files) = records_seen json_files.
Proof.
  intros clock db json_files. unfold load_raw_data.
  pose proof (load_files_total clock json_files
                (Sql.COALESCE (raw_telegram_messages db) []) 0) as T.
  destruct (fold_left (load_file clock) json_files
              (Sql.COALESCE (raw_telegram_messages db) [], 0)) as [tbl total].
  cbn [snd] in *. lia.
Qed.

(** C4 (counterexample to the claim as stated). Loading the batch of
    scenario A into an empty store inserts one row and returns 2. *)
Lemma load_raw_data_return_is_not_inserted_count :
  let r := load_raw_data 0 empty_warehouse scenario_A_files in
  snd r = 2
  /\ newly_inserted empty_warehouse (fst r) = 1
  /\ snd r <> newly_inserted empty_warehouse (fst r).
Proof. vm_compute. repeat split; discriminate. Qed.

(** Loading the same files a second time inserts nothing and returns the
    same number again. *)
Lemma load_raw_data_second_pass_scenario_A :
  let r1 := load_raw_data 0 empty_warehouse scenario_A_files in
  let r2 := load_raw_data 0 (fst r1) scenario_A_files in
  newly_inserted (fst r1) (fst r2) = 0 /\ snd r2 = 2.
Proof. vm_compute. split; reflexivity. Qed.

(** ** StagingBuilder *)

Lemma in_raw_data (x : RawData.row) (raw : list Raw.row) :
  In x (raw_data raw)
  <-> exists r md, In r raw /\ Raw.message_date r = Some md /\ x = source_row r md.
Proof.
  unfold raw_data. rewrite in_flat_map. split.
  - intros (r & Hr & Hx). destruct (Raw.message_date r) as [md|] eqn:E.
    + destruct Hx as [<-|[]]. exists r, md. auto.
    + destruct Hx.
  - intros (r & md & Hr & E & ->). exists r. split; [assumption|].
    rewrite E. left. reflexivity.
Qed.

Lemma in_stg_select (now : Z) (s : Stg.row) (raw : list Raw.row) :
  In s (stg_select now raw)
  <-> exists r md, In r raw /\ Raw.message_date r = Some md
                   /\ after_clock now md = false
                   /\ s = cleaned_row now (source_row r md).
Proof.
  unfold stg_select. rewrite filter_In, in_map_iff. split.
  - intros ((x & <- & Hx) & F). apply in_raw_data in Hx.
    destruct Hx as (r & md & Hr & E & ->). exists r, md.
    repeat split; try assumption.
    cbn in F. apply negb_true_iff in F. exact F.
  - intros (r & md & Hr & E & Hle & ->). split.
    + exists (source_row r md). split; [reflexivity|].
      apply in_raw_data. exists r, md. auto.
    + cbn. apply negb_true_iff. exact Hle.
Qed.

Lemma stg_select_not_future (now : Z) (raw : list Raw.row) (s : Stg.row) :
  In s (stg_select now raw) ->
  after_clock now (Stg.message_date s) = false /\ Stg.is_future_date s = false.
Proof.
  intros H. apply in_stg_select in H. destruct H as (r & md & _ & _ & Hle & ->).
  cbn. split; exact Hle.
Qed.


Lemma python_date_some d d' : python_date d = Some d' -> d' = d.
Proof. unfold python_date. destruct (_ && _); congruence. Qed.

(** When the computation of the dates does not raise, the dates written
    into the SELECT are those of [date_window]. *)
Lemma python_date_window_some today stg w :
  python_date_window today (stg_date_bounds stg) = Some w ->
  dim_dates_select today stg = dim_dates_between w.
Proof.
  unfold python_date_window, dim_dates_select, date_window, dim_dates_between.
  destruct (stg_date_bounds stg) as [[lo hi]|].
  - destruct (python_date lo) as [a|] eqn:A; [|discriminate].
    destruct (python_date hi) as [b|] eqn:B; [|discriminate].
    apply python_date_some in A, B. subst a b.
    destruct (python_date (lo - 30)) as [a|] eqn:A; [|discriminate].
    destruct (python_date (hi + 30)) as [b|] eqn:B; [|discriminate].
    apply python_date_some in A, B. intros E. injection E as <-. subst. reflexivity.
  - destruct (python_date (today - 365)) as [a|] eqn:A; [|discriminate].
    destruct (python_date (today + 365)) as [b|] eqn:B; [|discriminate].
    apply python_date_some in A, B. intros E. injection E as <-. subst. reflexivity.
Qed.

(** What a successful [create_star_schema] leaves: every table exists, and
    each is either the table that was there or the result of its SELECT. *)
Lemma create_star_schema_inv now today db db' :
  create_star_schema now today db = Some db' ->
  exists stg dd dc fct,
    db' = mk_warehouse (raw_telegram_messages db) (Some stg) (Some dd) (Some dc)
                       (Some fct)
    /\ (stg_telegram_messages db = Some stg
        \/ stg_telegram_messages db = None
           /\ exists raw, raw_telegram_messages db = Some raw
                          /\ stg = stg_select now raw)
    /\ (dim_dates db = Some dd
        \/ dim_dates db = None /\ dd = dim_dates_select today stg)
    /\ (dim_channels db = Some dc
        \/ dim_channels db = None /\ dc = dim_channels_select now stg)
    /\ (fct_messages db = Some fct
        \/ fct_messages db = None /\ fct = fct_select stg dc dd).
Proof.
  unfold create_star_schema, create_if_not_exists. intros H.
  destruct (stg_telegram_messages db) as [stg|] eqn:Es.
  - destruct (python_date_window today (stg_date_bounds stg)) as [w|] eqn:W;
      [|discriminate].
    apply python_date_window_some in W. rewrite <- W in H.
    destruct (dim_dates db) as [dd|] eqn:Ed;
      destruct (dim_channels db) as [dc|] eqn:Ec;
      destruct (fct_messages db) as [fct|] eqn:Ef;
      injection H as <-; do 4 eexists; repeat split; auto.
  - destruct (raw_telegram_messages db) as [raw|] eqn:Er; [|discriminate].
    cbn [option_map] in H.
    destruct (python_date_window today (stg_date_bounds (stg_select now raw)))
      as [w|] eqn:W; [|discriminate].
    apply python_date_window_some in W. rewrite <- W in H.
    destruct (dim_dates db) as [dd|] eqn:Ed;
      destruct (dim_channels db) as [dc|] eqn:Ec;
      destruct (fct_messages db) as [fct|] eqn:Ef;
      injection H as <-; do 4 eexists; repeat split; eauto 6.
Qed.

Lemma load_raw_data_keeps_schema clock db json_files :
  let db' := fst (load_raw_data clock db json_files) in
  stg_telegram_messages db' = stg_telegram_messages db
  /\ dim_dates db' = dim_dates db
  /\ dim_channels db' = dim_channels db
  /\ fct_messages db' = fct_messages db.
Proof.
  unfold load_raw_data.
  destruct (fold_left (load_file clock) json_files
              (Sql.COALESCE (raw_telegram_messages db) [], 0)) as [tbl total].
  cbn. auto.
Qed.

(** What a call of [create_star_schema] that raises leaves: the database as
    it was, or with the staging table that its first statement built. *)
Lemma create_star_schema_raised_inv now db :
  create_star_schema_raised now db = db
  \/ (stg_telegram_messages db = None
      /\ exists raw,
           raw_telegram_messages db = Some raw
           /\ create_star_schema_raised now db
              = mk_warehouse (Some raw) (Some (stg_select now raw)) (dim_dates db)
                             (dim_channels db) (fct_messages db)).
Proof.
  unfold create_star_schema_raised, create_if_not_exists.
  destruct db as [raw stg dd dc fct]. cbn.
  destruct stg as [stg|]; [left; reflexivity|].
  destruct raw as [raw|]; cbn; [right; eauto | left; reflexivity].
Qed.

(** The staging table of a reachable warehouse is the result of the staging
    SELECT of an earlier run. *)
Lemma reachable_staging now db :
  reachable now db ->
  forall stg, stg_telegram_messages db = Some stg ->
  exists t raw, t <= now /\ stg = stg_select t raw.
Proof.
  induction 1 as [now|now now' db _ IH Hle|now clock db files _ IH
                  |now today db db' _ IH Hc|now today db _ IH Hc]; intros stg Hs.
  - discriminate.
  - destruct (IH stg Hs) as (t & raw & Ht & ->). exists t, raw. split; [lia|reflexivity].
  - destruct (load_raw_data_keeps_schema clock db files) as (E & _).
    cbv zeta in E. rewrite E in Hs. exact (IH stg Hs).
  - apply create_star_schema_inv in Hc.
    destruct Hc as (stg' & dd & dc & fct & -> & Hstg & _).
    cbn in Hs. injection Hs as ->.
    destruct Hstg as [Hold | (_ & raw & _ & ->)].
    + exact (IH stg Hold).
    + exists now, raw. split; [lia|reflexivity].
  - destruct (create_star_schema_raised_inv now db) as [E | (_ & raw & _ & E)];
      rewrite E in Hs.
    + exact (IH stg Hs).
    + cbn in Hs. injection Hs as <-. exists now, raw. split; [lia|reflexivity].
Qed.

(** C9 (the code at the failing input). The run is at 2024-01-18 00:00:05
    UTC. Three records are loaded: one whose text is
    '2024-01-17T23:59:59-12:00', the moment 2024-01-18T11:59:59 UTC, twelve
    hours after the run time; one of five seconds before the run time,
    '2024-01-18T00:00:00+00:00'; one of two days after it. The staging table
    holds the first one alone, not flagged as future and valid, although its
    moment is after the run time: [message_date > CURRENT_TIMESTAMP] compares
    the two texts, and '2024-01-17T...' comes before '2024-01-18 00:00:05'.
    The record of five seconds before the run is dropped as future, since
    'T' comes after the space. *)
Theorem staging_keeps_a_future_record :
  Calendar.CURRENT_TIMESTAMP example_now = "2024-01-18 00:00:05"%string
  /\ option_map
       (map (fun s => (Stg.message_id s, Timestamp.text (Stg.message_date s),
                       Timestamp.instant (Stg.message_date s),
                       Stg.is_future_date s, Stg.data_quality_status s)))
       (stg_telegram_messages offset_built)
     = Some [(3, "2024-01-17T23:59:59-12:00"%string, 1705579199, false, valid)]
  /\ example_now < 1705579199
  /\ option_map (map (fun f => (Fct.message_id f, Fct.date_key f)))
                (fct_messages offset_built)
     = Some [(3, 20240118)].
Proof. vm_compute. repeat split; reflexivity. Qed.

(** Scenario B, evaluated: of the three records loaded, the one dated two
    days after the run time is the only one without a staging row. *)
Lemma scenario_B_staging :
  option_map (map (fun s => (Stg.message_id s, Stg.data_quality_status s)))
             (stg_telegram_messages scenario_B_built)
  = Some [(1, valid); (7, needs_review)].
Proof. vm_compute. reflexivity. Qed.

Lemma length_from_nonneg s : forall in_char, 0 <= Sql.length_from in_char s.
Proof.
  induction s as [|c s IH]; intros in_char; cbn [Sql.length_from]; [lia|].
  destruct (Sql.is_nul c); [lia|].
  destruct (in_char && Sql.is_continuation c); [apply IH|].
  specialize (IH (Sql.is_lead c)). lia.
Qed.



Lemma scenario_B_built_reachable : reachable example_now scenario_B_built.
Proof.
  apply (reach_schema example_now example_today scenario_B_loaded).
  - apply reach_load. apply reach_empty.
  - vm_compute. reflexivity.
Defined.




(** ** Channel classification *)

Section Like.
Local Open Scope string_scope.














(** "medical" is a Medical keyword, yet "med" is met first. *)
Lemma classify_medical_is_pharmaceutical : classify "Medical Center" = Pharmaceutical.
Proof. vm_compute. reflexivity. Qed.

End Like.

(** ** QualityTestRunner *)

Lemma run_test_step db ok rs t :
  run_test db (ok, rs) t = (ok && ran_and_passed db t, rs ++ reported db t).
Proof.
  unfold run_test, ran_and_passed, reported, verdict.
  destruct (query t db) as [r|].
  - destruct (if should_be_zero t then r =? 0 else 0 <? r), ok; reflexivity.
  - rewrite andb_false_r, app_nil_r. reflexivity.
Qed.

Lemma run_tests_from db ts :
  forall ok rs,
    fold_left (run_test db) ts (ok, rs)
    = (ok && forallb (ran_and_passed db) ts, rs ++ flat_map (reported db) ts).
Proof.
  induction ts as [|t ts IH]; intros ok rs; cbn [fold_left forallb flat_map].
  - rewrite andb_true_r, app_nil_r. reflexivity.
  - rewrite run_test_step, IH, andb_assoc, app_assoc. reflexivity.
Qed.

Lemma run_tests_report ts db :
  run_tests ts db = (forallb (ran_and_passed db) ts, flat_map (reported db) ts).
Proof. unfold run_tests. rewrite run_tests_from. reflexivity. Qed.

(** C5 (as amended). [run_data_tests] never raises. Its [results], which
    are also the rows saved, hold one entry for each check whose query ran, in
    the order of the checks, with the verdict of that check; a check whose
    query raises has no entry, and the checks after it are still run and
    reported. [all_passed] is true exactly when every check ran without an
    exception and passed. *)
Theorem run_data_tests_report :
  forall (now : Z) (db : warehouse),
    results (run_data_tests now db) = flat_map (reported db) (tests now)
    /\ (all_passed (run_data_tests now db) = true
        <-> forall t, In t (tests now) ->
              exists r, query t db = Some r /\ verdict t r = true)
    /\ (forall t, In t (tests now) -> query t db = None ->
          all_passed (run_data_tests now db) = false).
Proof.
  intros now db. unfold run_data_tests. rewrite run_tests_report. cbn [results all_passed].
  split; [reflexivity|]. split.
  - rewrite forallb_forall. split.
    + intros H t Ht. specialize (H t Ht). unfold ran_and_passed in H.
      destruct (query t db) as [r|]; [eauto | discriminate].
    + intros H t Ht. destruct (H t Ht) as (r & E & V).
      unfold ran_and_passed. rewrite E. exact V.
  - intros t Ht E. apply not_true_is_false. rewrite forallb_forall. intros H.
    specialize (H t Ht). unfold ran_and_passed in H. rewrite E in H. discriminate.
Qed.

Lemma run_data_tests_report_witness :
  results (run_data_tests example_now scenario_B_without_dates)
  = flat_map (reported scenario_B_without_dates) (tests example_now)
  /\ all_passed (run_data_tests example_now scenario_B_without_dates) = false.
Proof.
  destruct (run_data_tests_report example_now scenario_B_without_dates)
    as (Hres & _ & Hraise).
  split; [exact Hres|].
  apply (Hraise (nth 4 (tests example_now) (mk_test EmptyString (fun _ => None) true))).
  - vm_compute. tauto.
  - reflexivity.
Defined.

(** C5 (counterexample to the claim as stated). With [dim_dates] missing,
    the query of the fifth check raises; the report then holds the first four
    checks, all passed, and no entry for the fifth, neither passed nor
    failed. *)
Lemma erroring_check_is_not_reported :
  let rep := run_data_tests example_now scenario_B_without_dates in
  map (fun t => is_some (query t scenario_B_without_dates)) (tests example_now)
  = [true; true; true; true; false]
  /\ map (fun r => (test r, passed r)) (results rep)
     = [("No future dates"%string, true); ("No negative views"%string, true);
        ("All channels have type"%string, true);
        ("Foreign key integrity (channels)"%string, true)]
  /\ ~ In "Foreign key integrity (dates)"%string (map test (results rep))
  /\ List.length (save_test_results example_now (results rep)) = 4%nat
  /\ all_passed rep = false.
Proof.
  vm_compute. repeat split.
  intros H. repeat (destruct H as [H|H]; [discriminate|]). exact H.
Qed.

(** ** DateDimensionBuilder *)

Lemma in_date_range_from steps : forall date x,
  In x (date_range_from steps date) <-> date <= x <= date + Z.of_nat steps.
Proof.
  induction steps as [|n IH]; intros date x; cbn [date_range_from In].
  - split; [intros [->|[]]; lia | intros H; left; lia].
  - rewrite IH. split; [intros [->|H]; lia | intros H].
    destruct (Z.eq_dec date x); [left; assumption | right; lia].
Qed.

Lemma in_date_range min_date max_date x :
  min_date <= max_date ->
  (In x (date_range min_date max_date) <-> min_date <= x <= max_date).
Proof.
  intros H. unfold date_range. rewrite in_date_range_from.
  rewrite Z2Nat.id by lia. lia.
Qed.

Lemma date_range_length min_date max_date :
  min_date <= max_date ->
  Z.of_nat (List.length (date_range min_date max_date)) = max_date - min_date + 1.
Proof.
  intros H. unfold date_range.
  assert (L : forall n d, List.length (date_range_from n d) = S n).
  { induction n as [|n IH]; intros d; cbn [date_range_from List.length];
      [reflexivity | rewrite IH; reflexivity]. }
  rewrite L. lia.
Qed.

Lemma dim_dates_select_full_dates today stg :
  map DimDate.full_date (dim_dates_select today stg)
  = date_range (fst (date_window today (stg_date_bounds stg)))
               (snd (date_window today (stg_date_bounds stg))).
Proof.
  unfold dim_dates_select.
  destruct (date_window today (stg_date_bounds stg)) as [lo hi]. cbn [fst snd].
  rewrite map_map. cbn. apply map_id.
Qed.



Lemma stg_date_bounds_empty stg : stg_date_bounds stg = None <-> stg = [].
Proof. unfold stg_date_bounds. destruct stg; cbn; split; congruence. Qed.

(** C2 (as amended). When [create_star_schema] builds the date dimension
    and the staging table holds no row at all, the dimension has one row for
    each day of the closed interval [today - 365, today + 365] and no other:
    the default window is not padded. *)
Theorem default_date_window :
  forall (now today : Z) (db db' : warehouse),
    dim_dates db = None ->
    create_star_schema now today db = Some db' ->
    stg_telegram_messages db' = Some [] ->
    exists dd,
      dim_dates db' = Some dd
      /\ map DimDate.full_date dd = date_range (today - 365) (today + 365)
      /\ (forall d, In d (map DimDate.full_date dd)
                    <-> today - 365 <= d <= today + 365)
      /\ Z.of_nat (List.length dd) = 731.
Proof.
  intros now today db db' Hnone Hc Hempty.
  apply create_star_schema_inv in Hc.
  destruct Hc as (stg & dd & dc & fct & -> & _ & Hdd & _).
  cbn in Hempty. injection Hempty as ->.
  destruct Hdd as [Hold | (_ & ->)]; [congruence|].
  exists (dim_dates_select today []). split; [reflexivity|].
  pose proof (dim_dates_select_full_dates today []) as E.
  change (stg_date_bounds []) with (@None (Z * Z)) in E.
  cbn [date_window fst snd] in E.
  split; [exact E|]. split.
  - intros d. rewrite E. apply in_date_range. lia.
  - rewrite <- (length_map DimDate.full_date), E, date_range_length; lia.
Qed.

Lemma default_date_window_witness :
  exists dd,
    dim_dates scenario_E_built = Some dd
    /\ map DimDate.full_date dd
       = date_range (example_today - 365) (example_today + 365)
    /\ (forall d, In d (map DimDate.full_date dd)
                  <-> example_today - 365 <= d <= example_today + 365)
    /\ Z.of_nat (List.length dd) = 731.
Proof.
  apply (default_date_window example_now example_today scenario_E_loaded
           scenario_E_built).
  - reflexivity.
  - vm_compute. reflexivity.
  - reflexivity.
Defined.

(** C2 (counterexample to the claim as stated). Scenario E: with no raw
    message, the date dimension starts 365 days before the run day and ends
    365 days after it; the days 395 days away are not in it. *)
Lemma default_date_window_is_not_395 :
  full_dates (dim_dates scenario_E_built)
  = date_range (example_today - 365) (example_today + 365)
  /\ ~ In (example_today - 395) (full_dates (dim_dates scenario_E_built))
  /\ ~ In (example_today + 395) (full_dates (dim_dates scenario_E_built))
  /\ full_dates (dim_dates scenario_E_built)
     <> date_range (example_today - 395) (example_today + 395).
Proof.
  assert (E : full_dates (dim_dates scenario_E_built)
              = date_range (example_today - 365) (example_today + 365))
    by (vm_compute; reflexivity).
  rewrite E. split; [reflexivity|].
  split; [|split].
  - rewrite in_date_range; unfold example_today; lia.
  - rewrite in_date_range; unfold example_today; lia.
  - intros H. apply (f_equal (@List.length Z)) in H.
    apply (f_equal Z.of_nat) in H.
    rewrite !date_range_length in H; unfold example_today in *; lia.
Qed.


(** *** Re-running *)

(** An existing table is never rebuilt. *)
Lemma create_star_schema_keeps now today db db' :
  create_star_schema now today db = Some db' ->
  (forall t, stg_telegram_messages db = Some t -> stg_telegram_messages db' = Some t)
  /\ (forall t, dim_dates db = Some t -> dim_dates db' = Some t)
  /\ (forall t, dim_channels db = Some t -> dim_channels db' = Some t)
  /\ (forall t, fct_messages db = Some t -> fct_messages db' = Some t).
Proof.
  intros Hc. apply create_star_schema_inv in Hc.
  destruct Hc as (stg & dd & dc & fct & -> & Hs & Hd & Hch & Hf). cbn.
  repeat split; intros t Ht.
  - destruct Hs as [E|(E & _)]; congruence.
  - destruct Hd as [E|(E & _)]; congruence.
  - destruct Hch as [E|(E & _)]; congruence.
  - destruct Hf as [E|(E & _)]; congruence.
Qed.

(** Running [create_star_schema] on its own result changes nothing: no row
    is added to any table. *)
Lemma create_star_schema_again now today now' today' db db' db'' :
  create_star_schema now today db = Some db' ->
  create_star_schema now' today' db' = Some db'' ->
  db'' = db'.
Proof.
  intros Hc Hc'. apply create_star_schema_inv in Hc.
  destruct Hc as (stg & dd & dc & fct & -> & _).
  unfold create_star_schema in Hc'. cbn in Hc'.
  destruct (python_date_window today' (stg_date_bounds stg)); [|discriminate].
  congruence.
Qed.

(** C3 (the code at the failing input). After a first run on a record of
    2024-01-15 the date dimension covers 2023-12-16 to 2024-02-14. A record of
    2023-06-01 is loaded and the pipeline runs again: staging, date dimension
    and fact table are what they were. Even when the staging table is dropped
    first, so that the second run stages both records and the observed range
    starts on 2023-06-01, the date dimension is still the one of the first
    run: it has no row for 2023-06-01, let alone for the padded bound
    2023-05-02, which a build from scratch over the same staging table
    includes. *)
Theorem rerun_does_not_widen_date_dimension :
  full_dates (dim_dates first_run) = date_range (19737 - 30) (19737 + 30)
  /\ table_size (raw_telegram_messages second_run) = 2
  /\ stg_telegram_messages second_run = stg_telegram_messages first_run
  /\ dim_dates second_run = dim_dates first_run
  /\ fct_messages second_run = fct_messages first_run
  /\ option_map stg_date_bounds (stg_telegram_messages second_run_restaged)
     = Some (Some (19509, 19737))
  /\ dim_dates second_run_restaged = dim_dates first_run
  /\ ~ In 19509 (full_dates (dim_dates second_run_restaged))
  /\ ~ In (19509 - 30) (full_dates (dim_dates second_run_restaged))
  /\ full_dates
       (Some (dim_dates_select (example_today + 1)
                (Sql.COALESCE (stg_telegram_messages second_run_restaged) [])))
     = date_range (19509 - 30) (19737 + 30).
Proof.
  assert (E : full_dates (dim_dates first_run) = date_range (19737 - 30) (19737 + 30))
    by (vm_compute; reflexivity).
  assert (R : dim_dates second_run_restaged = dim_dates first_run)
    by (vm_compute; reflexivity).
  rewrite R, E.
  split; [reflexivity|].
  split; [vm_compute; reflexivity|].
  split; [vm_compute; reflexivity|].
  split; [vm_compute; reflexivity|].
  split; [vm_compute; reflexivity|].
  split; [vm_compute; reflexivity|].
  split; [reflexivity|].
  split; [rewrite in_date_range; lia|].
  split; [rewrite in_date_range; lia|].
  vm_compute. reflexivity.
Qed.

(** ** ChannelDimensionBuilder *)

Lemma flag_bounds b : 0 <= flag b <= 1.
Proof. destruct b; cbn; lia. Qed.

Lemma stats_first_ok s : stats_ok (stats_first s).
Proof.
  unfold stats_ok, stats_first. cbn.
  pose proof (flag_bounds (Sql.COALESCE (Stg.has_media s) false)).
  pose proof (flag_bounds (Stg.has_image s)). lia.
Qed.

Lemma stats_step_ok c s : stats_ok c -> stats_ok (stats_step c s).
Proof.
  unfold stats_ok, stats_step. cbn.
  pose proof (flag_bounds (Sql.COALESCE (Stg.has_media s) false)).
  pose proof (flag_bounds (Stg.has_image s)). lia.
Qed.

Lemma aggregate_ok groups s :
  Forall stats_ok groups -> Forall stats_ok (aggregate groups s).
Proof.
  induction 1 as [|c rest Hc Hrest IH]; cbn [aggregate].
  - constructor; [apply stats_first_ok | constructor].
  - destruct (in_group c s).
    + constructor; [apply stats_step_ok; assumption | assumption].
    + constructor; assumption.
Qed.

Lemma fold_aggregate_ok rows : forall groups,
  Forall stats_ok groups -> Forall stats_ok (fold_left aggregate rows groups).
Proof.
  induction rows as [|s rows IH]; intros groups H; cbn [fold_left]; [assumption|].
  apply IH, aggregate_ok, H.
Qed.

Lemma insert_group_permutation c sorted : Permutation (insert_group c sorted) (c :: sorted).
Proof.
  induction sorted as [|d rest IH]; cbn [insert_group]; [reflexivity|].
  destruct (compare_groups c d); try reflexivity.
  rewrite IH. apply perm_swap.
Qed.

(** Sorting the groups on the GROUP BY columns neither adds nor loses a
    group. *)
Lemma order_by_group_columns_permutation l : Permutation (order_by_group_columns l) l.
Proof.
  induction l as [|c l IH]; cbn [order_by_group_columns fold_right]; [reflexivity|].
  rewrite insert_group_permutation. constructor. exact IH.
Qed.

Lemma in_channel_stats stg c : In c (channel_stats stg) <-> In c (channel_groups stg).
Proof.
  unfold channel_stats. split; apply Permutation_in;
    [|symmetry]; apply order_by_group_columns_permutation.
Qed.

Lemma channel_stats_ok stg : Forall stats_ok (channel_stats stg).
Proof.
  apply Forall_forall. intros c Hc. apply in_channel_stats in Hc.
  revert c Hc. apply Forall_forall. apply fold_aggregate_ok. constructor.
Qed.

Lemma in_insert_desc c x sorted :
  In x (insert_desc c sorted) <-> x = c \/ In x sorted.
Proof.
  induction sorted as [|d rest IH]; cbn [insert_desc].
  - cbn. intuition.
  - destruct (ChannelStats.total_posts d <=? ChannelStats.total_posts c); cbn [In].
    + intuition.
    + rewrite IH. intuition.
Qed.

Lemma in_order_by x l : In x (order_by_total_posts_desc l) <-> In x l.
Proof.
  induction l as [|c l IH]; cbn [order_by_total_posts_desc fold_right]; [reflexivity|].
  rewrite in_insert_desc. fold (order_by_total_posts_desc l). rewrite IH. cbn. intuition.
Qed.

Lemma in_row_number now l : forall k r,
  In r (row_number now k l) -> exists key c, In c l /\ r = channel_row now key c.
Proof.
  induction l as [|c l IH]; intros k r H; cbn [row_number] in H; [destruct H|].
  destruct H as [<-|H].
  - exists k, c. split; [left|]; reflexivity.
  - destruct (IH _ _ H) as (key & c' & Hc & ->). exists key, c'. split; [right|]; auto.
Qed.

Lemma in_dim_channels_select now stg r :
  In r (dim_channels_select now stg) ->
  exists key c, In c (channel_stats stg) /\ stats_ok c /\ r = channel_row now key c.
Proof.
  intros H. apply in_row_number in H. destruct H as (key & c & Hc & ->).
  exists key, c.
  apply (proj1 (in_order_by c (channel_stats stg))) in Hc.
  split; [exact Hc|]. split; [|reflexivity].
  exact (proj1 (Forall_forall stats_ok (channel_stats stg)) (channel_stats_ok stg) c Hc).
Qed.

Lemma percentage_bounds part total :
  1 <= total -> 0 <= part <= total ->
  exists p, percentage part total = Some p /\ 0 <= p <= 10000.
Proof.
  intros Ht Hp. unfold percentage, Sql.NULLIF.
  destruct (total =? 0) eqn:E; [apply Z.eqb_eq in E; lia|].
  cbn [option_map]. eexists. split; [reflexivity|].
  unfold Sql.ROUND2. destruct (0 <=? part * 100) eqn:Es; [|apply Z.leb_gt in Es; lia].
  split.
  - apply Z.div_pos; lia.
  - assert ((2 * (100 * (part * 100)) + total) / (2 * total) < 10001); [|lia].
    apply Z.div_lt_upper_bound; lia.
Qed.

Lemma percentage_of_zero_posts part : percentage part 0 = None.
Proof. reflexivity. Qed.

Lemma option_string_eqb_refl a : option_string_eqb a a = true.
Proof. destruct a; cbn; [apply String.eqb_refl | reflexivity]. Qed.

Lemma in_group_first s : in_group (stats_first s) s = true.
Proof.
  unfold in_group, stats_first. cbn.
  rewrite String.eqb_refl, !option_string_eqb_refl. reflexivity.
Qed.

Lemma in_group_step c s s' : in_group (stats_step c s') s = in_group c s.
Proof. reflexivity. Qed.

Lemma aggregate_from_row (all : list Stg.row) groups s :
  In s all ->
  (forall c, In c groups -> exists s0, In s0 all /\ in_group c s0 = true) ->
  forall c, In c (aggregate groups s) -> exists s0, In s0 all /\ in_group c s0 = true.
Proof.
  intros Hs. induction groups as [|g rest IH]; intros Hg c Hc; cbn [aggregate] in Hc.
  - destruct Hc as [<-|[]]. exists s. split; [assumption | apply in_group_first].
  - destruct (in_group g s) eqn:E.
    + destruct Hc as [<-|Hc].
      * exists s. split; [assumption|]. rewrite in_group_step. exact E.
      * apply Hg. right. exact Hc.
    + destruct Hc as [<-|Hc].
      * apply Hg. left. reflexivity.
      * apply IH; [|exact Hc]. intros c' Hc'. apply Hg. right. exact Hc'.
Qed.

(** Every group of [channel_stats] is the group of a valid staging row. *)
Lemma channel_stats_from_valid_row stg c :
  In c (channel_stats stg) ->
  exists s, In s stg /\ is_valid s = true /\ in_group c s = true.
Proof.
  intros Hc. apply in_channel_stats in Hc. unfold channel_groups in Hc.
  assert (G : forall rows groups,
             (forall s, In s rows -> In s (filter is_valid stg)) ->
             (forall c, In c groups ->
                exists s0, In s0 (filter is_valid stg) /\ in_group c s0 = true) ->
             forall c, In c (fold_left aggregate rows groups) ->
                exists s0, In s0 (filter is_valid stg) /\ in_group c s0 = true).
  { induction rows as [|s rows IH]; intros groups Hrows Hg c' Hc'; cbn [fold_left] in Hc'.
    - exact (Hg c' Hc').
    - apply (IH (aggregate groups s)); [| |exact Hc'].
      + intros s' Hs'. apply Hrows. right. exact Hs'.
      + apply aggregate_from_row; [apply Hrows; left; reflexivity | exact Hg]. }
  destruct (G (filter is_valid stg) [] (fun s H => H) (fun c H => match H with end) c Hc)
    as (s & Hs & Hin).
  apply filter_In in Hs. exists s. tauto.
Qed.

Lemma option_string_eqb_eq a b : option_string_eqb a b = true -> a = b.
Proof.
  destruct a, b; cbn; intros H; try discriminate; [|reflexivity].
  apply String.eqb_eq in H. congruence.
Qed.

(** The channel dimension of a reachable warehouse is the result of its
    SELECT over the staging table of that warehouse. *)
Lemma reachable_dim_channels now db :
  reachable now db ->
  forall dc, dim_channels db = Some dc ->
  exists t stg, stg_telegram_messages db = Some stg /\ dc = dim_channels_select t stg.
Proof.
  induction 1 as [now|now now' db _ IH Hle|now clock db files _ IH
                  |now today db db' _ IH Hc|now today db _ IH Hc]; intros dc Hd.
  - discriminate.
  - exact (IH dc Hd).
  - destruct (load_raw_data_keeps_schema clock db files) as (Es & _ & E & _).
    cbv zeta in E, Es. rewrite E in Hd. rewrite Es. exact (IH dc Hd).
  - apply create_star_schema_inv in Hc.
    destruct Hc as (stg & dd & dc' & fct & -> & Hstg & _ & Hdc & _).
    cbn in Hd. injection Hd as ->. cbn [stg_telegram_messages].
    destruct Hdc as [Hold | (_ & ->)]; [|eauto].
    destruct (IH dc Hold) as (t & stg0 & Es & ->).
    destruct Hstg as [E | (E & _)]; [|congruence].
    exists t, stg0. split; [congruence | reflexivity].
  - destruct (create_star_schema_raised_inv now db) as [E | (Es & raw & _ & E)];
      rewrite E in *.
    + exact (IH dc Hd).
    + cbn in Hd. destruct (IH dc Hd) as (t & stg0 & Es' & _). congruence.
Qed.

Lemma reachable_channel_row now db dc c :
  reachable now db -> dim_channels db = Some dc -> In c dc ->
  exists t stg key g,
    stg_telegram_messages db = Some stg
    /\ In g (channel_stats stg) /\ stats_ok g /\ c = channel_row t key g.
Proof.
  intros R Hd Hc.
  destruct (reachable_dim_channels now db R dc Hd) as (t & stg & Es & ->).
  apply in_dim_channels_select in Hc. destruct Hc as (key & g & Hin & Hg & ->).
  exists t, stg, key, g. auto.
Qed.



(** C10. Every row of the channel dimension of a warehouse that the
    pipeline can produce has [total_posts >= 1], because it is the group of a
    valid row of the staging table, with the same name, username and title;
    [NULLIF(total_posts, 0)] is therefore [total_posts] itself, and neither
    percentage is NULL. *)
Theorem channel_rows_have_posts :
  forall (now : Z) (db : warehouse) (dc : list DimChannel.row) (c : DimChannel.row),
    reachable now db ->
    dim_channels db = Some dc ->
    In c dc ->
    1 <= DimChannel.total_posts c
    /\ (exists stg s,
          stg_telegram_messages db = Some stg /\ In s stg
          /\ Stg.data_quality_status s = valid
          /\ Stg.channel_name s = DimChannel.channel_name c
          /\ Stg.channel_username s = DimChannel.channel_username c
          /\ Stg.channel_title s = DimChannel.channel_title c)
    /\ Sql.NULLIF (DimChannel.total_posts c) 0 = Some (DimChannel.total_posts c)
    /\ DimChannel.media_percentage c <> None
    /\ DimChannel.image_percentage c <> None.
Proof.
  intros now db dc c R Hd Hc.
  destruct (reachable_channel_row now db dc c R Hd Hc)
    as (t & stg & key & g & Es & Hin & Hg & ->).
  destruct Hg as (Ht & Hm & Hi). cbn.
  destruct (percentage_bounds _ _ Ht Hm) as (m & Em & _).
  destruct (percentage_bounds _ _ Ht Hi) as (i & Ei & _).
  rewrite Em, Ei. unfold Sql.NULLIF.
  destruct (ChannelStats.total_posts g =? 0) eqn:E; [apply Z.eqb_eq in E; lia|].
  split; [assumption|]. split; [|repeat split; discriminate].
  destruct (channel_stats_from_valid_row stg g Hin) as (s & Hs & V & G).
  exists stg, s. split; [assumption|]. split; [assumption|].
  unfold is_valid in V. unfold in_group in G.
  apply andb_true_iff in G. destruct G as [G Gt].
  apply andb_true_iff in G. destruct G as [Gn Gu].
  apply String.eqb_eq in Gn. apply option_string_eqb_eq in Gu, Gt.
  destruct (Stg.data_quality_status s); [|discriminate]. auto.
Qed.

Lemma channel_rows_have_posts_witness :
  1 <= DimChannel.total_posts scenario_B_channel
  /\ (exists stg s,
        stg_telegram_messages scenario_B_built = Some stg /\ In s stg
        /\ Stg.data_quality_status s = valid
        /\ Stg.channel_name s = DimChannel.channel_name scenario_B_channel
        /\ Stg.channel_username s = DimChannel.channel_username scenario_B_channel
        /\ Stg.channel_title s = DimChannel.channel_title scenario_B_channel)
  /\ Sql.NULLIF (DimChannel.total_posts scenario_B_channel) 0
     = Some (DimChannel.total_posts scenario_B_channel)
  /\ DimChannel.media_percentage scenario_B_channel <> None
  /\ DimChannel.image_percentage scenario_B_channel <> None.
Proof.
  apply (channel_rows_have_posts example_now scenario_B_built
           (Sql.COALESCE (dim_channels scenario_B_built) [])).
  - exact scenario_B_built_reachable.
  - vm_compute. reflexivity.
  - vm_compute. left. reflexivity.
Defined.



(** ** FactBuilder *)

Lemma in_left_join_some {A B : Type} (on : A -> B -> bool) l r a b :
  In (a, Some b) (left_join on l r) <-> In a l /\ In b r /\ on a b = true.
Proof.
  unfold left_join. rewrite in_flat_map. split.
  - intros (a' & Ha & H). destruct (filter (on a') r) as [|b0 bs] eqn:F.
    + destruct H as [H|[]]. discriminate.
    + rewrite <- F in H. apply in_map_iff in H. destruct H as (b' & E & Hb).
      injection E as -> ->. apply filter_In in Hb. tauto.
  - intros (Ha & Hb & Hon). exists a. split; [assumption|].
    assert (Hf : In b (filter (on a) r)) by (apply filter_In; auto).
    destruct (filter (on a) r) as [|b0 bs] eqn:F; [destruct Hf|].
    rewrite <- F. apply in_map_iff. exists b. rewrite F. auto.
Qed.

Lemma in_left_join_left {A B : Type} (on : A -> B -> bool) l r a (b : option B) :
  In (a, b) (left_join on l r) -> In a l.
Proof.
  unfold left_join. rewrite in_flat_map. intros (a' & Ha & H).
  destruct (filter (on a') r) as [|b0 bs].
  - destruct H as [H|[]]. injection H as -> _. assumption.
  - apply in_map_iff in H. destruct H as (b' & E & _). injection E as -> _. assumption.
Qed.

(** The rows of the fact table: a valid staging row, a channel row of the
    same [channel_name] and a date row of the same calendar day, in every
    combination. *)
Lemma in_fct_select stg dc dd f :
  In f (fct_select stg dc dd)
  <-> exists m c d,
        In m stg /\ In c dc /\ In d dd
        /\ Stg.channel_name m = DimChannel.channel_name c
        /\ Calendar.DATE (Stg.message_date m) = DimDate.full_date d
        /\ Stg.data_quality_status m = valid
        /\ f = fact_of m c d.
Proof.
  unfold fct_select. rewrite in_flat_map. split.
  - intros (((m & oc) & od) & Hj & Hf).
    destruct oc as [c|]; [|destruct Hf]. destruct od as [d|]; [|destruct Hf].
    cbn [fct_row] in Hf. destruct (is_valid m) eqn:V; [|destruct Hf].
    destruct Hf as [<-|[]].
    apply in_left_join_some in Hj. destruct Hj as (Hmc & Hd & Hon).
    apply in_left_join_some in Hmc. destruct Hmc as (Hm & Hc & Hch).
    exists m, c, d. unfold on_date in Hon. unfold on_channel in Hch. cbn [fst] in Hon.
    apply Z.eqb_eq in Hon. apply String.eqb_eq in Hch.
    unfold is_valid in V. destruct (Stg.data_quality_status m) eqn:Q; [|discriminate].
    repeat split; assumption.
  - intros (m & c & d & Hm & Hc & Hd & En & Ed & Q & ->).
    exists (m, Some c, Some d). split.
    + apply in_left_join_some. split; [|split; [assumption|]].
      * apply in_left_join_some. split; [assumption|]. split; [assumption|].
        unfold on_channel. apply String.eqb_eq. assumption.
      * unfold on_date. cbn [fst]. apply Z.eqb_eq. assumption.
    + cbn [fct_row]. unfold is_valid. rewrite Q. left. reflexivity.
Qed.

(** C1 (the code at the failing input). A channel named "x" posted twice on
    2024-01-15 and changed its title in between. Both staging rows are valid;
    the channel dimension has one row for each (name, username, title)
    triple, with keys 1 and 2: both groups hold one post, and the group of
    'New title' comes first. The fact table holds four rows: each staging
    row is joined to both channel rows, since the join compares the channel
    name alone. *)
Theorem fact_rows_of_a_retitled_channel :
  option_map (map (fun s => (Stg.message_id s, Stg.channel_title s,
                             Stg.data_quality_status s)))
             (stg_telegram_messages retitled_built)
  = Some [(1, Some "Old title"%string, valid); (2, Some "New title"%string, valid)]
  /\ option_map (map (fun c => (DimChannel.channel_key c, DimChannel.channel_name c,
                                DimChannel.channel_title c)))
                (dim_channels retitled_built)
     = Some [(1, "x"%string, Some "New title"%string);
             (2, "x"%string, Some "Old title"%string)]
  /\ option_map (map (fun f => (Fct.message_id f, Fct.channel_key f, Fct.date_key f)))
                (fct_messages retitled_built)
     = Some [(1, 1, 20240115); (1, 2, 20240115); (2, 1, 20240115); (2, 2, 20240115)]
  /\ table_size (stg_telegram_messages retitled_built) = 2
  /\ table_size (fct_messages retitled_built) = 4.
Proof. vm_compute. repeat split; reflexivity. Qed.

(** * Further properties of the pipeline *)

(** ** RecordLoader: keys and repeated loads *)

Lemma stored_iff tbl k : stored tbl k = true <-> In k (map key_of tbl).
Proof.
  unfold stored. rewrite existsb_exists, in_map_iff. destruct k as [mid cn]. cbn [fst snd].
  split; intros (r & H1 & H2); exists r.
  - unfold same_key in H2. apply andb_true_iff in H2. destruct H2 as [Hm Hc].
    apply Z.eqb_eq in Hm. apply String.eqb_eq in Hc. unfold key_of. split; [congruence|assumption].
  - unfold key_of in H1. injection H1 as <- <-. split; [assumption|].
    unfold same_key. rewrite Z.eqb_refl, String.eqb_refl. reflexivity.
Qed.

(** What an insert that does not raise does to the table: nothing, or one
    row more, under a key that was not stored. *)
Lemma insert_or_ignore_inv clock tbl msg tbl' :
  insert_or_ignore clock tbl msg = Some tbl' ->
  msg_bindable msg = true
  /\ match msg_key msg with
     | None => tbl' = tbl
     | Some k =>
         if stored tbl k then tbl' = tbl
         else exists r, tbl' = tbl ++ [r] /\ key_of r = k
     end.
Proof.
  intros H. split.
  { rewrite <- (insert_or_ignore_raises clock tbl msg), H. reflexivity. }
  unfold insert_or_ignore in H. unfold msg_key, stored.
  destruct (Msg.message_id msg) as [| |mid|]; cbn [sqlite_int] in H;
    [ | | destruct (int64 mid) | ]; cbn [bind_get] in H; try discriminate;
    destruct (Msg.channel_name msg) as [| |cn|]; cbn [bind_get] in H; try discriminate.
  all: destruct (bind_get (Msg.channel_username msg) None) as [cu|]; [|discriminate].
  all: destruct (bind_get (Msg.channel_title msg) None) as [ct|]; [|discriminate].
  all: destruct (bind_get (Msg.message_date msg) None) as [md|]; [|discriminate].
  all: destruct (bind_get (Msg.message_text msg) (Some EmptyString)) as [mt|]; [|discriminate].
  all: destruct (bind_get (Msg.has_media msg) (Some false)) as [hm|]; [|discriminate].
  all: destruct (bind_get (Msg.image_path msg) None) as [ip|]; [|discriminate].
  all: destruct (bind_get (sqlite_int (Msg.views msg)) (Some 0)) as [vw|]; [|discriminate].
  all: destruct (bind_get (sqlite_int (Msg.forwards msg)) (Some 0)) as [fw|]; [|discriminate].
  all: destruct (bind_get (Msg.scraped_at msg) (Some clock)) as [sa|]; [|discriminate].
  all: try (injection H as <-; reflexivity).
  all: cbn [fst snd];
       match goal with |- context [existsb ?f ?l] => destruct (existsb f l) end;
       injection H as <-; [reflexivity | eexists; split; reflexivity].
Qed.

Lemma keys_unique_snoc tbl r :
  keys_unique tbl -> stored tbl (key_of r) = false -> keys_unique (tbl ++ [r]).
Proof.
  unfold keys_unique. intros Hu Hs. rewrite map_app. cbn [map].
  apply NoDup_app; [assumption | repeat constructor; intros [] | ].
  intros k Hk [<-|[]]. apply stored_iff in Hk. congruence.
Qed.

Lemma stored_app tbl ext k : stored tbl k = true -> stored (tbl ++ ext) k = true.
Proof. unfold stored. rewrite existsb_app. intros ->. reflexivity. Qed.

Lemma stored_snoc_same tbl r : stored (tbl ++ [r]) (key_of r) = true.
Proof.
  apply stored_iff. rewrite map_app. apply in_or_app. right. left. reflexivity.
Qed.

(** One insert keeps the rows that were there, keeps the keys distinct and
    leaves the key of the message stored. *)
Lemma insert_or_ignore_step clock tbl msg tbl' :
  insert_or_ignore clock tbl msg = Some tbl' ->
  (exists added, tbl' = tbl ++ added)
  /\ (keys_unique tbl -> keys_unique tbl')
  /\ (forall k, msg_key msg = Some k -> stored tbl' k = true).
Proof.
  intros H. apply insert_or_ignore_inv in H. destruct H as [_ H].
  destruct (msg_key msg) as [k|].
  - destruct (stored tbl k) eqn:S.
    + subst tbl'. split; [exists []; rewrite app_nil_r; reflexivity|].
      split; [auto|]. intros k' E. injection E as <-. assumption.
    + destruct H as (r & -> & <-). split; [eauto|]. split.
      * intros Hu. apply keys_unique_snoc; assumption.
      * intros k' E. injection E as <-. apply stored_snoc_same.
  - subst tbl'. split; [exists []; rewrite app_nil_r; reflexivity|].
    split; [auto|]. intros k E. discriminate.
Qed.

(** An insert into a table where the key of the message is stored, or of a
    message without a key, changes nothing, whatever the clock. *)
Lemma insert_or_ignore_absorbed clock clock' tbl msg tbl' ext :
  insert_or_ignore clock tbl msg = Some tbl' ->
  insert_or_ignore clock' (tbl' ++ ext) msg = Some (tbl' ++ ext).
Proof.
  intros H. pose proof (insert_or_ignore_step _ _ _ _ H) as (_ & _ & Hst).
  pose proof (insert_or_ignore_inv _ _ _ _ H) as [Hb _].
  pose proof (insert_or_ignore_raises clock' (tbl' ++ ext) msg) as R. rewrite Hb in R.
  destruct (insert_or_ignore clock' (tbl' ++ ext) msg) as [t|] eqn:E; [|discriminate].
  apply insert_or_ignore_inv in E. destruct E as [_ E].
  destruct (msg_key msg) as [k|]; [|congruence].
  rewrite (stored_app tbl' ext k (Hst k eq_refl)) in E. congruence.
Qed.

Lemma load_messages_step clock messages :
  forall tbl,
    (exists added, fst (load_messages clock tbl messages) = tbl ++ added)
    /\ (keys_unique tbl -> keys_unique (fst (load_messages clock tbl messages))).
Proof.
  induction messages as [|e rest IH]; intros tbl; cbn [load_messages].
  - cbn [fst]. split; [exists []; rewrite app_nil_r; reflexivity | auto].
  - destruct e as [msg|]; [|apply IH].
    destruct (insert_or_ignore clock tbl msg) as [t|] eqn:E.
    + destruct (insert_or_ignore_step _ _ _ _ E) as ((a1 & ->) & Hu & _).
      destruct (IH (tbl ++ a1)) as ((a2 & ->) & Hu2). split.
      * exists (a1 ++ a2). rewrite app_assoc. reflexivity.
      * auto.
    + cbn [fst]. split; [exists []; rewrite app_nil_r; reflexivity | auto].
Qed.

(** A second pass over the same messages, on the table that the first pass
    left (or on a longer one), inserts nothing and ends the same way. *)
Lemma load_messages_again clock clock' messages :
  forall tbl ext,
    load_messages clock' (fst (load_messages clock tbl messages) ++ ext) messages
    = (fst (load_messages clock tbl messages) ++ ext,
       snd (load_messages clock tbl messages)).
Proof.
  induction messages as [|e rest IH]; intros tbl ext; cbn [load_messages]; [reflexivity|].
  destruct e as [msg|]; [|apply IH].
  destruct (insert_or_ignore clock tbl msg) as [t|] eqn:E.
  - destruct (load_messages_step clock rest t) as ((a & Ea) & _).
    rewrite Ea, <- app_assoc.
    rewrite (insert_or_ignore_absorbed clock clock' tbl msg t (a ++ ext) E).
    rewrite app_assoc, <- Ea. apply IH.
  - cbn [fst snd].
    pose proof (insert_or_ignore_raises clock tbl msg) as R1.
    pose proof (insert_or_ignore_raises clock' (tbl ++ ext) msg) as R2.
    rewrite E in R1. cbn [is_some] in R1. rewrite <- R1 in R2.
    destruct (insert_or_ignore clock' (tbl ++ ext) msg); [discriminate|reflexivity].
Qed.

Lemma load_file_step clock tbl total f :
  (exists added, fst (load_file clock (tbl, total) f) = tbl ++ added)
  /\ (keys_unique tbl -> keys_unique (fst (load_file clock (tbl, total) f))).
Proof.
  destruct f as [messages|data|]; cbn [load_file].
  - pose proof (load_messages_step clock messages tbl) as H.
    destruct (load_messages clock tbl messages) as [t fin]. exact H.
  - pose proof (load_messages_step clock [data] tbl) as H.
    destruct (load_messages clock tbl [data]) as [t fin]. exact H.
  - cbn [fst]. split; [exists []; rewrite app_nil_r; reflexivity | auto].
Qed.

Lemma load_file_again clock clock' tbl total total' f ext :
  fst (load_file clock' (fst (load_file clock (tbl, total) f) ++ ext, total') f)
  = fst (load_file clock (tbl, total) f) ++ ext.
Proof.
  destruct f as [messages|data|]; cbn [load_file].
  - pose proof (load_messages_again clock clock' messages tbl ext) as H.
    destruct (load_messages clock tbl messages) as [t fin]. cbn [fst snd] in *.
    rewrite H. reflexivity.
  - pose proof (load_messages_again clock clock' [data] tbl ext) as H.
    destruct (load_messages clock tbl [data]) as [t fin]. cbn [fst snd] in *.
    rewrite H. reflexivity.
  - reflexivity.
Qed.

Lemma load_files_step clock json_files :
  forall tbl total,
    (exists added, fst (fold_left (load_file clock) json_files (tbl, total)) = tbl ++ added)
    /\ (keys_unique tbl ->
        keys_unique (fst (fold_left (load_file clock) json_files (tbl, total)))).
Proof.
  induction json_files as [|f rest IH]; intros tbl total; cbn [fold_left].
  - cbn [fst]. split; [exists []; rewrite app_nil_r; reflexivity | auto].
  - destruct (load_file_step clock tbl total f) as ((a1 & E1) & U1).
    destruct (load_file clock (tbl, total) f) as [t n]. cbn [fst] in *. subst t.
    destruct (IH (tbl ++ a1) n) as ((a2 & E2) & U2). split.
    + exists (a1 ++ a2). rewrite E2, app_assoc. reflexivity.
    + auto.
Qed.

Lemma load_files_again clock clock' json_files :
  forall tbl total total' ext,
    fst (fold_left (load_file clock') json_files
           (fst (fold_left (load_file clock) json_files (tbl, total)) ++ ext, total'))
    = fst (fold_left (load_file clock) json_files (tbl, total)) ++ ext.
Proof.
  induction json_files as [|f rest IH]; intros tbl total total' ext; cbn [fold_left];
    [reflexivity|].
  destruct (load_file clock (tbl, total) f) as [t n] eqn:E1.
  destruct (load_files_step clock rest t n) as ((a & Ea) & _).
  rewrite Ea, <- app_assoc.
  pose proof (load_file_again clock clock' tbl total total' f (a ++ ext)) as H.
  rewrite E1 in H. cbn [fst] in H.
  destruct (load_file clock' (t ++ a ++ ext, total') f) as [t2 n2]. cbn [fst] in H. subst t2.
  rewrite app_assoc, <- Ea. apply IH.
Qed.

(** X1. A load keeps the keys of [raw_telegram_messages] distinct: when no
    two rows of the table share their (message_id, channel_name) before
    [load_raw_data], no two rows share it afterwards, whatever the files
    hold. *)
Theorem load_raw_data_keeps_keys_unique :
  forall (clock : Z) (db : warehouse) (json_files : list json_file),
    keys_unique (Sql.COALESCE (raw_telegram_messages db) []) ->
    keys_unique
      (Sql.COALESCE (raw_telegram_messages (fst (load_raw_data clock db json_files))) []).
Proof.
  intros clock db files Hu. unfold load_raw_data.
  destruct (load_files_step clock files (Sql.COALESCE (raw_telegram_messages db) []) 0)
    as (_ & U).
  destruct (fold_left (load_file clock) files
              (Sql.COALESCE (raw_telegram_messages db) [], 0)) as [tbl total].
  cbn. auto.
Qed.

Lemma load_raw_data_keeps_keys_unique_witness :
  keys_unique
    (Sql.COALESCE
       (raw_telegram_messages (fst (load_raw_data 0 empty_warehouse scenario_A_files))) []).
Proof.
  apply (load_raw_data_keeps_keys_unique 0 empty_warehouse scenario_A_files).
  cbn. constructor.
Defined.

(** X2. [load_raw_data] only appends to [raw_telegram_messages]: the rows
    that were in the table are still there afterwards, unchanged and in the
    same place (a table that did not exist counts as empty), and the staging
    table, the two dimensions and the fact table are left as they were. *)
Theorem load_raw_data_only_appends :
  forall (clock : Z) (db : warehouse) (json_files : list json_file),
    let db' := fst (load_raw_data clock db json_files) in
    (exists added,
       raw_telegram_messages db'
       = Some (Sql.COALESCE (raw_telegram_messages db) [] ++ added))
    /\ stg_telegram_messages db' = stg_telegram_messages db
    /\ dim_dates db' = dim_dates db
    /\ dim_channels db' = dim_channels db
    /\ fct_messages db' = fct_messages db.
Proof.
  intros clock db files. split; [|apply load_raw_data_keeps_schema].
  unfold load_raw_data.
  destruct (load_files_step clock files (Sql.COALESCE (raw_telegram_messages db) []) 0)
    as ((added & E) & _).
  destruct (fold_left (load_file clock) files
              (Sql.COALESCE (raw_telegram_messages db) [], 0)) as [tbl total].
  cbn in *. exists added. congruence.
Qed.

(** X3. Loading the same files a second time, at any later time, leaves
    the database exactly as the first load left it, and returns the same
    number as the first load. *)
Theorem load_raw_data_twice :
  forall (clock clock' : Z) (db : warehouse) (json_files : list json_file),
    let once := load_raw_data clock db json_files in
    let twice := load_raw_data clock' (fst once) json_files in
    fst twice = fst once /\ snd twice = snd once.
Proof.
  intros clock clock' db files. cbv zeta. split.
  - unfold load_raw_data.
    pose proof (load_files_again clock clock' files
                  (Sql.COALESCE (raw_telegram_messages db) []) 0 0 []) as H.
    destruct (fold_left (load_file clock) files
                (Sql.COALESCE (raw_telegram_messages db) [], 0)) as [tbl total].
    cbn [fst raw_telegram_messages Sql.COALESCE stg_telegram_messages dim_dates
         dim_channels fct_messages] in *.
    rewrite app_nil_r in H.
    destruct (fold_left (load_file clock') files (tbl, 0)) as [tbl2 total2].
    cbn [fst] in *. subst tbl2. reflexivity.
  - unfold load_raw_data.
    pose proof (load_files_total clock files
                  (Sql.COALESCE (raw_telegram_messages db) []) 0) as T1.
    destruct (fold_left (load_file clock) files
                (Sql.COALESCE (raw_telegram_messages db) [], 0)) as [tbl total].
    cbn [fst snd raw_telegram_messages Sql.COALESCE] in *.
    pose proof (load_files_total clock' files tbl 0) as T2.
    destruct (fold_left (load_file clock') files (tbl, 0)) as [tbl2 total2].
    cbn [snd] in *. congruence.
Qed.

Lemma load_messages_stores clock messages :
  forall tbl,
    snd (load_messages clock tbl messages) = true ->
    forall msg k, In (JDict msg) messages -> msg_key msg = Some k ->
    stored (fst (load_messages clock tbl messages)) k = true.
Proof.
  induction messages as [|e rest IH]; intros tbl Hfin msg k Hin Hk; [destruct Hin|].
  cbn [load_messages] in *. destruct e as [m|].
  - destruct (insert_or_ignore clock tbl m) as [t|] eqn:E; [|discriminate].
    destruct Hin as [Hm|Hin]; [|exact (IH t Hfin msg k Hin Hk)].
    injection Hm as ->.
    destruct (insert_or_ignore_step _ _ _ _ E) as (_ & _ & Hst).
    destruct (load_messages_step clock rest t) as ((a & ->) & _).
    apply stored_app, Hst, Hk.
  - destruct Hin as [Hm|Hin]; [discriminate|]. exact (IH tbl Hfin msg k Hin Hk).
Qed.

Lemma load_files_store clock json_files :
  forall tbl total messages msg k,
    In (FileList messages) json_files ->
    forallb elem_bindable messages = true ->
    In (JDict msg) messages -> msg_key msg = Some k ->
    stored (fst (fold_left (load_file clock) json_files (tbl, total))) k = true.
Proof.
  induction json_files as [|f rest IH]; intros tbl total messages msg k Hf Hb Hin Hk;
    [destruct Hf|].
  cbn [fold_left]. destruct Hf as [->|Hf].
  - cbn [load_file].
    pose proof (load_messages_finished clock messages tbl) as F.
    pose proof (load_messages_stores clock messages tbl) as S.
    destruct (load_messages clock tbl messages) as [t fin]. cbn [fst snd] in *.
    rewrite Hb in F. subst fin.
    destruct (load_files_step clock rest t (total + Z.of_nat (List.length messages)))
      as ((a & ->) & _).
    apply stored_app. exact (S eq_refl msg k Hin Hk).
  - destruct (load_file clock (tbl, total) f) as [t n].
    exact (IH t n messages msg k Hf Hb Hin Hk).
Qed.

(** X4. After [load_raw_data], every message object that has a key (a
    [message_id], and a [channel_name] or its default) and stands in a file
    that is a list whose elements can all be bound (no value is an array or
    an object, and the integers fit in 64 bits) is stored in
    [raw_telegram_messages] under that key, whether this load inserted it or
    an earlier row held the key. *)
Theorem loaded_message_is_stored :
  forall (clock : Z) (db : warehouse) (json_files : list json_file)
         (messages : list json_elem) (msg : Msg.t) (k : Z * string),
    In (FileList messages) json_files ->
    forallb elem_bindable messages = true ->
    In (JDict msg) messages ->
    msg_key msg = Some k ->
    stored (Sql.COALESCE
              (raw_telegram_messages (fst (load_raw_data clock db json_files))) []) k
    = true.
Proof.
  intros clock db files messages msg k Hf Hb Hin Hk. unfold load_raw_data.
  pose proof (load_files_store clock files
                (Sql.COALESCE (raw_telegram_messages db) []) 0 messages msg k
                Hf Hb Hin Hk) as S.
  destruct (fold_left (load_file clock) files
              (Sql.COALESCE (raw_telegram_messages db) [], 0)) as [tbl total].
  exact S.
Qed.

Lemma loaded_message_is_stored_witness :
  stored (Sql.COALESCE
            (raw_telegram_messages (fst (load_raw_data 0 empty_warehouse scenario_A_files)))
            []) (1, "x"%string)
  = true.
Proof.
  apply (loaded_message_is_stored 0 empty_warehouse scenario_A_files
           [JDict scenario_A_record; JDict scenario_A_record] scenario_A_record).
  - left. reflexivity.
  - reflexivity.
  - left. reflexivity.
  - reflexivity.
Defined.

(** ** The shape of a warehouse that the pipeline can produce *)

(** The warehouses that the pipeline can produce: the keys of the raw table
    are distinct; the staging table, when it exists, is that of a build at
    an earlier run time over a raw table that the store still starts with;
    and the three tables after it either do not exist or are those of a
    build over this staging table. *)
Lemma reachable_shape now db :
  reachable now db ->
  keys_unique (Sql.COALESCE (raw_telegram_messages db) [])
  /\ (unbuilt db
      \/ exists t raw added,
           t <= now /\ keys_unique raw
           /\ raw_telegram_messages db = Some (raw ++ added)
           /\ stg_telegram_messages db = Some (stg_select t raw)
           /\ (staging_only db
               \/ exists t' today, built_from t' today (stg_select t raw) db)).
Proof.
  induction 1 as [now|now now' db _ IH Hle|now clock db files _ IH
                  |now today db db' _ IH Hc|now today db _ IH Hc].
  - split; [constructor | left; repeat split; reflexivity].
  - destruct IH as [U B]. split; [assumption|].
    destruct B as [B | (t & raw & added & Ht & Hu & Hr & Hs & Hb)];
      [left; assumption | right].
    exists t, raw, added. split; [lia|]. auto.
  - destruct IH as [U B]. split.
    + unfold load_raw_data.
      destruct (load_files_step clock files (Sql.COALESCE (raw_telegram_messages db) []) 0)
        as (_ & K).
      destruct (fold_left (load_file clock) files
                  (Sql.COALESCE (raw_telegram_messages db) [], 0)) as [tbl total].
      cbn. auto.
    + destruct (load_raw_data_keeps_schema clock db files) as (Es & Ed & Ec & Ef).
      cbv zeta in Es, Ed, Ec, Ef.
      destruct B as [(Bs & Bd & Bc & Bf) | (t & raw & added & Ht & Hu & Hr & Hs & Hb)].
      * left. unfold unbuilt. rewrite Es, Ed, Ec, Ef. auto.
      * right. exists t, raw.
        unfold load_raw_data in *.
        destruct (load_files_step clock files (Sql.COALESCE (raw_telegram_messages db) []) 0)
          as ((a & Ea) & _).
        destruct (fold_left (load_file clock) files
                    (Sql.COALESCE (raw_telegram_messages db) [], 0)) as [tbl total].
        cbn [fst raw_telegram_messages stg_telegram_messages dim_dates dim_channels
             fct_messages] in *.
        exists (added ++ a). split; [assumption|]. split; [assumption|]. split.
        -- rewrite Hr in Ea. cbn in Ea. rewrite Ea, app_assoc. reflexivity.
        -- split; [exact Hs|].
           unfold staging_only, built_from in *.
           cbn [stg_telegram_messages dim_dates dim_channels fct_messages]. exact Hb.
  - destruct IH as [U B]. apply create_star_schema_inv in Hc.
    destruct Hc as (stg & dd & dc & fct & -> & Hs & Hd & Hch & Hf).
    cbn [raw_telegram_messages]. split; [assumption|]. right.
    destruct B as [(Bs & Bd & Bc & Bf) | (t & raw & added & Ht & Hu & Hr & Bs & Hb)].
    + destruct Hs as [Hs|(_ & raw & Hr & ->)]; [congruence|].
      destruct Hd as [Hd|(_ & ->)]; [congruence|].
      destruct Hch as [Hch|(_ & ->)]; [congruence|].
      destruct Hf as [Hf|(_ & ->)]; [congruence|].
      exists now, raw, []. split; [lia|]. rewrite Hr in U. cbn in U.
      split; [assumption|]. split; [rewrite app_nil_r; assumption|].
      split; [reflexivity|]. right. exists now, today. unfold built_from. cbn. auto.
    + destruct Hs as [Hs|(Hs & _)]; [|congruence].
      assert (stg = stg_select t raw) as -> by congruence.
      exists t, raw, added. split; [assumption|]. split; [assumption|].
      split; [assumption|]. split; [reflexivity|]. right.
      destruct Hb as [(Bd & Bc & Bf) | (t' & today' & Bd & Bc & Bf)].
      * destruct Hd as [Hd|(_ & ->)]; [congruence|].
        destruct Hch as [Hch|(_ & ->)]; [congruence|].
        destruct Hf as [Hf|(_ & ->)]; [congruence|].
        exists now, today. unfold built_from. cbn. auto.
      * destruct Hd as [Hd|(Hd & _)]; [|congruence].
        destruct Hch as [Hch|(Hch & _)]; [|congruence].
        destruct Hf as [Hf|(Hf & _)]; [|congruence].
        exists t', today'. unfold built_from. cbn. repeat split; congruence.
  - destruct IH as [U B].
    destruct (create_star_schema_raised_inv now db) as [E | (Es & raw & Er & E)];
      rewrite E; [split; assumption|].
    cbn [raw_telegram_messages Sql.COALESCE]. rewrite Er in U. cbn in U.
    split; [assumption|]. right.
    destruct B as [(Bs & Bd & Bc & Bf) | (t & raw' & added & _ & _ & _ & Bs & _)];
      [|congruence].
    exists now, raw, []. split; [lia|]. split; [assumption|].
    split; [rewrite app_nil_r; reflexivity|]. split; [reflexivity|].
    left. unfold staging_only. cbn. auto.
Qed.

(** ** StagingBuilder: keys, validity and trimmed text *)

(** *** Staging rows *)

Lemma stg_select_keys now raw :
  map stg_key (stg_select now raw) = map key_of (filter (staged now) raw).
Proof.
  unfold stg_select, raw_data.
  induction raw as [|r raw IH]; [reflexivity|].
  cbn [flat_map filter]. unfold staged at 1.
  destruct (Raw.message_date r) as [md|] eqn:E; cbn [app map filter]; [|exact IH].
  change (Stg.is_future_date (cleaned_row now (source_row r md)))
    with (after_clock now md).
  destruct (after_clock now md); cbn [negb map]; [exact IH|].
  rewrite IH. reflexivity.
Qed.

Lemma NoDup_map_filter {A B : Type} (f : A -> B) (p : A -> bool) l :
  NoDup (map f l) -> NoDup (map f (filter p l)).
Proof.
  induction l as [|a l IH]; cbn [map filter]; intros H; [constructor|].
  inversion H as [|x xs Hn Hd]; subst.
  destruct (p a); cbn [map]; [|auto].
  constructor; [|auto]. intros Hin. apply Hn.
  apply in_map_iff in Hin. destruct Hin as (b & E & Hb). apply filter_In in Hb.
  apply in_map_iff. exists b. tauto.
Qed.

(** X6. In a warehouse that the pipeline can produce, no two staging rows
    share their (message_id, channel_name), and each staging row has a row of
    the same key in [raw_telegram_messages]. *)
Theorem staging_rows_have_one_raw_row :
  forall (now : Z) (db : warehouse) (stg : list Stg.row),
    reachable now db ->
    stg_telegram_messages db = Some stg ->
    NoDup (map stg_key stg)
    /\ forall s, In s stg ->
         stored (Sql.COALESCE (raw_telegram_messages db) []) (stg_key s) = true.
Proof.
  intros now db stg R Hs.
  destruct (reachable_shape now db R) as (_ & [(Bs & _) | B]); [congruence|].
  destruct B as (t & raw & added & _ & Hu & Hr & Bs & _).
  assert (stg = stg_select t raw) as -> by congruence.
  split.
  - rewrite stg_select_keys. apply NoDup_map_filter. exact Hu.
  - intros s Hin. rewrite Hr. cbn [Sql.COALESCE]. apply stored_app, stored_iff.
    apply (in_map stg_key) in Hin. rewrite stg_select_keys in Hin.
    apply in_map_iff in Hin. destruct Hin as (r & E & Hr'). apply filter_In in Hr'.
    apply in_map_iff. exists r. tauto.
Qed.

Lemma staging_rows_have_one_raw_row_witness :
  NoDup (map stg_key (Sql.COALESCE (stg_telegram_messages scenario_B_built) []))
  /\ forall s, In s (Sql.COALESCE (stg_telegram_messages scenario_B_built) []) ->
       stored (Sql.COALESCE (raw_telegram_messages scenario_B_built) []) (stg_key s) = true.
Proof.
  apply (staging_rows_have_one_raw_row example_now scenario_B_built).
  - exact scenario_B_built_reachable.
  - vm_compute. reflexivity.
Defined.

(** X7. In a warehouse that the pipeline can produce, a staging row has
    [data_quality_status = 'valid'] exactly when its text is not NULL and not
    made of spaces only, and its views are not negative: the future-date
    flag never decides, since the staging SELECT has dropped those rows. *)
Theorem staging_valid_iff :
  forall (now : Z) (db : warehouse) (stg : list Stg.row) (s : Stg.row),
    reachable now db ->
    stg_telegram_messages db = Some stg ->
    In s stg ->
    (Stg.data_quality_status s = valid
     <-> (exists text, Stg.message_text s = Some text /\ Sql.TRIM text <> EmptyString)
         /\ 0 <= Stg.views s).
Proof.
  intros now db stg s R Hs Hin.
  destruct (reachable_staging now db R stg Hs) as (t & raw & _ & ->).
  pose proof (stg_select_not_future t raw s Hin) as (Hle & _).
  apply in_stg_select in Hin. destruct Hin as (r & md & _ & _ & _ & ->).
  cbn in Hle. unfold cleaned_row. cbn. rewrite Hle, orb_false_r.
  destruct (Raw.message_text r) as [text|]; cbn [orb].
  - destruct (String.eqb_spec (Sql.TRIM text) EmptyString) as [E|N]; cbn [orb].
    + split; [discriminate|]. intros ((x & Ex & Nx) & _). congruence.
    + destruct (Sql.COALESCE (Raw.views r) 0 <? 0) eqn:V;
        [apply Z.ltb_lt in V | apply Z.ltb_ge in V].
      * split; [discriminate|]. intros (_ & H). lia.
      * split; [|reflexivity]. intros _. split; [eauto | exact V].
  - split; [discriminate|]. intros ((x & Ex & _) & _). discriminate.
Qed.

Lemma staging_valid_iff_witness :
  let s := hd (cleaned_row 0 (RawData.mk 0 EmptyString None None jan_15 None None None
                                          0 0 None))
              (Sql.COALESCE (stg_telegram_messages scenario_B_built) []) in
  Stg.data_quality_status s = valid
  <-> (exists text, Stg.message_text s = Some text /\ Sql.TRIM text <> EmptyString)
      /\ 0 <= Stg.views s.
Proof.
  apply (staging_valid_iff example_now scenario_B_built
           (Sql.COALESCE (stg_telegram_messages scenario_B_built) [])).
  - exact scenario_B_built_reachable.
  - vm_compute. reflexivity.
  - vm_compute. left. reflexivity.
Defined.

Section Trim.
Local Open Scope string_scope.

Lemma is_space_true c : Sql.is_space c = true -> c = " "%char.
Proof. unfold Sql.is_space. apply Ascii.eqb_eq. Qed.

Lemma is_space_false c : Sql.is_space c = false -> c <> " "%char.
Proof. unfold Sql.is_space. apply Ascii.eqb_neq. Qed.

Lemma ltrim_no_leading_space s t : Sql.ltrim s <> String " " t.
Proof.
  induction s as [|c s IH]; cbn [Sql.ltrim]; [discriminate|].
  destruct (Sql.is_space c) eqn:E; [exact IH|].
  apply is_space_false in E. congruence.
Qed.

Lemma rtrim_no_trailing_space s : forall t, Sql.rtrim s <> t ++ String " " "".
Proof.
  induction s as [|c s IH]; intros t; cbn [Sql.rtrim].
  - destruct t; discriminate.
  - destruct (Sql.rtrim s) as [|a u] eqn:R.
    + destruct (Sql.is_space c) eqn:E.
      * destruct t; discriminate.
      * apply is_space_false in E. destruct t as [|x t]; cbn; [congruence|].
        destruct t; discriminate.
    + destruct t as [|x t]; cbn; [discriminate|].
      intros H. injection H as _ H. exact (IH t H).
Qed.

Lemma rtrim_keeps_first s :
  (forall t, s <> String " " t) -> forall t, Sql.rtrim s <> String " " t.
Proof.
  destruct s as [|c s]; intros H t; cbn [Sql.rtrim]; [discriminate|].
  assert (Hc : c <> " "%char) by (intros ->; exact (H s eq_refl)).
  destruct (Sql.rtrim s); [|congruence].
  destruct (Sql.is_space c); [discriminate|congruence].
Qed.

Lemma ltrim_length s : Sql.LENGTH (Sql.ltrim s) <= Sql.LENGTH s.
Proof.
  induction s as [|c s IH]; cbn [Sql.ltrim]; [lia|].
  destruct (Sql.is_space c) eqn:E; [|lia].
  apply is_space_true in E. subst c. unfold Sql.LENGTH in *.
  change (Sql.length_from false (String " " s)) with (1 + Sql.length_from false s).
  lia.
Qed.

Lemma rtrim_length s :
  forall in_char, Sql.length_from in_char (Sql.rtrim s) <= Sql.length_from in_char s.
Proof.
  induction s as [|c s IH]; intros in_char; [cbn; lia|].
  change (Sql.rtrim (String c s))
    with (match Sql.rtrim s with
          | EmptyString => if Sql.is_space c then EmptyString else String c EmptyString
          | t => String c t
          end).
  destruct (Sql.rtrim s) as [|a u] eqn:R.
  - destruct (Sql.is_space c).
    + apply length_from_nonneg.
    + cbn [Sql.length_from]. destruct (Sql.is_nul c); [lia|].
      pose proof (length_from_nonneg s true).
      pose proof (length_from_nonneg s (Sql.is_lead c)).
      destruct (in_char && Sql.is_continuation c); lia.
  - rewrite <- R in IH |- *. cbn [Sql.length_from]. destruct (Sql.is_nul c); [lia|].
    pose proof (IH true). pose proof (IH (Sql.is_lead c)).
    destruct (in_char && Sql.is_continuation c); lia.
Qed.

Lemma ltrim_fixed s : (forall t, s <> String " " t) -> Sql.ltrim s = s.
Proof.
  destruct s as [|c s]; intros H; cbn [Sql.ltrim]; [reflexivity|].
  destruct (Sql.is_space c) eqn:E; [|reflexivity].
  apply is_space_true in E. subst c. destruct (H s eq_refl).
Qed.

Lemma rtrim_cons c s :
  Sql.rtrim (String c s)
  = match Sql.rtrim s with
    | EmptyString => if Sql.is_space c then EmptyString else String c EmptyString
    | t => String c t
    end.
Proof. reflexivity. Qed.

Lemma rtrim_idempotent s : Sql.rtrim (Sql.rtrim s) = Sql.rtrim s.
Proof.
  induction s as [|c s IH]; [reflexivity|]. rewrite rtrim_cons.
  destruct (Sql.rtrim s) as [|a u] eqn:R.
  - destruct (Sql.is_space c) eqn:E; [reflexivity|].
    rewrite rtrim_cons. cbn [Sql.rtrim]. rewrite E. reflexivity.
  - rewrite rtrim_cons, IH. reflexivity.
Qed.

Lemma TRIM_facts s :
  no_outer_space (Sql.TRIM s)
  /\ Sql.TRIM (Sql.TRIM s) = Sql.TRIM s
  /\ Sql.LENGTH (Sql.TRIM s) <= Sql.LENGTH s.
Proof.
  unfold Sql.TRIM, no_outer_space. split; [split|split].
  - apply rtrim_keeps_first, ltrim_no_leading_space.
  - apply rtrim_no_trailing_space.
  - rewrite (ltrim_fixed (Sql.rtrim (Sql.ltrim s))).
    + apply rtrim_idempotent.
    + apply rtrim_keeps_first, ltrim_no_leading_space.
  - pose proof (rtrim_length (Sql.ltrim s) false). pose proof (ltrim_length s).
    unfold Sql.LENGTH in *. lia.
Qed.

End Trim.

(** X8. In a warehouse that the pipeline can produce, a
    [cleaned_message_text] that is not NULL neither starts nor ends with a
    space, is left alone by a second [TRIM], is the [TRIM] of the
    [message_text] of the same row, and is not longer than it. *)
Theorem staging_cleaned_text :
  forall (now : Z) (db : warehouse) (stg : list Stg.row) (s : Stg.row) (text : string),
    reachable now db ->
    stg_telegram_messages db = Some stg ->
    In s stg ->
    Stg.cleaned_message_text s = Some text ->
    no_outer_space text
    /\ Sql.TRIM text = text
    /\ exists original,
         Stg.message_text s = Some original
         /\ text = Sql.TRIM original
         /\ Sql.LENGTH text <= Sql.LENGTH original.
Proof.
  intros now db stg s text R Hs Hin Hc.
  destruct (reachable_staging now db R stg Hs) as (t & raw & _ & ->).
  apply in_stg_select in Hin. destruct Hin as (r & md & _ & _ & _ & ->).
  cbn in Hc |- *. destruct (Raw.message_text r) as [original|]; [|discriminate].
  cbn in Hc. injection Hc as <-.
  destruct (TRIM_facts original) as (A & B & C).
  split; [exact A|]. split; [exact B|]. exists original. auto.
Qed.

Lemma staging_cleaned_text_witness :
  let s := hd (cleaned_row 0 (RawData.mk 0 EmptyString None None jan_15 None None None
                                          0 0 None))
              (Sql.COALESCE (stg_telegram_messages scenario_B_built) []) in
  no_outer_space "hello"
  /\ Sql.TRIM "hello" = "hello"%string
  /\ exists original,
       Stg.message_text s = Some original
       /\ "hello"%string = Sql.TRIM original
       /\ Sql.LENGTH "hello" <= Sql.LENGTH original.
Proof.
  apply (staging_cleaned_text example_now scenario_B_built
           (Sql.COALESCE (stg_telegram_messages scenario_B_built) [])).
  - exact scenario_B_built_reachable.
  - vm_compute. reflexivity.
  - vm_compute. left. reflexivity.
  - vm_compute. reflexivity.
Defined.

(** ** The calendar *)

Lemma doy_bounds doe :
  0 <= doe <= 146096 ->
  let yoe := (doe - doe / 1460 + doe / 36524 - doe / 146096) / 365 in
  let doy := doe - (365 * yoe + yoe / 4 - yoe / 100) in
  0 <= yoe <= 399 /\ 0 <= doy <= 365.
Proof.
  intros H. cbv zeta.
  Z.div_mod_to_equations. lia.
Qed.
Lemma civil_month_day z :
  1 <= Calendar.month z <= 12 /\ 1 <= Calendar.day_of_month z <= 31.
Proof.
  unfold Calendar.month, Calendar.day_of_month, Calendar.civil. cbv zeta.
  cbn [fst snd].
  set (Z0 := z + 719468).
  set (era := Z0 / 146097).
  set (doe := Z0 - era * 146097).
  assert (Hdoe : 0 <= doe <= 146096) by (subst doe era; Z.div_mod_to_equations; lia).
  clearbody doe. clear era Z0.
  set (yoe := (doe - doe / 1460 + doe / 36524 - doe / 146096) / 365).
  set (doy := doe - (365 * yoe + yoe / 4 - yoe / 100)).
  assert (Hdoy : 0 <= doy <= 365) by (apply (doy_bounds doe Hdoe)).
  clearbody doy. clear yoe.
  set (mp := (5 * doy + 2) / 153).
  assert (Hmp : 0 <= mp <= 11) by (subst mp; Z.div_mod_to_equations; lia).
  split.
  - destruct (mp <? 10) eqn:E; [apply Z.ltb_lt in E | apply Z.ltb_ge in E]; lia.
  - subst mp. Z.div_mod_to_equations. lia.
Qed.

Lemma civil_round_trip z :
  Calendar.day_number (Calendar.year z) (Calendar.month z) (Calendar.day_of_month z) = z.
Proof.
  unfold Calendar.year, Calendar.month, Calendar.day_of_month, Calendar.civil. cbv zeta.
  cbn [fst snd].
  set (Z0 := z + 719468).
  set (era := Z0 / 146097).
  set (doe := Z0 - era * 146097).
  assert (Hz : z = era * 146097 + doe - 719468) by (subst doe Z0; lia).
  assert (Hdoe : 0 <= doe <= 146096) by (subst doe era; Z.div_mod_to_equations; lia).
  clearbody doe. clearbody era. clear Z0.
  set (yoe := (doe - doe / 1460 + doe / 36524 - doe / 146096) / 365).
  set (doy := doe - (365 * yoe + yoe / 4 - yoe / 100)).
  destruct (doy_bounds doe Hdoe) as [Hyoe Hdoy]. fold yoe in Hyoe, Hdoy. fold doy in Hdoy.
  assert (Hdoe' : doe = 365 * yoe + yoe / 4 - yoe / 100 + doy) by (subst doy; lia).
  clearbody doy. clearbody yoe.
  set (mp := (5 * doy + 2) / 153).
  assert (Hmp : 0 <= mp <= 11) by (subst mp; Z.div_mod_to_equations; lia).
  set (d := doy - (153 * mp + 2) / 5 + 1).
  assert (Hd : doy = (153 * mp + 2) / 5 + d - 1) by (subst d; lia).
  clearbody d. clearbody mp.
  unfold Calendar.day_number.
  destruct (mp <? 10) eqn:E; [apply Z.ltb_lt in E | apply Z.ltb_ge in E].
  - replace (mp + 3 <=? 2) with false by (symmetry; apply Z.leb_gt; lia).
    replace (2 <? mp + 3) with true by (symmetry; apply Z.ltb_lt; lia).
    replace (mp + 3 - 3) with mp by lia.
    replace ((yoe + era * 400) / 400) with era by (Z.div_mod_to_equations; lia).
    replace (yoe + era * 400 - era * 400) with yoe by lia.
    lia.
  - replace (mp - 9 <=? 2) with true by (symmetry; apply Z.leb_le; lia).
    replace (2 <? mp - 9) with false by (symmetry; apply Z.ltb_ge; lia).
    replace (mp - 9 + 9) with mp by lia.
    replace (yoe + era * 400 + 1 - 1) with (yoe + era * 400) by lia.
    replace ((yoe + era * 400) / 400) with era by (Z.div_mod_to_equations; lia).
    replace (yoe + era * 400 - era * 400) with yoe by lia.
    lia.
Qed.
Lemma yoe_tight doe :
  0 <= doe <= 146096 ->
  year_start (year_of_era doe) <= doe /\ (doe < year_start (year_of_era doe + 1) \/ year_of_era doe = 399).
Proof.
  intros H. unfold year_start, year_of_era.
  Z.div_mod_to_equations; lia.
Qed.

Lemma year_start_mono a b : a <= b -> year_start a + 365 * (b - a) <= year_start b.
Proof.
  intros H. unfold year_start. Z.div_mod_to_equations; lia.
Qed.
Lemma yoe_of_bounds doe : 0 <= doe <= 146096 -> 0 <= year_of_era doe <= 399.
Proof. intros H. unfold year_of_era. Z.div_mod_to_equations. lia. Qed.

Lemma yoe_next doe :
  0 <= doe -> doe + 1 <= 146096 ->
  year_of_era (doe + 1) = year_of_era doe
  \/ (year_of_era (doe + 1) = year_of_era doe + 1 /\ doe + 1 = year_start (year_of_era doe + 1)).
Proof.
  intros H0 H1.
  destruct (yoe_tight doe) as [A B]; [lia|].
  destruct (yoe_tight (doe + 1)) as [A' B']; [lia|].
  pose proof (yoe_of_bounds doe) as Y. pose proof (yoe_of_bounds (doe + 1)) as Y'.
  set (y := year_of_era doe) in *. set (y' := year_of_era (doe + 1)) in *.
  destruct (Z.lt_trichotomy y' y) as [L|[E|G]].
  - pose proof (year_start_mono (y' + 1) y). lia.
  - left. assumption.
  - right. destruct (Z.eq_dec y' (y + 1)) as [E|N].
    + rewrite E in *. pose proof (year_start_mono (y + 1) (y + 1)). lia.
    + pose proof (year_start_mono (y + 1) y'). lia.
Qed.

Lemma yyyymmdd_next z : Calendar.yyyymmdd z < Calendar.yyyymmdd (z + 1).
Proof.
  unfold Calendar.yyyymmdd, Calendar.year, Calendar.month, Calendar.day_of_month,
    Calendar.civil. cbv zeta. cbn [fst snd].
  replace (z + 1 + 719468) with (z + 719468 + 1) by lia.
  set (Z0 := z + 719468).
  set (era := Z0 / 146097). set (doe := Z0 - era * 146097).
  set (era' := (Z0 + 1) / 146097). set (doe' := Z0 + 1 - era' * 146097).
  assert (Hdoe : 0 <= doe <= 146096) by (subst doe era; Z.div_mod_to_equations; lia).
  assert (Hnext : (era' = era /\ doe' = doe + 1 /\ doe + 1 <= 146096)
                  \/ (era' = era + 1 /\ doe = 146096 /\ doe' = 0))
    by (subst doe doe' era era'; Z.div_mod_to_equations; lia).
  clearbody doe doe' era era'. clear Z0.
  fold (year_of_era doe). fold (year_of_era doe').
  destruct Hnext as [(-> & -> & Hle) | (-> & -> & ->)].
  - pose proof (yoe_of_bounds doe Hdoe) as Hy.
    destruct (yoe_tight doe Hdoe) as [A B].
    destruct (yoe_next doe (proj1 Hdoe) Hle) as [E | (E & E2)]; rewrite E.
    + (* same year of the era: the day of the year grows by one *)
      set (y := year_of_era doe) in *.
      assert (Hdoy : 0 <= doe - (365 * y + y / 4 - y / 100) <= 365)
        by (apply (doy_bounds doe Hdoe)).
      replace (doe + 1 - (365 * y + y / 4 - y / 100))
        with (doe - (365 * y + y / 4 - y / 100) + 1) by lia.
      set (doy := doe - (365 * y + y / 4 - y / 100)) in *.
      assert (Hdoy1 : doy + 1 <= 365).
      { pose proof (doy_bounds (doe + 1) (conj (Z.le_trans _ _ _ (proj1 Hdoe) (Z.le_succ_diag_r doe)) Hle)) as P.
        cbv zeta in P. fold (year_of_era (doe + 1)) in P. rewrite E in P. fold y in P.
        subst doy. lia. }
      clearbody doy. clearbody y.
      set (mp := (5 * doy + 2) / 153). set (mp' := (5 * (doy + 1) + 2) / 153).
      assert (Hmp : 0 <= mp <= 11) by (subst mp; Z.div_mod_to_equations; lia).
      assert (Hmp' : mp' = mp \/ mp' = mp + 1 /\ doy + 1 = (153 * mp' + 2) / 5)
        by (subst mp mp'; Z.div_mod_to_equations; lia).
      assert (Hmp'b : mp' <= 11) by (subst mp'; Z.div_mod_to_equations; lia).
      assert (Hd : 1 <= doy - (153 * mp + 2) / 5 + 1 <= 31)
        by (subst mp; Z.div_mod_to_equations; lia).
      clearbody mp mp'.
      destruct Hmp' as [-> | (-> & Hd')].
      * lia.
      * rewrite <- Hd'.
        destruct (mp <? 10) eqn:M; [apply Z.ltb_lt in M | apply Z.ltb_ge in M];
          destruct (mp + 1 <? 10) eqn:M'; [apply Z.ltb_lt in M' | apply Z.ltb_ge in M'
                                           | apply Z.ltb_lt in M' | apply Z.ltb_ge in M'];
          cbv iota;
          repeat match goal with
                 | |- context [?a <=? 2] =>
                     let H := fresh in
                     destruct (a <=? 2) eqn:H; [apply Z.leb_le in H | apply Z.leb_gt in H]
                 end; cbv iota; try lia.
    + (* the first day of the next year of the era: 1 March *)
      set (y := year_of_era doe) in *.
      assert (Hdoy : 364 <= doe - (365 * y + y / 4 - y / 100) <= 365).
      { pose proof (doy_bounds doe Hdoe) as P. cbv zeta in P. fold (year_of_era doe) in P. fold y in P.
        unfold year_start in E2. split; [|apply P].
        clear - E2. Z.div_mod_to_equations. lia. }
      unfold year_start in E2. rewrite E2.
      replace (365 * (y + 1) + (y + 1) / 4 - (y + 1) / 100
               - (365 * (y + 1) + (y + 1) / 4 - (y + 1) / 100)) with 0 by lia.
      set (doy := doe - (365 * y + y / 4 - y / 100)) in *.
      clearbody doy. change ((5 * 0 + 2) / 153) with 0.
      change (0 <? 10) with true. cbv iota. change (0 + 3 <=? 2) with false. cbv iota.
      change (0 - (153 * 0 + 2) / 5 + 1) with 1.
      set (mp := (5 * doy + 2) / 153).
      assert (Hmp : mp = 11) by (subst mp; Z.div_mod_to_equations; lia).
      rewrite Hmp. change (11 <? 10) with false. cbv iota. change (11 - 9 <=? 2) with true.
      cbv iota. change ((153 * 11 + 2) / 5) with 337. lia.
  - (* the last day of the cycle, 29 February, then 1 March *)
    vm_compute (year_of_era 146096). vm_compute (year_of_era 0).
    change (146096 - (365 * 399 + 399 / 4 - 399 / 100)) with 365.
    change (0 - (365 * 0 + 0 / 4 - 0 / 100)) with 0.
    change ((5 * 365 + 2) / 153) with 11. change ((5 * 0 + 2) / 153) with 0.
    change (11 <? 10) with false. change (0 <? 10) with true. cbv iota.
    change (11 - 9 <=? 2) with true. change (0 + 3 <=? 2) with false. cbv iota.
    change ((153 * 11 + 2) / 5) with 337. change ((153 * 0 + 2) / 5) with 0. lia.
Qed.
Lemma yyyymmdd_lt d1 d2 : d1 < d2 -> Calendar.yyyymmdd d1 < Calendar.yyyymmdd d2.
Proof.
  intros H. replace d2 with (d1 + 1 + Z.of_nat (Z.to_nat (d2 - d1 - 1))) by lia.
  induction (Z.to_nat (d2 - d1 - 1)) as [|n IH].
  - rewrite Z.add_0_r. apply yyyymmdd_next.
  - pose proof (yyyymmdd_next (d1 + 1 + Z.of_nat n)).
    replace (d1 + 1 + Z.of_nat (S n)) with (d1 + 1 + Z.of_nat n + 1) by lia. lia.
Qed.

Lemma yyyymmdd_lt_iff d1 d2 : d1 < d2 <-> Calendar.yyyymmdd d1 < Calendar.yyyymmdd d2.
Proof.
  split; [apply yyyymmdd_lt|]. intros H.
  destruct (Z.lt_trichotomy d1 d2) as [L|[E|G]]; [assumption| |].
  - subst. lia.
  - apply yyyymmdd_lt in G. lia.
Qed.

(** ** The text of the clock *)

Section TextOrder.

Lemma ascii_compare_refl c : Ascii.compare c c = Eq.
Proof. unfold Ascii.compare. apply N.compare_refl. Qed.

Lemma string_compare_cons c s s' :
  String.compare (String c s) (String c s') = String.compare s s'.
Proof. cbn [String.compare]. rewrite ascii_compare_refl. reflexivity. Qed.

Lemma string_compare_refl s : String.compare s s = Eq.
Proof. induction s as [|c s IH]; [reflexivity|]. rewrite string_compare_cons. exact IH. Qed.

(** The order of text values is transitive. *)
Lemma text_le_trans a : forall b c,
  Sql.text_le a b = true -> Sql.text_le b c = true -> Sql.text_le a c = true.
Proof.
  unfold Sql.text_le, String.leb.
  induction a as [|x a IH]; intros [|y b] [|z c]; cbn [String.compare];
    try reflexivity; try discriminate.
  unfold Ascii.compare.
  destruct (N.compare_spec (N_of_ascii x) (N_of_ascii y)) as [E1|L1|G1];
    destruct (N.compare_spec (N_of_ascii y) (N_of_ascii z)) as [E2|L2|G2];
    try discriminate; intros H1 H2.
  - rewrite E1, E2, N.compare_refl. apply (IH b c); assumption.
  - rewrite E1. apply N.compare_lt_iff in L2. rewrite L2. reflexivity.
  - rewrite <- E2. apply N.compare_lt_iff in L1. rewrite L1. reflexivity.
  - assert (L : (N_of_ascii x < N_of_ascii z)%N) by lia.
    apply N.compare_lt_iff in L. rewrite L. reflexivity.
Qed.

Lemma text_lt_le a b : Sql.text_lt a b = negb (Sql.text_le b a).
Proof.
  unfold Sql.text_lt, Sql.text_le, String.ltb, String.leb.
  rewrite (String.compare_antisym a b). destruct (String.compare b a); reflexivity.
Qed.

Lemma compare_digit a b s s' :
  0 <= a < 10 -> 0 <= b < 10 ->
  String.compare (String (Calendar.digit a) s) (String (Calendar.digit b) s')
  = match a ?= b with Eq => String.compare s s' | c => c end.
Proof.
  intros Ha Hb. cbn [String.compare]. unfold Ascii.compare, Calendar.digit.
  rewrite !N_ascii_embedding by lia.
  assert (E : ((48 + Z.to_N a) ?= (48 + Z.to_N b))%N = (a ?= b)).
  { rewrite <- N2Z.inj_compare, !N2Z.inj_add, !Z2N.id by lia.
    apply Z.add_compare_mono_l. }
  rewrite E. reflexivity.
Qed.

Lemma compare_two_digits a b s s' :
  0 <= a < 100 -> 0 <= b < 100 ->
  String.compare (Calendar.two_digits a ++ s) (Calendar.two_digits b ++ s')
  = match a ?= b with Eq => String.compare s s' | c => c end.
Proof.
  intros Ha Hb. unfold Calendar.two_digits. cbn [append].
  rewrite !compare_digit by (Z.div_mod_to_equations; lia).
  destruct (Z.compare_spec (a / 10) (b / 10)) as [E1|L1|G1];
    destruct (Z.compare_spec (a mod 10) (b mod 10)) as [E2|L2|G2];
    destruct (Z.compare_spec a b) as [E|L|G]; try reflexivity; exfalso;
    Z.div_mod_to_equations; lia.
Qed.

Lemma append_assoc (a b c : string) : ((a ++ b) ++ c = a ++ (b ++ c))%string.
Proof. induction a as [|x a IH]; cbn [append]; [reflexivity|]. rewrite IH. reflexivity. Qed.

Lemma compare_four_digits a b s s' :
  0 <= a < 10000 -> 0 <= b < 10000 ->
  String.compare (Calendar.four_digits a ++ s) (Calendar.four_digits b ++ s')
  = match a ?= b with Eq => String.compare s s' | c => c end.
Proof.
  intros Ha Hb. unfold Calendar.four_digits.
  rewrite !append_assoc.
  rewrite !compare_two_digits by (Z.div_mod_to_equations; lia).
  destruct (Z.compare_spec (a / 100) (b / 100)) as [E1|L1|G1];
    destruct (Z.compare_spec (a mod 100) (b mod 100)) as [E2|L2|G2];
    destruct (Z.compare_spec a b) as [E|L|G]; try reflexivity; exfalso;
    Z.div_mod_to_equations; lia.
Qed.

Lemma append_empty_r (a : string) : (a ++ "")%string = a.
Proof. induction a as [|x a IH]; cbn [append]; [reflexivity|]. rewrite IH. reflexivity. Qed.

(** The years that the clock can show have four digits. *)
Lemma clock_year d :
  Calendar.day_number 0 1 1 <= d <= Calendar.day_number 9999 12 31 ->
  0 <= Calendar.year d <= 9999.
Proof.
  intros (Hlo & Hhi).
  assert (L : Calendar.yyyymmdd (Calendar.day_number 0 1 1) <= Calendar.yyyymmdd d).
  { destruct (Z.eq_dec (Calendar.day_number 0 1 1) d) as [<-|N]; [lia|].
    apply Z.lt_le_incl, yyyymmdd_lt. lia. }
  assert (U : Calendar.yyyymmdd d <= Calendar.yyyymmdd (Calendar.day_number 9999 12 31)).
  { destruct (Z.eq_dec d (Calendar.day_number 9999 12 31)) as [->|N]; [lia|].
    apply Z.lt_le_incl, yyyymmdd_lt. lia. }
  change (Calendar.yyyymmdd (Calendar.day_number 0 1 1)) with 101 in L.
  change (Calendar.yyyymmdd (Calendar.day_number 9999 12 31)) with 99991231 in U.
  unfold Calendar.yyyymmdd in L, U.
  pose proof (civil_month_day d). lia.
Qed.

(** 'YYYY-MM-DD' texts of four-digit years are ordered as their days. *)
Lemma compare_date_text x y s s' :
  0 <= Calendar.year x <= 9999 -> 0 <= Calendar.year y <= 9999 ->
  String.compare (Calendar.date_text x ++ s) (Calendar.date_text y ++ s')
  = match x ?= y with Eq => String.compare s s' | c => c end.
Proof.
  intros Hx Hy. unfold Calendar.date_text.
  pose proof (civil_month_day x) as Bx. pose proof (civil_month_day y) as By.
  rewrite !append_assoc. rewrite compare_four_digits by lia.
  cbn [append]. rewrite string_compare_cons.
  rewrite compare_two_digits by lia.
  cbn [append]. rewrite string_compare_cons.
  rewrite compare_two_digits by lia.
  pose proof (yyyymmdd_lt x y) as Lxy. pose proof (yyyymmdd_lt y x) as Lyx.
  unfold Calendar.yyyymmdd in Lxy, Lyx.
  destruct (Z.compare_spec x y) as [E|L|G].
  - subst y. rewrite !Z.compare_refl. reflexivity.
  - specialize (Lxy L).
    destruct (Z.compare_spec (Calendar.year x) (Calendar.year y)) as [E1|L1|G1];
      [|reflexivity|exfalso; lia].
    destruct (Z.compare_spec (Calendar.month x) (Calendar.month y)) as [E2|L2|G2];
      [|reflexivity|exfalso; lia].
    destruct (Z.compare_spec (Calendar.day_of_month x) (Calendar.day_of_month y))
      as [E3|L3|G3]; [exfalso; lia|reflexivity|exfalso; lia].
  - specialize (Lyx G).
    destruct (Z.compare_spec (Calendar.year x) (Calendar.year y)) as [E1|L1|G1];
      [|exfalso; lia|reflexivity].
    destruct (Z.compare_spec (Calendar.month x) (Calendar.month y)) as [E2|L2|G2];
      [|exfalso; lia|reflexivity].
    destruct (Z.compare_spec (Calendar.day_of_month x) (Calendar.day_of_month y))
      as [E3|L3|G3]; [exfalso; lia|exfalso; lia|reflexivity].
Qed.

(** 'HH:MM:SS' texts are ordered as their seconds of the day. *)
Lemma compare_time_text a b :
  0 <= a < 86400 -> 0 <= b < 86400 ->
  String.compare (Calendar.time_text a) (Calendar.time_text b) = (a ?= b).
Proof.
  intros Ha Hb. unfold Calendar.time_text.
  rewrite <- (append_empty_r (Calendar.two_digits (a mod 60))).
  rewrite <- (append_empty_r (Calendar.two_digits (b mod 60))).
  rewrite compare_two_digits by (Z.div_mod_to_equations; lia).
  cbn [append]. rewrite string_compare_cons.
  rewrite compare_two_digits by (Z.div_mod_to_equations; lia).
  cbn [append]. rewrite string_compare_cons.
  rewrite compare_two_digits by (Z.div_mod_to_equations; lia).
  cbn [String.compare].
  destruct (Z.compare_spec (a / 3600) (b / 3600)) as [E1|L1|G1];
    destruct (Z.compare_spec (a / 60 mod 60) (b / 60 mod 60)) as [E2|L2|G2];
    destruct (Z.compare_spec (a mod 60) (b mod 60)) as [E3|L3|G3];
    destruct (Z.compare_spec a b) as [E|L|G]; try reflexivity; exfalso;
    Z.div_mod_to_equations; lia.
Qed.

Lemma clock_bounds now :
  Calendar.first_second <= Calendar.clock now <= Calendar.last_second.
Proof.
  unfold Calendar.clock.
  assert (Calendar.first_second <= Calendar.last_second) by (vm_compute; discriminate).
  lia.
Qed.

Lemma clock_day now :
  Calendar.day_number 0 1 1 <= Calendar.utc_day (Calendar.clock now)
  <= Calendar.day_number 9999 12 31.
Proof.
  pose proof (clock_bounds now) as B. unfold Calendar.utc_day.
  unfold Calendar.first_second, Calendar.last_second, Calendar.seconds_per_day in *.
  set (lo := Calendar.day_number 0 1 1) in *.
  set (hi := Calendar.day_number 9999 12 31) in *.
  clearbody lo hi. Z.div_mod_to_equations. lia.
Qed.

(** The text of [CURRENT_TIMESTAMP] is ordered as the clock. *)
Lemma compare_CURRENT_TIMESTAMP a b :
  String.compare (Calendar.CURRENT_TIMESTAMP a) (Calendar.CURRENT_TIMESTAMP b)
  = (Calendar.clock a ?= Calendar.clock b).
Proof.
  unfold Calendar.CURRENT_TIMESTAMP. cbv zeta.
  rewrite compare_date_text by (apply clock_year, clock_day).
  cbn [append]. rewrite string_compare_cons.
  unfold Calendar.utc_day, Calendar.seconds_per_day.
  rewrite compare_time_text by (apply Z.mod_pos_bound; lia).
  set (x := Calendar.clock a). set (y := Calendar.clock b). clearbody x y.
  destruct (Z.compare_spec (x / 86400) (y / 86400)) as [E1|L1|G1];
    destruct (Z.compare_spec (x mod 86400) (y mod 86400)) as [E2|L2|G2];
    destruct (Z.compare_spec x y) as [E|L|G]; try reflexivity; exfalso;
    Z.div_mod_to_equations; lia.
Qed.

Lemma CURRENT_TIMESTAMP_mono a b :
  a <= b ->
  Sql.text_le (Calendar.CURRENT_TIMESTAMP a) (Calendar.CURRENT_TIMESTAMP b) = true.
Proof.
  intros H. unfold Sql.text_le, String.leb. rewrite compare_CURRENT_TIMESTAMP.
  destruct (Z.compare_spec (Calendar.clock a) (Calendar.clock b)) as [E|L|G];
    try reflexivity.
  exfalso. unfold Calendar.clock in G. lia.
Qed.

(** What is not after the clock stays so as the clock goes on. *)
Lemma after_clock_later now now' md :
  now <= now' -> after_clock now md = false -> after_clock now' md = false.
Proof.
  unfold after_clock. rewrite !text_lt_le. intros H E.
  apply negb_false_iff in E. apply negb_false_iff.
  apply (text_le_trans _ (Calendar.CURRENT_TIMESTAMP now)); [exact E|].
  apply CURRENT_TIMESTAMP_mono. exact H.
Qed.

End TextOrder.

(** On later runs the staging table is kept as it is, and no row of it is
    after the clock. *)
Lemma staging_never_ahead_of_clock now db stg s :
  reachable now db ->
  stg_telegram_messages db = Some stg ->
  In s stg ->
  after_clock now (Stg.message_date s) = false /\ Stg.is_future_date s = false.
Proof.
  intros R Hs Hin. destruct (reachable_staging now db R stg Hs) as (t & raw & Ht & ->).
  apply stg_select_not_future in Hin. destruct Hin as (A & F). split; [|exact F].
  apply (after_clock_later t now); assumption.
Qed.

(** *** Records that the scraper wrote *)

Lemma day_in_range i :
  Calendar.first_second <= i <= Calendar.last_second ->
  Calendar.day_number 0 1 1 <= Calendar.utc_day i <= Calendar.day_number 9999 12 31.
Proof.
  intros B. unfold Calendar.utc_day.
  unfold Calendar.first_second, Calendar.last_second, Calendar.seconds_per_day in *.
  set (lo := Calendar.day_number 0 1 1) in *.
  set (hi := Calendar.day_number 9999 12 31) in *.
  clearbody lo hi. Z.div_mod_to_equations. lia.
Qed.

Lemma after_clock_scraped now instant :
  Calendar.first_second <= instant <= Calendar.last_second ->
  after_clock now (scraped instant)
  = (Calendar.utc_day (Calendar.clock now) <=? Calendar.utc_day instant).
Proof.
  intros B. unfold after_clock, scraped, isoformat, Calendar.CURRENT_TIMESTAMP.
  cbn [Timestamp.text]. cbv zeta. unfold Sql.text_lt, String.ltb.
  rewrite compare_date_text
    by (apply clock_year; first [apply clock_day | apply day_in_range; exact B]).
  destruct (Z.compare_spec (Calendar.utc_day (Calendar.clock now))
                           (Calendar.utc_day instant)) as [E|L|G].
  - rewrite E, Z.leb_refl. reflexivity.
  - symmetry. apply Z.leb_le. lia.
  - symmetry. apply Z.leb_gt. lia.
Qed.

(** X28. Records as the scraper writes them, 'YYYY-MM-DDTHH:MM:SS+00:00'.
    The staging SELECT takes such a record for a future one exactly when its
    UTC day is the day of the run or a later day: a record that is after
    the clock is always dropped, and so is every record of the day of the
    run, also one that is before the clock. In a warehouse that the
    pipeline can produce, a staging row that holds such a date is of a day
    before the day of the clock, and so it is before the clock. *)
Theorem staging_of_scraped_records :
  forall (now instant : Z),
    Calendar.first_second <= instant <= Calendar.last_second ->
    after_clock now (scraped instant)
    = (Calendar.utc_day (Calendar.clock now) <=? Calendar.utc_day instant)
    /\ (Calendar.clock now <= instant -> after_clock now (scraped instant) = true)
    /\ (forall (db : warehouse) (stg : list Stg.row) (s : Stg.row),
          reachable now db ->
          stg_telegram_messages db = Some stg ->
          In s stg ->
          Stg.message_date s = scraped instant ->
          Calendar.utc_day instant < Calendar.utc_day (Calendar.clock now)
          /\ instant < Calendar.clock now).
Proof.
  intros now instant B. pose proof (after_clock_scraped now instant B) as E.
  split; [exact E|]. split.
  - intros L. rewrite E. apply Z.leb_le. unfold Calendar.utc_day.
    apply Z.div_le_mono; [reflexivity | exact L].
  - intros db stg s R Hs Hin Hd.
    destruct (staging_never_ahead_of_clock now db stg s R Hs Hin) as (A & _).
    rewrite Hd, E in A. apply Z.leb_gt in A. split; [exact A|].
    unfold Calendar.utc_day, Calendar.seconds_per_day in A.
    destruct (Z_lt_le_dec instant (Calendar.clock now)) as [L|G]; [exact L|].
    exfalso. apply (Z.div_le_mono _ _ 86400) in G; lia.
Qed.

Lemma staging_of_scraped_records_witness :
  after_clock example_now (scraped 1705536000)
  = (Calendar.utc_day (Calendar.clock example_now) <=? Calendar.utc_day 1705536000)
  /\ (Calendar.clock example_now <= 1705536000 ->
      after_clock example_now (scraped 1705536000) = true)
  /\ (forall (db : warehouse) (stg : list Stg.row) (s : Stg.row),
        reachable example_now db ->
        stg_telegram_messages db = Some stg ->
        In s stg ->
        Stg.message_date s = scraped 1705536000 ->
        Calendar.utc_day 1705536000 < Calendar.utc_day (Calendar.clock example_now)
        /\ 1705536000 < Calendar.clock example_now).
Proof.
  apply (staging_of_scraped_records example_now 1705536000).
  split; vm_compute; discriminate.
Defined.

(** The record of five seconds before the run time of the examples is
    written as '2024-01-18T00:00:00+00:00', and is taken for a future
    one. *)
Lemma scraped_same_day_record :
  isoformat 1705536000 = "2024-01-18T00:00:00+00:00"%string
  /\ Msg.message_date same_day_record = Value (scraped 1705536000)
  /\ after_clock example_now (scraped 1705536000) = true.
Proof. vm_compute. repeat split; reflexivity. Qed.

(** Days before a year, counted as [Calendar.day_number] does. *)
Lemma day_number_year_length y :
  365 <= Calendar.day_number (y + 1) 1 1 - Calendar.day_number y 1 1 <= 366.
Proof.
  unfold Calendar.day_number. change (1 <=? 2) with true. change (2 <? 1) with false.
  cbv iota. replace (y + 1 - 1) with y by lia.
  Z.div_mod_to_equations; lia.
Qed.

Lemma day_of_year_bounds z : 0 <= Calendar.day_of_year z <= 365.
Proof.
  unfold Calendar.day_of_year.
  pose proof (civil_round_trip z) as RT. pose proof (civil_month_day z) as (Hm & Hd).
  set (y := Calendar.year z) in *. set (m := Calendar.month z) in *.
  set (d := Calendar.day_of_month z) in *. clearbody y m d.
  rewrite <- RT at 1 2. clear RT.
  pose proof (day_number_year_length (y - 1)) as L. replace (y - 1 + 1) with y in L by lia.
  revert L. unfold Calendar.day_number.
  change (1 <=? 2) with true. change (2 <? 1) with false. cbv iota.
  destruct (m <=? 2) eqn:M; [apply Z.leb_le in M | apply Z.leb_gt in M].
  - replace (2 <? m) with false by (symmetry; apply Z.ltb_ge; lia). intros _.
    Z.div_mod_to_equations; lia.
  - replace (2 <? m) with true by (symmetry; apply Z.ltb_lt; lia).
    replace (y - 1 - 1) with (y - 2) by lia. intros L.
    Z.div_mod_to_equations; lia.
Qed.

(** ** DateDimensionBuilder: rows and coverage *)

Lemma month_name_of_some m : 1 <= m <= 12 -> month_name_of m <> None.
Proof.
  intros H.
  assert (C : m = 1 \/ m = 2 \/ m = 3 \/ m = 4 \/ m = 5 \/ m = 6 \/ m = 7 \/ m = 8
              \/ m = 9 \/ m = 10 \/ m = 11 \/ m = 12) by lia.
  repeat (destruct C as [->|C]; [discriminate|]). subst. discriminate.
Qed.

Lemma day_name_of_some w : 0 <= w <= 6 -> day_name_of w <> None.
Proof.
  intros H.
  assert (C : w = 0 \/ w = 1 \/ w = 2 \/ w = 3 \/ w = 4 \/ w = 5 \/ w = 6) by lia.
  repeat (destruct C as [->|C]; [discriminate|]). subst. discriminate.
Qed.

(** X9. Every row that the date dimension can hold is a calendar date:
    its year, month and day of month are those of [full_date] (they give the
    same day back), the month is in 1..12, the quarter in 1..4, the day of
    the month in 1..31, the day of the week in 0..6, the week of the year in
    1..54, and month name and day name are not NULL. *)
Theorem date_row_well_formed :
  forall date : Z,
    let r := date_row date in
    DimDate.full_date r = date
    /\ Calendar.day_number (DimDate.year r) (DimDate.month r) (DimDate.day_of_month r)
       = date
    /\ 1 <= DimDate.month r <= 12
    /\ 1 <= DimDate.quarter r <= 4
    /\ 1 <= DimDate.day_of_month r <= 31
    /\ 0 <= DimDate.day_of_week r <= 6
    /\ 1 <= DimDate.week_of_year r <= 54
    /\ DimDate.month_name r <> None
    /\ DimDate.day_name r <> None.
Proof.
  intros date. cbv zeta. unfold date_row.
  cbn [DimDate.full_date DimDate.year DimDate.month DimDate.quarter
       DimDate.day_of_month DimDate.day_of_week DimDate.week_of_year
       DimDate.month_name DimDate.day_name].
  pose proof (civil_month_day date) as (Hm & Hd).
  pose proof (day_of_year_bounds date) as Hy.
  assert (Hw : 0 <= Calendar.day_of_week date <= 6)
    by (unfold Calendar.day_of_week; Z.div_mod_to_equations; lia).
  split; [reflexivity|]. split; [apply civil_round_trip|]. split; [exact Hm|].
  split; [Z.div_mod_to_equations; lia|]. split; [exact Hd|]. split; [exact Hw|].
  split; [unfold Calendar.week_W; Z.div_mod_to_equations; lia|].
  split; [apply month_name_of_some; exact Hm | apply day_name_of_some; exact Hw].
Qed.

(** X10. The [date_key] YYYYMMDD orders the rows of the date dimension
    as their dates do: an earlier day has a smaller key, and two days with
    the same key are the same day. *)
Theorem date_key_follows_date :
  forall d1 d2 : Z,
    (d1 < d2 <-> DimDate.date_key (date_row d1) < DimDate.date_key (date_row d2))
    /\ (DimDate.date_key (date_row d1) = DimDate.date_key (date_row d2) -> d1 = d2).
Proof.
  intros d1 d2. unfold date_row. cbn [DimDate.date_key].
  split; [apply yyyymmdd_lt_iff|]. intros E.
  destruct (Z.lt_trichotomy d1 d2) as [L|[E'|G]]; [|assumption|].
  - apply yyyymmdd_lt in L. lia.
  - apply yyyymmdd_lt in G. lia.
Qed.

Lemma in_dim_dates_select today stg r :
  In r (dim_dates_select today stg) ->
  r = date_row (DimDate.full_date r).
Proof.
  unfold dim_dates_select. destruct (date_window today (stg_date_bounds stg)) as [lo hi].
  intros H. apply in_map_iff in H. destruct H as (d & <- & _). reflexivity.
Qed.

Lemma date_range_NoDup lo hi : NoDup (date_range lo hi).
Proof.
  unfold date_range. generalize (Z.to_nat (hi - lo)) as n. intros n. revert lo.
  induction n as [|n IH]; intros lo; cbn [date_range_from].
  - constructor; [intros []|constructor].
  - constructor; [|apply IH]. rewrite in_date_range_from. lia.
Qed.


Lemma yyyymmdd_NoDup l : NoDup l -> NoDup (map Calendar.yyyymmdd l).
Proof.
  induction 1 as [|x l Hx N IH]; cbn [map]; constructor; [|exact IH].
  intros Hk. apply in_map_iff in Hk. destruct Hk as (y & E & Hy). apply Hx.
  destruct (Z.lt_trichotomy x y) as [L|[E'|G]]; [|congruence|].
  - apply yyyymmdd_lt in L. lia.
  - apply yyyymmdd_lt in G. lia.
Qed.



(** ** ChannelDimensionBuilder: groups, keys and counts *)

Lemma in_group_iff c s : in_group c s = true <-> stats_triple c = stg_triple s.
Proof.
  unfold in_group, stats_triple, stg_triple. split.
  - intros H. apply andb_true_iff in H. destruct H as [H Ht].
    apply andb_true_iff in H. destruct H as [Hn Hu].
    apply String.eqb_eq in Hn. apply option_string_eqb_eq in Hu, Ht. congruence.
  - intros E. injection E as -> -> ->.
    rewrite String.eqb_refl, !option_string_eqb_refl. reflexivity.
Qed.

Lemma in_group_same_triple c c' s :
  stats_triple c = stats_triple c' -> in_group c s = in_group c' s.
Proof. unfold in_group, stats_triple. intros E. injection E as -> -> ->. reflexivity. Qed.

Lemma stats_step_triple c s : stats_triple (stats_step c s) = stats_triple c.
Proof. reflexivity. Qed.

Lemma stats_first_triple s : stats_triple (stats_first s) = stg_triple s.
Proof. reflexivity. Qed.

(** [aggregate] either updates the first group of the row, or, when there
    is none, adds a group at the end. *)
Lemma aggregate_cases groups s :
  (exists pre c post,
     groups = pre ++ c :: post
     /\ (forall x, In x pre -> in_group x s = false)
     /\ in_group c s = true
     /\ aggregate groups s = pre ++ stats_step c s :: post)
  \/ ((forall x, In x groups -> in_group x s = false)
      /\ aggregate groups s = groups ++ [stats_first s]).
Proof.
  induction groups as [|g rest IH]; cbn [aggregate].
  - right. split; [intros x []|reflexivity].
  - destruct (in_group g s) eqn:E.
    + left. exists [], g, rest. cbn. repeat split; auto. intros x [].
    + destruct IH as [(pre & c & post & -> & Hp & Hc & Ha) | (Hn & Ha)].
      * left. exists (g :: pre), c, post. rewrite Ha. cbn. repeat split; auto.
        intros x [<-|Hx]; auto.
      * right. rewrite Ha. split; [|reflexivity]. intros x [<-|Hx]; auto.
Qed.

Lemma count_where_app {A : Type} (p : A -> bool) l1 l2 :
  count_where p (l1 ++ l2) = count_where p l1 + count_where p l2.
Proof. unfold count_where. rewrite filter_app, length_app. lia. Qed.

Lemma count_where_one {A : Type} (p : A -> bool) a :
  count_where p [a] = flag (p a).
Proof. unfold count_where. cbn. destruct (p a); reflexivity. Qed.

Lemma count_where_none {A : Type} (p : A -> bool) l :
  (forall a, In a l -> p a = false) -> count_where p l = 0.
Proof.
  unfold count_where. induction l as [|a l IH]; intros H; [reflexivity|].
  cbn [filter]. rewrite (H a (or_introl eq_refl)). apply IH. intros x Hx. apply H. right. exact Hx.
Qed.

Lemma count_where_ext {A : Type} (p q : A -> bool) l :
  (forall a, In a l -> p a = q a) -> count_where p l = count_where q l.
Proof.
  unfold count_where. induction l as [|a l IH]; intros H; [reflexivity|].
  cbn [filter]. rewrite (H a (or_introl eq_refl)).
  assert (E : Z.of_nat (List.length (filter p l)) = Z.of_nat (List.length (filter q l)))
    by (apply IH; intros x Hx; apply H; right; exact Hx).
  destruct (q a); cbn [List.length]; lia.
Qed.

Lemma in_mid {A : Type} (pre : list A) (c : A) (post : list A) (x : A) :
  In x (pre ++ c :: post) <-> In x pre \/ x = c \/ In x post.
Proof. rewrite in_app_iff. cbn. intuition congruence. Qed.

Section Counting.

(** A column [f] of [channel_stats] that counts the rows of the group that
    satisfy [q]. *)
Variable f : ChannelStats.row -> Z.
Variable q : Stg.row -> bool.
Hypothesis f_first : forall s, f (stats_first s) = flag (q s).
Hypothesis f_step : forall c s, f (stats_step c s) = f c + flag (q s).

Lemma grouped_nil : grouped f q [] [].
Proof.
  repeat split; try constructor; intros ? [].
Qed.

Lemma grouped_step groups done s :
  grouped f q groups done -> grouped f q (aggregate groups s) (done ++ [s]).
Proof.
  intros (Hnd & Hcov & Hwit & Hcnt).
  destruct (aggregate_cases groups s)
    as [(pre & c & post & -> & Hpre & Hc & ->) | (Hno & ->)].
  - (* the row joins the group [c] *)
    assert (Hother : forall x, In x pre \/ In x post -> in_group x s = false).
    { intros x [Hx|Hx]; [auto|].
      destruct (in_group x s) eqn:E; [|reflexivity]. exfalso.
      apply in_group_iff in E, Hc. rewrite map_app in Hnd. cbn [map] in Hnd.
      apply NoDup_remove_2 in Hnd. apply Hnd. apply in_or_app. right.
      apply in_map_iff. exists x. split; [congruence|assumption]. }
    split; [|split; [|split]].
    + rewrite map_app in *. cbn [map] in *. rewrite stats_step_triple. exact Hnd.
    + intros s' Hs'. apply in_app_or in Hs'. destruct Hs' as [Hs'|[<-|[]]].
      * destruct (Hcov s' Hs') as (x & Hx & Hg). apply in_mid in Hx.
        destruct Hx as [Hx|[->|Hx]].
        -- exists x. split; [apply in_mid; left; exact Hx | exact Hg].
        -- exists (stats_step c s). split; [apply in_mid; right; left; reflexivity|].
           exact Hg.
        -- exists x. split; [apply in_mid; right; right; exact Hx | exact Hg].
      * exists (stats_step c s). split; [apply in_mid; right; left; reflexivity|].
        exact Hc.
    + intros x Hx. apply in_mid in Hx. destruct Hx as [Hx|[->|Hx]].
      * destruct (Hwit x) as (s' & Hs' & Hg); [apply in_mid; left; exact Hx|].
        exists s'. split; [apply in_or_app; left; exact Hs' | exact Hg].
      * exists s. split; [apply in_or_app; right; left; reflexivity | exact Hc].
      * destruct (Hwit x) as (s' & Hs' & Hg); [apply in_mid; right; right; exact Hx|].
        exists s'. split; [apply in_or_app; left; exact Hs' | exact Hg].
    + intros x Hx. rewrite count_where_app, count_where_one.
      apply in_mid in Hx. destruct Hx as [Hx|[->|Hx]].
      * rewrite (Hcnt x) by (apply in_mid; left; exact Hx).
        rewrite (Hother x (or_introl Hx)). cbn. lia.
      * rewrite f_step, (Hcnt c) by (apply in_mid; right; left; reflexivity).
        change (in_group (stats_step c s) s) with (in_group c s). rewrite Hc. cbn [andb].
        f_equal.
      * rewrite (Hcnt x) by (apply in_mid; right; right; exact Hx).
        rewrite (Hother x (or_intror Hx)). cbn. lia.
  - (* the row opens a group *)
    assert (Hfresh : forall s', In s' done -> in_group (stats_first s) s' = false).
    { intros s' Hs'. destruct (in_group (stats_first s) s') eqn:E; [|reflexivity]. exfalso.
      destruct (Hcov s' Hs') as (x & Hx & Hg).
      assert (in_group x s = true); [|rewrite (Hno x Hx) in *; discriminate].
      apply in_group_iff. apply in_group_iff in E, Hg.
      rewrite stats_first_triple in E. congruence. }
    split; [|split; [|split]].
    + rewrite map_app. cbn [map]. apply NoDup_app; [exact Hnd | repeat constructor; intros [] |].
      intros t Ht [<-|[]]. apply in_map_iff in Ht. destruct Ht as (x & E & Hx).
      assert (in_group x s = true); [|rewrite (Hno x Hx) in *; discriminate].
      apply in_group_iff. rewrite E. apply stats_first_triple.
    + intros s' Hs'. apply in_app_or in Hs'. destruct Hs' as [Hs'|[<-|[]]].
      * destruct (Hcov s' Hs') as (x & Hx & Hg). exists x. split; [apply in_or_app; left|]; auto.
      * exists (stats_first s). split; [apply in_or_app; right; left; reflexivity|].
        apply in_group_first.
    + intros x Hx. apply in_app_or in Hx. destruct Hx as [Hx|[<-|[]]].
      * destruct (Hwit x Hx) as (s' & Hs' & Hg).
        exists s'. split; [apply in_or_app; left; exact Hs' | exact Hg].
      * exists s. split; [apply in_or_app; right; left; reflexivity | apply in_group_first].
    + intros x Hx. rewrite count_where_app, count_where_one.
      apply in_app_or in Hx. destruct Hx as [Hx|[<-|[]]].
      * rewrite (Hcnt x Hx), (Hno x Hx). cbn. lia.
      * rewrite f_first, in_group_first. cbn [andb].
        rewrite (count_where_none _ done); [lia|].
        intros s' Hs'. rewrite (Hfresh s' Hs'). reflexivity.
Qed.

Lemma grouped_fold rows : forall groups done,
  grouped f q groups done -> grouped f q (fold_left aggregate rows groups) (done ++ rows).
Proof.
  induction rows as [|s rows IH]; intros groups done H; cbn [fold_left].
  - rewrite app_nil_r. exact H.
  - replace (done ++ s :: rows) with ((done ++ [s]) ++ rows)
      by (rewrite <- app_assoc; reflexivity).
    apply IH, grouped_step, H.
Qed.

Lemma channel_stats_grouped stg : grouped f q (channel_stats stg) (filter is_valid stg).
Proof.
  assert (G : grouped f q (channel_groups stg) (filter is_valid stg)).
  { unfold channel_groups. apply (grouped_fold (filter is_valid stg) [] []), grouped_nil. }
  destruct G as (Hnd & Hcov & Hwit & Hcnt).
  pose proof (order_by_group_columns_permutation (channel_groups stg)) as Pm.
  split; [|split; [|split]].
  - apply (Permutation_NoDup (l := map stats_triple (channel_groups stg))); [|exact Hnd].
    apply Permutation_map. symmetry. exact Pm.
  - intros s Hs. destruct (Hcov s Hs) as (c & Hc & Hg). exists c.
    split; [apply in_channel_stats; exact Hc | exact Hg].
  - intros c Hc. apply Hwit, in_channel_stats, Hc.
  - intros c Hc. apply Hcnt, in_channel_stats, Hc.
Qed.

End Counting.

(** *** From [channel_stats] to [dim_channels] *)

Lemma insert_desc_map_NoDup {B : Type} (g : ChannelStats.row -> B) c sorted :
  NoDup (map g (c :: sorted)) -> NoDup (map g (insert_desc c sorted)).
Proof.
  induction sorted as [|d rest IH]; cbn [insert_desc]; intros H; [exact H|].
  destruct (ChannelStats.total_posts d <=? ChannelStats.total_posts c); [exact H|].
  cbn [map] in *. inversion H as [|x xs Hc Hr]; subst.
  inversion Hr as [|x xs Hd Hrest]; subst.
  constructor.
  - intros Hin. apply in_map_iff in Hin. destruct Hin as (y & E & Hy).
    apply in_insert_desc in Hy. destruct Hy as [->|Hy].
    + apply Hc. left. symmetry. exact E.
    + apply Hd. apply in_map_iff. eauto.
  - apply IH. constructor; [|exact Hrest]. intros Hin. apply Hc. right. exact Hin.
Qed.

Lemma order_by_map_NoDup {B : Type} (g : ChannelStats.row -> B) l :
  NoDup (map g l) -> NoDup (map g (order_by_total_posts_desc l)).
Proof.
  induction l as [|c l IH]; cbn [order_by_total_posts_desc fold_right]; intros H; [exact H|].
  fold (order_by_total_posts_desc l). apply insert_desc_map_NoDup. cbn [map] in *.
  inversion H as [|x xs Hc Hr]; subst. constructor.
  - intros Hin. apply Hc. apply in_map_iff in Hin. destruct Hin as (y & E & Hy).
    apply (proj1 (in_order_by y l)) in Hy. apply in_map_iff. exists y. split; assumption.
  - apply IH. exact Hr.
Qed.

Lemma insert_desc_descending c sorted :
  descending (map ChannelStats.total_posts sorted) ->
  descending (map ChannelStats.total_posts (insert_desc c sorted)).
Proof.
  induction sorted as [|d rest IH]; cbn [insert_desc]; intros H.
  - cbn. split; [intros y []|exact I].
  - destruct (ChannelStats.total_posts d <=? ChannelStats.total_posts c) eqn:E.
    + apply Z.leb_le in E. cbn [map descending] in *. destruct H as [Hd Hr].
      split; [|split; assumption]. intros y [<-|Hy]; [exact E|].
      specialize (Hd y Hy). lia.
    + apply Z.leb_gt in E. cbn [map descending] in *. destruct H as [Hd Hr].
      split; [|apply IH; exact Hr]. intros y Hy. apply in_map_iff in Hy.
      destruct Hy as (x & <- & Hx). apply in_insert_desc in Hx. destruct Hx as [->|Hx].
      * lia.
      * apply Hd. apply in_map_iff. eauto.
Qed.

Lemma order_by_descending l :
  descending (map ChannelStats.total_posts (order_by_total_posts_desc l)).
Proof.
  induction l as [|c l IH]; cbn [order_by_total_posts_desc fold_right]; [exact I|].
  apply insert_desc_descending. exact IH.
Qed.

Lemma insert_desc_sum c sorted :
  sum_Z (map ChannelStats.total_posts (insert_desc c sorted))
  = ChannelStats.total_posts c + sum_Z (map ChannelStats.total_posts sorted).
Proof.
  induction sorted as [|d rest IH]; cbn [insert_desc]; [reflexivity|].
  destruct (ChannelStats.total_posts d <=? ChannelStats.total_posts c); [reflexivity|].
  cbn [map sum_Z fold_right] in *. fold (sum_Z (map ChannelStats.total_posts (insert_desc c rest))).
  rewrite IH. unfold sum_Z. lia.
Qed.

Lemma order_by_sum l :
  sum_Z (map ChannelStats.total_posts (order_by_total_posts_desc l))
  = sum_Z (map ChannelStats.total_posts l).
Proof.
  induction l as [|c l IH]; cbn [order_by_total_posts_desc fold_right]; [reflexivity|].
  fold (order_by_total_posts_desc l). rewrite insert_desc_sum, IH. reflexivity.
Qed.

Lemma row_number_keys now l : forall k,
  map DimChannel.channel_key (row_number now k l)
  = map (fun i => k + Z.of_nat i) (seq 0 (List.length l)).
Proof.
  induction l as [|c l IH]; intros k; cbn [row_number map List.length seq]; [reflexivity|].
  rewrite IH, <- seq_shift, map_map. f_equal; [cbn; lia|].
  apply map_ext. intros i. lia.
Qed.

Lemma row_number_length now l : forall k,
  List.length (row_number now k l) = List.length l.
Proof. induction l as [|c l IH]; intros k; cbn; [reflexivity|]. rewrite IH. reflexivity. Qed.

Lemma row_number_totals now l : forall k,
  map DimChannel.total_posts (row_number now k l) = map ChannelStats.total_posts l.
Proof. induction l as [|c l IH]; intros k; cbn; [reflexivity|]. rewrite IH. reflexivity. Qed.

Lemma row_number_triples now l : forall k,
  map dim_triple (row_number now k l) = map stats_triple l.
Proof. induction l as [|c l IH]; intros k; cbn; [reflexivity|]. rewrite IH. reflexivity. Qed.

Lemma row_number_key_lower now l : forall k r,
  In r (row_number now k l) -> k <= DimChannel.channel_key r.
Proof.
  induction l as [|c l IH]; intros k r H; cbn [row_number] in H; [destruct H|].
  destruct H as [<-|H]; [cbn; lia|]. specialize (IH _ _ H). lia.
Qed.

Lemma row_number_order now l : forall k a b,
  descending (map ChannelStats.total_posts l) ->
  In a (row_number now k l) -> In b (row_number now k l) ->
  DimChannel.channel_key a < DimChannel.channel_key b ->
  DimChannel.total_posts b <= DimChannel.total_posts a.
Proof.
  induction l as [|c l IH]; intros k a b D Ha Hb Hk; [destruct Ha|].
  cbn [map descending] in D. destruct D as [Dh Dr]. cbn [row_number] in Ha, Hb.
  destruct Ha as [<-|Ha]; destruct Hb as [<-|Hb].
  - cbn in Hk. lia.
  - cbn [DimChannel.total_posts channel_row]. apply Dh.
    rewrite <- (row_number_totals now l (k + 1)). apply in_map. exact Hb.
  - apply row_number_key_lower in Ha. cbn in Hk. lia.
  - exact (IH (k + 1) a b Dr Ha Hb Hk).
Qed.

(** X12. In a warehouse that the pipeline can produce, the
    [channel_key]s of [dim_channels] are 1, 2, ..., n in table order, and a
    channel with a smaller key never has fewer posts than one with a larger
    key. *)
Theorem channel_keys_dense_and_ranked :
  forall (now : Z) (db : warehouse) (dc : list DimChannel.row),
    reachable now db ->
    dim_channels db = Some dc ->
    map DimChannel.channel_key dc = map Z.of_nat (seq 1 (List.length dc))
    /\ forall a b, In a dc -> In b dc ->
         DimChannel.channel_key a < DimChannel.channel_key b ->
         DimChannel.total_posts b <= DimChannel.total_posts a.
Proof.
  intros now db dc R Hd.
  destruct (reachable_dim_channels now db R dc Hd) as (t & stg & _ & ->).
  unfold dim_channels_select. split.
  - rewrite row_number_keys, row_number_length, <- seq_shift, map_map.
    apply map_ext. intros i. lia.
  - intros a b. apply row_number_order, order_by_descending.
Qed.

Lemma channel_keys_dense_and_ranked_witness :
  let dc := Sql.COALESCE (dim_channels retitled_built) [] in
  map DimChannel.channel_key dc = map Z.of_nat (seq 1 (List.length dc))
  /\ forall a b, In a dc -> In b dc ->
       DimChannel.channel_key a < DimChannel.channel_key b ->
       DimChannel.total_posts b <= DimChannel.total_posts a.
Proof.
  apply (channel_keys_dense_and_ranked example_now retitled_built).
  - apply (reach_schema example_now example_today
             (fst (load_raw_data example_now empty_warehouse retitled_files))).
    + apply reach_load, reach_empty.
    + vm_compute. reflexivity.
  - vm_compute. reflexivity.
Defined.

Lemma channel_rows_cover :
  forall (now : Z) (db : warehouse) (stg : list Stg.row) (dc : list DimChannel.row),
    reachable now db ->
    stg_telegram_messages db = Some stg ->
    dim_channels db = Some dc ->
    NoDup (map dim_triple dc)
    /\ forall s, In s stg -> Stg.data_quality_status s = valid ->
         exists c, In c dc /\ dim_triple c = stg_triple s.
Proof.
  intros now db stg dc R Hs Hd.
  destruct (reachable_dim_channels now db R dc Hd) as (t & stg' & Hs' & ->).
  assert (stg' = stg) as -> by congruence.
  destruct (channel_stats_grouped ChannelStats.total_posts (fun _ => true)
              (fun s => eq_refl) (fun c s => eq_refl) stg) as (Hnd & Hcov & _ & _).
  unfold dim_channels_select. split.
  - rewrite row_number_triples. apply order_by_map_NoDup. exact Hnd.
  - intros s Hin Hv.
    destruct (Hcov s) as (g & Hg & Hm).
    { apply filter_In. split; [exact Hin|]. unfold is_valid. rewrite Hv. reflexivity. }
    apply in_group_iff in Hm. apply (proj2 (in_order_by g (channel_stats stg))) in Hg.
    apply (in_map stats_triple) in Hg. rewrite <- (row_number_triples t _ 1) in Hg.
    apply in_map_iff in Hg. destruct Hg as (c & E & Hc). exists c. split; [exact Hc|congruence].
Qed.

(** X13. In a warehouse that the pipeline can produce, no two rows of
    [dim_channels] share their (name, username, title), and every valid
    staging row has a row of its (name, username, title) in
    [dim_channels]. *)
Theorem one_channel_row_per_triple :
  forall (now : Z) (db : warehouse) (stg : list Stg.row) (dc : list DimChannel.row),
    reachable now db ->
    stg_telegram_messages db = Some stg ->
    dim_channels db = Some dc ->
    NoDup (map dim_triple dc)
    /\ forall s, In s stg -> Stg.data_quality_status s = valid ->
         exists c, In c dc /\ dim_triple c = stg_triple s.
Proof. exact channel_rows_cover. Qed.

Lemma retitled_built_reachable : reachable example_now retitled_built.
Proof.
  apply (reach_schema example_now example_today
           (fst (load_raw_data example_now empty_warehouse retitled_files))).
  - apply reach_load, reach_empty.
  - vm_compute. reflexivity.
Defined.

Lemma one_channel_row_per_triple_witness :
  let stg := Sql.COALESCE (stg_telegram_messages retitled_built) [] in
  let dc := Sql.COALESCE (dim_channels retitled_built) [] in
  NoDup (map dim_triple dc)
  /\ forall s, In s stg -> Stg.data_quality_status s = valid ->
       exists c, In c dc /\ dim_triple c = stg_triple s.
Proof.
  apply (one_channel_row_per_triple example_now retitled_built).
  - exact retitled_built_reachable.
  - vm_compute. reflexivity.
  - vm_compute. reflexivity.
Defined.

Lemma count_where_filter {A : Type} (v p : A -> bool) l :
  count_where p (filter v l) = count_where (fun a => v a && p a) l.
Proof.
  unfold count_where. f_equal. f_equal.
  induction l as [|a l IH]; [reflexivity|]. cbn [filter].
  destruct (v a); cbn [filter andb]; [|exact IH].
  destruct (p a); [cbn; f_equal|]; exact IH.
Qed.

Lemma count_where_true {A : Type} (l : list A) :
  count_where (fun _ => true) l = Z.of_nat (List.length l).
Proof.
  unfold count_where. f_equal. f_equal. induction l; cbn; congruence.
Qed.

Lemma posts_of_count now key g stg (q : Stg.row -> bool) :
  count_where (fun s => in_group g s && q s) (filter is_valid stg)
  = count_where q (posts_of (channel_row now key g) stg).
Proof.
  unfold posts_of. rewrite !count_where_filter. apply count_where_ext. intros s _.
  unfold in_group. cbn [DimChannel.channel_name DimChannel.channel_username
                        DimChannel.channel_title channel_row].
  rewrite !andb_assoc. reflexivity.
Qed.

(** X14. In a warehouse that the pipeline can produce, the counts of a
    row of [dim_channels] are those of the valid staging rows of its (name,
    username, title): [total_posts] is their number, [posts_with_media] the
    number of those with media, [posts_with_image] the number of those with
    an image path. *)
Theorem channel_counts :
  forall (now : Z) (db : warehouse) (stg : list Stg.row) (dc : list DimChannel.row)
         (c : DimChannel.row),
    reachable now db ->
    stg_telegram_messages db = Some stg ->
    dim_channels db = Some dc ->
    In c dc ->
    DimChannel.total_posts c = Z.of_nat (List.length (posts_of c stg))
    /\ DimChannel.posts_with_media c
       = count_where (fun s => Sql.COALESCE (Stg.has_media s) false) (posts_of c stg)
    /\ DimChannel.posts_with_image c = count_where Stg.has_image (posts_of c stg).
Proof.
  intros now db stg dc c R Hs Hd Hc.
  destruct (reachable_dim_channels now db R dc Hd) as (t & stg' & Hs' & ->).
  assert (stg' = stg) as -> by congruence.
  apply in_dim_channels_select in Hc. destruct Hc as (key & g & Hg & _ & ->).
  cbn [DimChannel.total_posts DimChannel.posts_with_media DimChannel.posts_with_image
       channel_row].
  split; [|split].
  - destruct (channel_stats_grouped ChannelStats.total_posts (fun _ => true)
                (fun s => eq_refl) (fun c s => eq_refl) stg) as (_ & _ & _ & Hcnt).
    rewrite (Hcnt g Hg), (posts_of_count t key g stg). apply count_where_true.
  - destruct (channel_stats_grouped ChannelStats.posts_with_media
                (fun s => Sql.COALESCE (Stg.has_media s) false)
                (fun s => eq_refl) (fun c s => eq_refl) stg) as (_ & _ & _ & Hcnt).
    rewrite (Hcnt g Hg). apply posts_of_count.
  - destruct (channel_stats_grouped ChannelStats.posts_with_image Stg.has_image
                (fun s => eq_refl) (fun c s => eq_refl) stg) as (_ & _ & _ & Hcnt).
    rewrite (Hcnt g Hg). apply posts_of_count.
Qed.

Lemma channel_counts_witness :
  let stg := Sql.COALESCE (stg_telegram_messages scenario_B_built) [] in
  DimChannel.total_posts scenario_B_channel
  = Z.of_nat (List.length (posts_of scenario_B_channel stg))
  /\ DimChannel.posts_with_media scenario_B_channel
     = count_where (fun s => Sql.COALESCE (Stg.has_media s) false)
                   (posts_of scenario_B_channel stg)
  /\ DimChannel.posts_with_image scenario_B_channel
     = count_where Stg.has_image (posts_of scenario_B_channel stg).
Proof.
  apply (channel_counts example_now scenario_B_built
           (Sql.COALESCE (stg_telegram_messages scenario_B_built) [])
           (Sql.COALESCE (dim_channels scenario_B_built) [])).
  - exact scenario_B_built_reachable.
  - vm_compute. reflexivity.
  - vm_compute. reflexivity.
  - vm_compute. left. reflexivity.
Defined.

Lemma aggregate_sum groups s :
  sum_Z (map ChannelStats.total_posts (aggregate groups s))
  = sum_Z (map ChannelStats.total_posts groups) + 1.
Proof.
  induction groups as [|c rest IH]; cbn [aggregate]; [reflexivity|].
  destruct (in_group c s).
  - cbn [map sum_Z fold_right stats_step ChannelStats.total_posts]. lia.
  - cbn [map sum_Z fold_right] in *.
    fold (sum_Z (map ChannelStats.total_posts (aggregate rest s))). rewrite IH.
    unfold sum_Z. lia.
Qed.

Lemma sum_Z_permutation l l' : Permutation l l' -> sum_Z l = sum_Z l'.
Proof.
  unfold sum_Z. induction 1; cbn [fold_right]; lia.
Qed.

Lemma fold_aggregate_sum rows : forall groups,
  sum_Z (map ChannelStats.total_posts (fold_left aggregate rows groups))
  = sum_Z (map ChannelStats.total_posts groups) + Z.of_nat (List.length rows).
Proof.
  induction rows as [|s rows IH]; intros groups; cbn [fold_left List.length]; [lia|].
  rewrite IH, aggregate_sum. lia.
Qed.

(** X15. In a warehouse that the pipeline can produce, the [total_posts]
    of the rows of [dim_channels] add up to the number of valid staging
    rows: every valid row is counted in one channel row and in one only. *)
Theorem channel_totals_add_up :
  forall (now : Z) (db : warehouse) (stg : list Stg.row) (dc : list DimChannel.row),
    reachable now db ->
    stg_telegram_messages db = Some stg ->
    dim_channels db = Some dc ->
    sum_Z (map DimChannel.total_posts dc) = count_where is_valid stg.
Proof.
  intros now db stg dc R Hs Hd.
  destruct (reachable_dim_channels now db R dc Hd) as (t & stg' & Hs' & ->).
  assert (stg' = stg) as -> by congruence.
  unfold dim_channels_select. rewrite row_number_totals, order_by_sum.
  unfold channel_stats.
  rewrite (sum_Z_permutation _ _ (Permutation_map ChannelStats.total_posts
                                   (order_by_group_columns_permutation (channel_groups stg)))).
  unfold channel_groups. rewrite fold_aggregate_sum. reflexivity.
Qed.

Lemma channel_totals_add_up_witness :
  sum_Z (map DimChannel.total_posts (Sql.COALESCE (dim_channels retitled_built) []))
  = count_where is_valid (Sql.COALESCE (stg_telegram_messages retitled_built) []).
Proof.
  apply (channel_totals_add_up example_now retitled_built).
  - exact retitled_built_reachable.
  - vm_compute. reflexivity.
  - vm_compute. reflexivity.
Defined.

(** ** FactBuilder: resolution of the keys *)

(** *** The fact table of a reachable warehouse *)

Lemma NoDup_map_In_eq {A B : Type} (k : A -> B) l x y :
  NoDup (map k l) -> In x l -> In y l -> k x = k y -> x = y.
Proof.
  induction l as [|a l IH]; intros N Hx Hy E; [destruct Hx|].
  cbn [map] in N. inversion N as [|b bs Hn Hr]; subst.
  destruct Hx as [->|Hx]; destruct Hy as [->|Hy]; [reflexivity | | | auto].
  - exfalso. apply Hn. rewrite E. apply in_map. exact Hy.
  - exfalso. apply Hn. rewrite <- E. apply in_map. exact Hx.
Qed.

Lemma seq_keys_NoDup k n : forall a,
  NoDup (map (fun i => k + Z.of_nat i) (seq a n)).
Proof.
  induction n as [|n IH]; intros a; cbn [seq map]; constructor; [|apply IH].
  intros H. apply in_map_iff in H. destruct H as (i & E & Hi). apply in_seq in Hi. lia.
Qed.

(** The tables of a built reachable warehouse are those of one build. *)
Lemma reachable_tables now db stg dd dc fct :
  reachable now db ->
  stg_telegram_messages db = Some stg ->
  dim_dates db = Some dd ->
  dim_channels db = Some dc ->
  fct_messages db = Some fct ->
  exists t t' today raw added,
    t <= now /\ keys_unique raw
    /\ raw_telegram_messages db = Some (raw ++ added)
    /\ stg = stg_select t raw
    /\ dd = dim_dates_select today stg
    /\ dc = dim_channels_select t' stg
    /\ fct = fct_select stg dc dd.
Proof.
  intros R Hs Hd Hc Hf.
  destruct (reachable_shape now db R) as (_ & [(_ & _ & _ & Bf) | B]); [congruence|].
  destruct B as (t & raw & added & Ht & Hu & Hr & Bs
                 & [(Bd & _) | (t' & today & Bd & Bc & Bf)]); [congruence|].
  exists t, t', today, raw, added.
  assert (stg = stg_select t raw) as -> by congruence.
  assert (dd = dim_dates_select today (stg_select t raw)) as -> by congruence.
  assert (dc = dim_channels_select t' (stg_select t raw)) as -> by congruence.
  repeat split; try assumption. congruence.
Qed.

(** A warehouse in which a table after the staging table exists has all
    four derived tables. *)
Lemma reachable_all_built now db :
  reachable now db ->
  fct_messages db <> None \/ dim_dates db <> None \/ dim_channels db <> None ->
  exists stg dd dc fct,
    stg_telegram_messages db = Some stg /\ dim_dates db = Some dd
    /\ dim_channels db = Some dc /\ fct_messages db = Some fct.
Proof.
  intros R H.
  destruct (reachable_shape now db R) as (_ & [(Bs & Bd & Bc & Bf) | B]).
  - exfalso. destruct H as [H|[H|H]]; congruence.
  - destruct B as (t & raw & added & _ & _ & _ & Bs
                   & [(Bd & Bc & Bf) | (t' & today & Bd & Bc & Bf)]).
    + exfalso. destruct H as [H|[H|H]]; congruence.
    + eauto 8.
Qed.

(** X16. In a warehouse that the pipeline can produce, every row of
    [fct_messages] is valid and is the fact row of a valid staging row, of a
    row of [dim_channels] with the channel name of that staging row, and of
    the row of [dim_dates] for the day of its [message_date]; its
    [channel_key] and its [date_key] each belong to one row of their
    dimension only. *)
Theorem fact_rows_resolve :
  forall (now : Z) (db : warehouse) (stg : list Stg.row) (dd : list DimDate.row)
         (dc : list DimChannel.row) (fct : list Fct.row) (f : Fct.row),
    reachable now db ->
    stg_telegram_messages db = Some stg ->
    dim_dates db = Some dd ->
    dim_channels db = Some dc ->
    fct_messages db = Some fct ->
    In f fct ->
    Fct.data_quality_status f = valid
    /\ exists m c d,
         In m stg /\ In c dc /\ In d dd
         /\ f = fact_of m c d
         /\ Stg.data_quality_status m = valid
         /\ DimChannel.channel_name c = Stg.channel_name m
         /\ DimDate.full_date d = Calendar.DATE (Stg.message_date m)
         /\ (forall c', In c' dc ->
               DimChannel.channel_key c' = Fct.channel_key f -> c' = c)
         /\ (forall d', In d' dd -> DimDate.date_key d' = Fct.date_key f -> d' = d).
Proof.
  intros now db stg dd dc fct f R Hs Hd Hc Hf Hin.
  destruct (reachable_tables now db stg dd dc fct R Hs Hd Hc Hf)
    as (t & t' & today & raw & added & _ & _ & _ & Es & Ed & Ec & Ef).
  rewrite Ef in Hin. apply in_fct_select in Hin.
  destruct Hin as (m & c & d & Hm & Hc0 & Hd0 & En & Ed0 & Q & ->).
  split; [exact Q|]. exists m, c, d.
  split; [exact Hm|]. split; [exact Hc0|]. split; [exact Hd0|].
  split; [reflexivity|]. split; [exact Q|]. split; [symmetry; exact En|].
  split; [symmetry; exact Ed0|]. split.
  - intros c' Hc'' E. symmetry.
    apply (NoDup_map_In_eq DimChannel.channel_key dc c c'); auto.
    rewrite Ec. unfold dim_channels_select.
    rewrite row_number_keys. apply seq_keys_NoDup.
  - intros d' Hd'' E. symmetry.
    apply (NoDup_map_In_eq DimDate.date_key dd d d'); auto.
    rewrite Ed.
    assert (K : map DimDate.date_key (dim_dates_select today stg)
                = map Calendar.yyyymmdd
                    (map DimDate.full_date (dim_dates_select today stg))).
    { rewrite map_map. apply map_ext_in. intros r Hr.
      rewrite (in_dim_dates_select today stg r Hr) at 1. reflexivity. }
    rewrite K, dim_dates_select_full_dates.
    apply yyyymmdd_NoDup, date_range_NoDup.
Qed.

Lemma fact_rows_resolve_witness :
  let stg := Sql.COALESCE (stg_telegram_messages scenario_B_built) [] in
  let dd := Sql.COALESCE (dim_dates scenario_B_built) [] in
  let dc := Sql.COALESCE (dim_channels scenario_B_built) [] in
  let f := fact_of (hd (cleaned_row 0 (RawData.mk 0 EmptyString None None jan_15 None
                                                  None None 0 0 None)) stg)
                   scenario_B_channel (date_row 19737) in
  Fct.data_quality_status f = valid
  /\ exists m c d,
       In m stg /\ In c dc /\ In d dd
       /\ f = fact_of m c d
       /\ Stg.data_quality_status m = valid
       /\ DimChannel.channel_name c = Stg.channel_name m
       /\ DimDate.full_date d = Calendar.DATE (Stg.message_date m)
       /\ (forall c', In c' dc ->
             DimChannel.channel_key c' = Fct.channel_key f -> c' = c)
       /\ (forall d', In d' dd -> DimDate.date_key d' = Fct.date_key f -> d' = d).
Proof.
  apply (fact_rows_resolve example_now scenario_B_built _ _ _
           (Sql.COALESCE (fct_messages scenario_B_built) [])).
  - exact scenario_B_built_reachable.
  - vm_compute. reflexivity.
  - vm_compute. reflexivity.
  - vm_compute. reflexivity.
  - vm_compute. reflexivity.
  - vm_compute. left. reflexivity.
Defined.











(** ** The test runner and the whole run *)

(** *** The data tests on a reachable warehouse *)

Lemma left_join_matched {A B : Type} (on : A -> B -> bool) l r :
  (forall a, In a l -> exists b, In b r /\ on a b = true) ->
  count_where unmatched (left_join on l r) = 0.
Proof.
  intros H. apply count_where_none. intros (a & ob) Hin.
  destruct ob as [b|]; [reflexivity|]. exfalso.
  unfold left_join in Hin. apply in_flat_map in Hin. destruct Hin as (a' & Ha & Hin).
  destruct (H a' Ha) as (b & Hb & Hon).
  assert (Hf : In b (filter (on a') r)) by (apply filter_In; auto).
  destruct (filter (on a') r) as [|b0 bs]; [destruct Hf|].
  apply in_map_iff in Hin. destruct Hin as (x & E & _). discriminate.
Qed.

Lemma channel_type_text_not_empty t :
  String.eqb (channel_type_text t) EmptyString = false.
Proof. destruct t; reflexivity. Qed.

Lemma valid_row_flags now r :
  is_valid (cleaned_row now r) = true ->
  after_clock now (RawData.message_date r) = false /\ (RawData.views r <? 0) = false.
Proof.
  unfold is_valid, cleaned_row. cbn [Stg.data_quality_status].
  destruct (after_clock now (RawData.message_date r)), (RawData.views r <? 0);
    rewrite ?orb_true_r; cbn; try discriminate; auto.
Qed.

(** The two checks on the staging table count no row. *)
Lemma staging_checks_count_nothing now db stg :
  reachable now db ->
  stg_telegram_messages db = Some stg ->
  count_where (fun s => after_clock now (Stg.message_date s) && is_valid s) stg = 0
  /\ count_where (fun s => (Stg.views s <? 0) && is_valid s) stg = 0.
Proof.
  intros R Hs. split.
  - apply count_where_none. intros s Hin.
    destruct (staging_never_ahead_of_clock now db stg s R Hs Hin) as (Hle & _).
    rewrite Hle. reflexivity.
  - destruct (reachable_staging now db R stg Hs) as (t & raw & _ & Es).
    apply count_where_none. intros s Hin. rewrite Es in Hin.
    apply in_stg_select in Hin. destruct Hin as (r & md & _ & _ & _ & ->).
    destruct (is_valid (cleaned_row t (source_row r md))) eqn:V;
      [|apply andb_false_r].
    apply valid_row_flags in V. destruct V as (_ & V). rewrite andb_true_r. exact V.
Qed.

(** On a warehouse whose derived tables exist, the five checks run and none
    counts a row. *)
Lemma run_data_tests_built now db :
  reachable now db ->
  fct_messages db <> None ->
  run_data_tests now db = mk_report true five_passes.
Proof.
  intros R Hb.
  destruct (reachable_all_built now db R) as (stg & dd & dc & fct & Hs & Hd & Hc & Hf);
    [left; exact Hb|].
  destruct (reachable_tables now db stg dd dc fct R Hs Hd Hc Hf)
    as (t & t' & today & raw & added & Ht & _ & _ & Es & Ed & Ec & Ef).
  destruct (staging_checks_count_nothing now db stg R Hs) as (T1 & T2).
  assert (T3 : count_where
                 (fun c => String.eqb (channel_type_text (DimChannel.channel_type_ c))
                                      EmptyString) dc = 0).
  { apply count_where_none. intros c _. apply channel_type_text_not_empty. }
  assert (T4 : count_where unmatched
                 (left_join (fun f c => Fct.channel_key f =? DimChannel.channel_key c)
                            fct dc) = 0).
  { apply left_join_matched. intros f Hin. rewrite Ef in Hin.
    apply in_fct_select in Hin. destruct Hin as (m & c & d & _ & Hc0 & _ & _ & _ & _ & ->).
    exists c. split; [exact Hc0|]. apply Z.eqb_refl. }
  assert (T5 : count_where unmatched
                 (left_join (fun f d => Fct.date_key f =? DimDate.date_key d) fct dd) = 0).
  { apply left_join_matched. intros f Hin. rewrite Ef in Hin.
    apply in_fct_select in Hin. destruct Hin as (m & c & d & _ & _ & Hd0 & _ & _ & _ & ->).
    exists d. split; [exact Hd0|]. apply Z.eqb_refl. }
  unfold run_data_tests. rewrite run_tests_report. unfold tests, ran_and_passed, reported.
  cbn [forallb flat_map query should_be_zero test_name].
  rewrite Hs, Hc, Hf, Hd. cbn beta iota.
  rewrite T1, T2, T3, T4, T5. reflexivity.
Qed.

(** A warehouse without the fact table has no dimension either. *)
Lemma reachable_without_facts now db :
  reachable now db ->
  fct_messages db = None ->
  dim_dates db = None /\ dim_channels db = None.
Proof.
  intros R Hf.
  destruct (reachable_shape now db R) as (_ & [(_ & Bd & Bc & _) | B]); [auto|].
  destruct B as (t & raw & added & _ & _ & _ & _
                 & [(Bd & Bc & _) | (t' & today & _ & _ & Bf)]); [auto|congruence].
Qed.

(** On a warehouse that holds the staging table alone, the two checks on
    it run and pass, and the three others raise. *)
Lemma run_data_tests_staging_only now db :
  reachable now db ->
  stg_telegram_messages db <> None ->
  fct_messages db = None ->
  run_data_tests now db = mk_report false (firstn 2 five_passes).
Proof.
  intros R Hs Hf.
  destruct (reachable_without_facts now db R Hf) as (Hd & Hc).
  destruct (stg_telegram_messages db) as [stg|] eqn:Es; [|congruence].
  destruct (staging_checks_count_nothing now db stg R Es) as (T1 & T2).
  unfold run_data_tests. rewrite run_tests_report. unfold tests, ran_and_passed, reported.
  cbn [forallb flat_map query should_be_zero test_name].
  rewrite Es, Hc, Hf. cbn beta iota.
  rewrite T1, T2. reflexivity.
Qed.

(** On a warehouse without the staging table every query raises. *)
Lemma run_data_tests_unbuilt now db :
  reachable now db ->
  stg_telegram_messages db = None ->
  run_data_tests now db = mk_report false [].
Proof.
  intros R Hs.
  destruct (reachable_shape now db R) as (_ & [(Bs & Bd & Bc & Bf) | B]).
  - unfold run_data_tests. rewrite run_tests_report. unfold tests, ran_and_passed, reported.
    cbn [forallb flat_map query should_be_zero test_name].
    rewrite Bs, Bc, Bf. reflexivity.
  - destruct B as (t & raw & added & _ & _ & _ & Bs & _). congruence.
Qed.

(** X19. On a warehouse that the pipeline can produce, [run_data_tests]
    cannot report a failure: a check whose query runs counts 0 rows and
    passes. When the fact table exists, the five checks all run and
    [all_passed] is true. When the staging table exists and the fact table
    does not (a call of [create_star_schema] raised on the dates after it
    had created the staging table), the two checks on the staging table
    pass, the three others raise, and [all_passed] is false. When the
    staging table does not exist, every query raises, [results] is empty
    and [all_passed] is false. *)
Theorem data_tests_never_fail_on_pipeline_output :
  forall (now : Z) (db : warehouse),
    reachable now db ->
    (fct_messages db <> None -> run_data_tests now db = mk_report true five_passes)
    /\ (stg_telegram_messages db <> None -> fct_messages db = None ->
        run_data_tests now db = mk_report false (firstn 2 five_passes))
    /\ (stg_telegram_messages db = None -> run_data_tests now db = mk_report false []).
Proof.
  intros now db R. split; [|split].
  - apply run_data_tests_built. exact R.
  - apply run_data_tests_staging_only. exact R.
  - apply run_data_tests_unbuilt. exact R.
Qed.

Lemma data_tests_never_fail_on_pipeline_output_witness :
  (fct_messages scenario_B_built <> None ->
   run_data_tests example_now scenario_B_built = mk_report true five_passes)
  /\ (stg_telegram_messages scenario_B_built <> None ->
      fct_messages scenario_B_built = None ->
      run_data_tests example_now scenario_B_built
      = mk_report false (firstn 2 five_passes))
  /\ (stg_telegram_messages scenario_B_built = None ->
      run_data_tests example_now scenario_B_built = mk_report false []).
Proof.
  apply (data_tests_never_fail_on_pipeline_output example_now scenario_B_built).
  exact scenario_B_built_reachable.
Defined.

(** *** The whole run *)







(** A run on a record of 0001-01-15 raises: thirty days before that day no
    [datetime.date] exists. The staging table is left behind alone, with a
    valid row, and the two checks that run on it pass. *)
Lemma run_on_a_record_of_year_one :
  let '(db, ended) :=
    run example_now example_now example_today example_now empty_warehouse
        year_one_files in
  ended = None
  /\ option_map (map (fun s => (Stg.message_id s, Stg.data_quality_status s)))
                (stg_telegram_messages db) = Some [(6, valid)]
  /\ dim_dates db = None /\ dim_channels db = None /\ fct_messages db = None
  /\ run_data_tests example_now db = mk_report false (firstn 2 five_passes).
Proof. vm_compute. repeat split; reflexivity. Qed.

(** ** Outside the warehouse: dbt commands and image categories *)

(** *** [run_dbt_commands] *)

Lemma run_commands_stops sh cmds :
  (snd (run_commands sh cmds) = Some true
   /\ fst (run_commands sh cmds) = cmds
   /\ forall c, In c cmds -> sh c = exit_zero)
  \/ exists pre c post,
       cmds = pre ++ c :: post
       /\ fst (run_commands sh cmds) = pre ++ [c]
       /\ (forall x, In x pre -> sh x = exit_zero)
       /\ (sh c = exit_nonzero /\ snd (run_commands sh cmds) = Some false
           \/ sh c = not_started /\ snd (run_commands sh cmds) = None).
Proof.
  induction cmds as [|cmd rest IH]; cbn [run_commands].
  - left. cbn. intuition.
  - destruct (sh cmd) eqn:E.
    + destruct (run_commands sh rest) as [ran r]. cbn [fst snd] in *.
      destruct IH as [(Hr & Hran & Hall) | (pre & c & post & Hc & Hran & Hpre & Hend)].
      * left. split; [exact Hr|]. split; [congruence|].
        intros c [<-|Hc]; [exact E|apply Hall; exact Hc].
      * right. exists (cmd :: pre), c, post. cbn [app].
        split; [congruence|]. split; [congruence|]. split; [|exact Hend].
        intros x [<-|Hx]; [exact E|apply Hpre; exact Hx].
    + right. exists [], cmd, rest. cbn. intuition.
    + right. exists [], cmd, rest. cbn. intuition.
Qed.

(** X21. [run_dbt_commands] stops at the first command that does not
    exit with status 0. Either all four commands were run, in order, each
    exited with 0 and the value is [True]; or the commands run are those
    up to and including the first that failed, those before it exited with
    0, and the value is [False] for a non-zero exit status while an exception
    leaves the function when the command could not be started. *)
Theorem run_dbt_commands_stops_at_first_failure :
  forall (sh : string -> process_end),
    (snd (run_dbt_commands sh) = Some true
     /\ fst (run_dbt_commands sh) = commands
     /\ forall c, In c commands -> sh c = exit_zero)
    \/ exists pre c post,
         commands = pre ++ c :: post
         /\ fst (run_dbt_commands sh) = pre ++ [c]
         /\ (forall x, In x pre -> sh x = exit_zero)
         /\ (sh c = exit_nonzero /\ snd (run_dbt_commands sh) = Some false
             \/ sh c = not_started /\ snd (run_dbt_commands sh) = None).
Proof. intros sh. apply run_commands_stops. Qed.

(** *** [YOLODetector.classify_image] *)

Lemma medical_objects_are_products obj :
  member obj medical_objects = true -> member obj product_objects = true.
Proof.
  unfold member, medical_objects, product_objects. cbn [existsb].
  rewrite !orb_false_r. intros H. apply orb_true_iff in H.
  destruct H as [H|H]; rewrite H; rewrite ?orb_true_r; reflexivity.
Qed.

Lemma has_medical_has_product detections :
  any_in medical_objects detections = true -> any_in product_objects detections = true.
Proof.
  unfold any_in. rewrite !existsb_exists. intros (obj & Hin & H).
  exists obj. split; [exact Hin|]. apply medical_objects_are_products. exact H.
Qed.

(** X22. [classify_image] never answers 'medical_product': the two
    medical objects are also product objects, so the branches before it
    take every list that holds one. It answers 'no_detection' for the empty
    list only, and 'other_content' exactly for a list that is not empty and
    holds neither a person nor a product. *)
Theorem classify_image_is_never_medical_product :
  forall (detections : list string),
    classify_image detections <> medical_product
    /\ (classify_image detections = no_detection <-> detections = [])
    /\ (classify_image detections = other_content
        <-> detections <> []
            /\ any_in person_objects detections = false
            /\ any_in product_objects detections = false).
Proof.
  intros detections. pose proof (has_medical_has_product detections) as M.
  unfold classify_image. destruct detections as [|d ds].
  - split; [discriminate|]. split; [tauto|]. split; [discriminate|]. intros (H & _). congruence.
  - remember (d :: ds) as l eqn:El.
    destruct (any_in person_objects l), (any_in product_objects l),
             (any_in medical_objects l); cbn;
      try (specialize (M eq_refl); discriminate);
      (split; [discriminate|]); (split; [split; [discriminate|subst; discriminate]|]);
      (split; [try discriminate; intros _; subst; repeat split; discriminate
              | try reflexivity; intros (_ & H1 & H2); discriminate]).
Qed.

(** ** ChannelDimensionBuilder: aggregates of a group *)

Lemma filter_app_one {A : Type} (p : A -> bool) l a :
  filter p (l ++ [a]) = filter p l ++ (if p a then [a] else []).
Proof. rewrite filter_app. cbn. destruct (p a); reflexivity. Qed.

Section GroupProperty.

(** A property of a group and of its rows that holds for a group of one row
    and is kept when a row joins. *)
Variable P : ChannelStats.row -> list Stg.row -> Prop.
Hypothesis P_first : forall s, P (stats_first s) [s].
Hypothesis P_step : forall c l s, P c l -> P (stats_step c s) (l ++ [s]).

Lemma group_property_step groups done s :
  grouped ChannelStats.total_posts (fun _ => true) groups done ->
  (forall c, In c groups -> P c (filter (in_group c) done)) ->
  forall c, In c (aggregate groups s) -> P c (filter (in_group c) (done ++ [s])).
Proof.
  intros (Hnd & Hcov & _ & _) Hp x Hx. rewrite filter_app_one.
  destruct (aggregate_cases groups s)
    as [(pre & c & post & -> & Hpre & Hc & E) | (Hno & E)]; rewrite E in Hx.
  - assert (Hother : forall y, In y pre \/ In y post -> in_group y s = false).
    { intros y [Hy|Hy]; [auto|].
      destruct (in_group y s) eqn:G; [|reflexivity]. exfalso.
      apply in_group_iff in G, Hc. rewrite map_app in Hnd. cbn [map] in Hnd.
      apply NoDup_remove_2 in Hnd. apply Hnd. apply in_or_app. right.
      apply in_map_iff. exists y. split; [congruence|assumption]. }
    apply in_mid in Hx. destruct Hx as [Hx|[->|Hx]].
    + rewrite (Hother x (or_introl Hx)), app_nil_r. apply Hp, in_mid. left. exact Hx.
    + change (in_group (stats_step c s)) with (in_group c). rewrite Hc.
      apply P_step, Hp, in_mid. right. left. reflexivity.
    + rewrite (Hother x (or_intror Hx)), app_nil_r. apply Hp, in_mid. right. right. exact Hx.
  - apply in_app_or in Hx. destruct Hx as [Hx|[<-|[]]].
    + rewrite (Hno x Hx), app_nil_r. apply Hp. exact Hx.
    + rewrite in_group_first.
      assert (F : filter (in_group (stats_first s)) done = []).
      { destruct (filter (in_group (stats_first s)) done) as [|s' rest] eqn:F;
          [reflexivity|]. exfalso.
        assert (Hs' : In s' (filter (in_group (stats_first s)) done))
          by (rewrite F; left; reflexivity).
        apply filter_In in Hs'. destruct Hs' as (Hs' & G).
        destruct (Hcov s' Hs') as (y & Hy & Hg).
        assert (in_group y s = true); [|rewrite (Hno y Hy) in *; discriminate].
        apply in_group_iff. apply in_group_iff in G, Hg.
        rewrite stats_first_triple in G. congruence. }
      rewrite F. apply P_first.
Qed.

Lemma group_property_fold rows : forall groups done,
  grouped ChannelStats.total_posts (fun _ => true) groups done ->
  (forall c, In c groups -> P c (filter (in_group c) done)) ->
  forall c, In c (fold_left aggregate rows groups) ->
    P c (filter (in_group c) (done ++ rows)).
Proof.
  induction rows as [|s rows IH]; intros groups done G H; cbn [fold_left].
  - rewrite app_nil_r. exact H.
  - replace (done ++ s :: rows) with ((done ++ [s]) ++ rows)
      by (rewrite <- app_assoc; reflexivity).
    apply IH.
    + apply grouped_step; [reflexivity | reflexivity | exact G].
    + apply group_property_step; assumption.
Qed.

Lemma channel_stats_property stg c :
  In c (channel_stats stg) -> P c (filter (in_group c) (filter is_valid stg)).
Proof.
  intros Hc. apply in_channel_stats in Hc. revert Hc. unfold channel_groups.
  apply (group_property_fold (filter is_valid stg) [] []).
  - apply grouped_nil.
  - intros x [].
Qed.

End GroupProperty.

Lemma posts_of_group now key g stg :
  posts_of (channel_row now key g) stg = filter (in_group g) (filter is_valid stg).
Proof.
  unfold posts_of, in_group.
  cbn [DimChannel.channel_name DimChannel.channel_username DimChannel.channel_title
       channel_row].
  induction stg as [|s stg IH]; [reflexivity|]. cbn [filter].
  destruct (is_valid s); cbn [andb filter]; rewrite IH; reflexivity.
Qed.

Lemma text_le_refl a : Sql.text_le a a = true.
Proof. unfold Sql.text_le, String.leb. rewrite string_compare_refl. reflexivity. Qed.

Lemma text_le_total a b : Sql.text_le a b = false -> Sql.text_le b a = true.
Proof.
  unfold Sql.text_le. intros H.
  destruct (String.leb_total a b) as [L|L]; [congruence|exact L].
Qed.

(** X23. In a warehouse that the pipeline can produce,
    [first_post_date] and [last_post_date] of a row of [dim_channels] are
    the least and the greatest [message_date], as texts, among the valid
    staging rows of its (name, username, title): the text of no such row is
    outside them, each of the two is the [message_date] of one of them, and
    the text of the latest is not after that of the clock. *)
Theorem channel_post_dates :
  forall (now : Z) (db : warehouse) (stg : list Stg.row) (dc : list DimChannel.row)
         (c : DimChannel.row),
    reachable now db ->
    stg_telegram_messages db = Some stg ->
    dim_channels db = Some dc ->
    In c dc ->
    (forall s, In s (posts_of c stg) ->
       Sql.text_le (Timestamp.text (DimChannel.first_post_date c))
                   (Timestamp.text (Stg.message_date s)) = true
       /\ Sql.text_le (Timestamp.text (Stg.message_date s))
                      (Timestamp.text (DimChannel.last_post_date c)) = true)
    /\ (exists s, In s (posts_of c stg)
                  /\ Stg.message_date s = DimChannel.first_post_date c)
    /\ (exists s, In s (posts_of c stg)
                  /\ Stg.message_date s = DimChannel.last_post_date c)
    /\ after_clock now (DimChannel.last_post_date c) = false.
Proof.
  intros now db stg dc c R Hs Hd Hc.
  destruct (reachable_dim_channels now db R dc Hd) as (t & stg' & Hs' & ->).
  assert (stg' = stg) as -> by congruence.
  apply in_dim_channels_select in Hc. destruct Hc as (key & g & Hg & _ & ->).
  rewrite posts_of_group.
  cbn [DimChannel.first_post_date DimChannel.last_post_date channel_row].
  pose proof (channel_stats_property
    (fun c l =>
       (forall s, In s l ->
          Sql.text_le (Timestamp.text (ChannelStats.first_post_date c))
                      (Timestamp.text (Stg.message_date s)) = true
          /\ Sql.text_le (Timestamp.text (Stg.message_date s))
                         (Timestamp.text (ChannelStats.last_post_date c)) = true)
       /\ (exists s, In s l /\ Stg.message_date s = ChannelStats.first_post_date c)
       /\ (exists s, In s l /\ Stg.message_date s = ChannelStats.last_post_date c))) as K.
  destruct (K) with (stg := stg) (c := g) as (Hall & (a & Ha & Ea) & (b & Hb & Eb)).
  - intros s. cbn [stats_first ChannelStats.first_post_date ChannelStats.last_post_date].
    split; [intros x [<-|[]]; split; apply text_le_refl|].
    split; exists s; split; (left; reflexivity) || reflexivity.
  - intros x l s (Hall & (a & Ha & Ea) & (b & Hb & Eb)).
    cbn [stats_step ChannelStats.first_post_date ChannelStats.last_post_date].
    unfold text_min, text_max.
    destruct (Sql.text_le (Timestamp.text (ChannelStats.first_post_date x))
                          (Timestamp.text (Stg.message_date s))) eqn:Lo;
      destruct (Sql.text_le (Timestamp.text (ChannelStats.last_post_date x))
                            (Timestamp.text (Stg.message_date s))) eqn:Hi.
    all: try (apply text_le_total in Lo). all: try (apply text_le_total in Hi).
    all: (split; [|split]);
      [ intros y Hy; apply in_app_or in Hy; destruct Hy as [Hy|[<-|[]]];
        [ destruct (Hall y Hy) as (L1 & L2); split;
          eauto using text_le_trans
        | split; auto using text_le_refl ]
      | first [ exists a; split; [apply in_or_app; left; exact Ha | exact Ea]
              | exists s; split; [apply in_or_app; right; left; reflexivity | reflexivity] ]
      | first [ exists b; split; [apply in_or_app; left; exact Hb | exact Eb]
              | exists s; split; [apply in_or_app; right; left; reflexivity | reflexivity] ] ].
  - exact Hg.
  - split; [exact Hall|]. split; [eauto|]. split; [eauto|].
    rewrite <- Eb.
    apply filter_In in Hb. destruct Hb as (Hb & _). apply filter_In in Hb.
    destruct Hb as (Hb & _).
    apply (staging_never_ahead_of_clock now db stg b R Hs Hb).
Qed.

Lemma channel_post_dates_witness :
  let stg := Sql.COALESCE (stg_telegram_messages scenario_B_built) [] in
  let c := scenario_B_channel in
  (forall s, In s (posts_of c stg) ->
     Sql.text_le (Timestamp.text (DimChannel.first_post_date c))
                 (Timestamp.text (Stg.message_date s)) = true
     /\ Sql.text_le (Timestamp.text (Stg.message_date s))
                    (Timestamp.text (DimChannel.last_post_date c)) = true)
  /\ (exists s, In s (posts_of c stg)
                /\ Stg.message_date s = DimChannel.first_post_date c)
  /\ (exists s, In s (posts_of c stg)
                /\ Stg.message_date s = DimChannel.last_post_date c)
  /\ after_clock example_now (DimChannel.last_post_date c) = false.
Proof.
  apply (channel_post_dates example_now scenario_B_built _
           (Sql.COALESCE (dim_channels scenario_B_built) [])).
  - exact scenario_B_built_reachable.
  - vm_compute. reflexivity.
  - vm_compute. reflexivity.
  - vm_compute. left. reflexivity.
Defined.

(** *** Keywords that never decide *)

Section Shadowed.
Local Open Scope string_scope.








End Shadowed.

(** *** Size of the date dimension, and tables that are never rebuilt *)




(** X27. Once [create_star_schema] has succeeded, no later load and no
    later call of [create_star_schema] changes the staging table, the
    dimensions or the fact table: after any load and a second call, at any
    time, the four tables are those of the first call, and only
    [raw_telegram_messages] holds what the load added. *)
Theorem derived_tables_are_never_rebuilt :
  forall (now today clock now' today' : Z) (db built again : warehouse)
         (json_files : list json_file),
    create_star_schema now today db = Some built ->
    create_star_schema now' today' (fst (load_raw_data clock built json_files))
    = Some again ->
    stg_telegram_messages again = stg_telegram_messages built
    /\ dim_dates again = dim_dates built
    /\ dim_channels again = dim_channels built
    /\ fct_messages again = fct_messages built
    /\ raw_telegram_messages again
       = raw_telegram_messages (fst (load_raw_data clock built json_files)).
Proof.
  intros now today clock now' today' db built again files H1 H2.
  destruct (load_raw_data_keeps_schema clock built files) as (Ls & Ld & Lc & Lf).
  cbv zeta in Ls, Ld, Lc, Lf.
  apply create_star_schema_inv in H1.
  destruct H1 as (stg & dd & dc & fct & -> & _).
  cbn [stg_telegram_messages dim_dates dim_channels fct_messages] in *.
  destruct (create_star_schema_keeps _ _ _ _ H2) as (Ks & Kd & Kc & Kf).
  rewrite (Ks stg Ls), (Kd dd Ld), (Kc dc Lc), (Kf fct Lf).
  apply create_star_schema_inv in H2.
  destruct H2 as (stg2 & dd2 & dc2 & fct2 & -> & _).
  repeat split; reflexivity.
Qed.

Lemma derived_tables_are_never_rebuilt_witness :
  stg_telegram_messages second_run = stg_telegram_messages first_run
  /\ dim_dates second_run = dim_dates first_run
  /\ dim_channels second_run = dim_channels first_run
  /\ fct_messages second_run = fct_messages first_run
  /\ raw_telegram_messages second_run = raw_telegram_messages second_load.
Proof.
  apply (derived_tables_are_never_rebuilt
           example_now example_today (example_now + 86400)
           (example_now + 86400) (example_today + 1)
           (fst (load_raw_data example_now empty_warehouse
                   [FileList [JDict scenario_A_record]]))
           first_run second_run
           [FileList [JDict scenario_A_record; JDict older_record]]).
  - vm_compute. reflexivity.
  - vm_compute. reflexivity.
Defined.
